(** * The CDAP UI gateway: a shallow embedding of its express server

    The gateway is the express application built by [makeApp].  The
    embedding follows the source handler by handler:

    - JavaScript objects used as maps (the configuration, header objects,
      query strings, cookies) are finite maps from property names to
      values ([gmap string value]); a missing property reads as
      [undefined];
    - a handler is a function from the request and the request context
      (response under construction, shared server state, outbound calls
      issued so far) to a [Flow]: the response is finished, or control is
      handed to the next layer, as with express's [next()];
    - the modules the file imports from the rest of the repository
      (server/url-helper, server/token, server/uiThemeWrapper) and the
      platform (process.env, the network reached through [request], the
      file system, the uuid generators) are the fields of two classes,
      [Imports] and [Host];
    - calls to the log4js logger write to the process log only and are
      left out. *)

From Stdlib Require Import ZArith Ascii String DecimalString List Bool Lia.
From Stdlib Require DecimalN.
From stdpp Require Import base option strings gmap list.

Import ListNotations.
Local Open Scope string_scope.
Local Open Scope Z_scope.

(** ** JavaScript values and objects *)

Module Js.

(** The values that flow through the handlers: property reads give a
    string or [undefined]. *)
Inductive value : Type :=
| undefined
| str (s : string).

Definition value_eqb (a b : value) : bool :=
  match a, b with
  | undefined, undefined => true
  | str x, str y => String.eqb x y
  | _, _ => false
  end.

(** [v === 'lit'] *)
Definition is_str (v : value) (lit : string) : bool :=
  match v with
  | str s => String.eqb s lit
  | undefined => false
  end.

(** ToBoolean: [undefined] and the empty string are falsy. *)
Definition truthy (v : value) : bool :=
  match v with
  | undefined => false
  | str s => negb (String.eqb s "")
  end.

(** [a || b] on values. *)
Definition or_else (a b : value) : value :=
  if truthy a then a else b.

(** ToString, as in a template literal or a property key. *)
Definition to_string (v : value) : string :=
  match v with
  | undefined => "undefined"
  | str s => s
  end.

(** ['lit' + v] *)
Definition concat (pre : string) (v : value) : string :=
  pre ++ to_string v.

(** [o[k]] and [delete o[k]] on an object used as a map. *)
Definition get (o : gmap string value) (k : string) : value :=
  default undefined (o !! k).

Definition del (o : gmap string value) (k : string) : gmap string value :=
  delete k o.

(** [o[k] = v]: the property exists afterwards, also when [v] is
    [undefined]. *)
Definition set (o : gmap string value) (k : string) (v : value)
  : gmap string value :=
  <[k := v]> o.

(** The data handed to [JSON.stringify]. *)
#[local] Unset Elimination Schemes.
Inductive json : Type :=
| JUndefined
| JBool (b : bool)
| JString (s : string)
| JArray (items : list json)
| JObject (fields : list (string * json)).
#[local] Set Elimination Schemes.

Definition json_of (v : value) : json :=
  match v with
  | undefined => JUndefined
  | str s => JString s
  end.

(** [v || false] *)
Definition json_or_false (v : value) : json :=
  if truthy v then json_of v else JBool false.

Definition json_of_obj (o : gmap string value) : json :=
  JObject (map (fun kv => (fst kv, json_of (snd kv))) (map_to_list o)).

End Js.

Import Js.

Abbreviation obj := (gmap string value).

(** ** Responses of an upstream server and the sanitizer *)

(** An object with a [headers] property, whatever else it carries:
    [headers] is [None] when [typeof res.headers] is not ['object']. *)
Record Message (A : Type) : Type := mkMessage {
  headers : option obj;
  content : A
}.
Arguments mkMessage {A} _ _.
Arguments headers {A} _.
Arguments content {A} _.

(** What [request] hands to a ['response'] listener: the status and
    the body next to the headers, which come under the lower-case names
    Node gives to received headers. *)
Record Reply : Type := mkReply {
  statusCode : Z;
  body : string
}.

Abbreviation Upstream := (Message Reply).

Definition AUTH_MODE : string := "security.authentication.mode".
Definition IDENTITY_HEADER : string :=
  "security.authentication.proxy.user.identity.header".

(** [stripAuthHeadersInProxyMode] *)
Definition stripAuthHeadersInProxyMode {A} (cdapConfig : obj)
    (res : Message A) : Message A :=
  match is_str (get cdapConfig AUTH_MODE) "PROXY", headers res with
  | true, Some h =>
      let h1 := del h "Authorization" in
      let h2 := del h1 (to_string (get cdapConfig IDENTITY_HEADER)) in
      mkMessage (Some h2) (content res)
  | _, _ => res
  end.

(** A name the sanitizer deletes in proxy mode. *)
Definition guarded (cdapConfig : obj) (k : string) : Prop :=
  k = "Authorization" \/ k = to_string (get cdapConfig IDENTITY_HEADER).

(** ** Requests, outbound calls and the environment *)

(** An incoming request as the handlers read it: [req_path] is the path
    split at its slashes (the empty list for [/], a last empty segment
    for a trailing slash), [req_headers] has the lower-case names Node gives
    them, [req_cookies] and [req_body] are what cookieParser and
    bodyParser leave on the request ([req_body] is [None] when the body
    parser rejects the body), [req_payload] is the raw body stream. *)
Record Request : Type := mkRequest {
  req_method : string;
  req_path : list string;
  req_query : obj;
  req_headers : obj;
  req_cookies : obj;
  req_body : option obj;
  req_payload : string
}.

(** Where an outbound call goes: a URL, or the backend host resolved by
    express-http-proxy followed by the request's own path. *)
Inductive Target : Type :=
| ToUrl (url : value)
| ToBackend (host : string) (path : list string).

(** A call issued through [request] or through the /api proxy. *)
Record Outbound : Type := mkOutbound {
  out_method : value;
  out_target : Target;
  out_headers : obj;
  out_auth : option (value * value);
  out_payload : string
}.

(** The result of [url.parse]: [protocol] and [host] are [null] when the
    string has none. *)
Record Url : Type := mkUrl {
  protocol : option string;
  host : option string
}.

(** The modules of the repository the gateway imports (server/url-helper,
    server/token, server/uiThemeWrapper) and Node's [url.parse], as
    parameters.  [proxyHost] is [constructUrl.bind(null, cdapConfig)]
    as express-http-proxy calls it, with the request.  A result of
    [None] stands for a thrown exception: the theme functions are
    called inside try/catch, [url.parse] throws on some inputs; the
    other functions are called unguarded and taken to return. *)
Class Imports : Type := {
  (* server/url-helper *)
  constructUrl : obj -> value -> value -> string;
  proxyHost : obj -> Request -> string;
  isVerifiedMarketHost : obj -> value -> bool;
  getMarketUrls : obj -> list string;
  REQUEST_ORIGIN_MARKET : value;
  (* server/token *)
  generateToken : obj -> value -> string;
  validateToken : value -> obj -> value -> bool;
  (* server/uiThemeWrapper *)
  extractUIThemeWrapper : obj -> option json;
  extractUITheme : obj -> value -> option json;
  getFaviconPath : json -> string;
  (* url *)
  url_parse : string -> option Url
}.

(** The directories named at the top of the file. *)
Inductive Root : Type :=
| DLL_PATH
| DIST_PATH
| LOGIN_DIST_PATH
| CDAP_DIST_PATH
| MARKET_DIST_PATH
| CONFIG_PATH.

(** The platform: the process environment, the two uuid generators
    ([uuidV4 n] is the n-th value drawn by the process), the servers
    reached over the network ([None]: the call ends in an 'error'
    event), [decodeURIComponent] and the file system.  [staticFile root
    sub index path] is the file express.static finds for [path] under
    the directory [sub] of [root], looking for an index file only when
    [index] is set. *)
Class Host : Type := {
  NODE_ENV : value;
  randomUUID : string;
  uuidV4 : nat -> string;
  network : Outbound -> option Upstream;
  decodeURIComponent : string -> option string;
  readFileSync : Root -> string -> option string;
  readIcon : string -> option string;
  staticFile : Root -> string -> bool -> list string -> option string
}.

(** ** Responses, shared state and control flow *)

Record Cookie : Type := mkCookie {
  ck_name : string;
  ck_value : string;
  ck_secure : bool;
  ck_httpOnly : bool;
  ck_sameSite : string;
  ck_expires : option Z
}.

(** What a handler sends. *)
Inductive Body : Type :=
| NoBody
| Text (s : string)
| Assign (lhs : string) (data : json)
| View (name : string) (nonceVal : value)
| Relayed (s : string)
| Redirect (location : string)
| Extended (jsonText : string) (extra : list (string * json))
| ErrorObject
| NoReply.

Abbreviation Directives := (list (string * option (list string))).

(** The response under construction.  [res_csp] is the
    Content-Security-Policy attached by helmet, kept as the list of
    directives it was given, each with its sources evaluated for this
    response; how helmet checks and renders that list is the
    library's.  Header names are kept as the handlers write them. *)
Record Response : Type := mkResponse {
  res_status : Z;
  res_headers : obj;
  res_csp : option Directives;
  res_nonce : value;
  res_cookies : list Cookie;
  res_body : Body
}.

Definition freshResponse : Response :=
  mkResponse 200 ∅ None undefined [] NoBody.

Record UISettings : Type := mkUISettings {
  ui_props : obj;
  ui_ui : obj
}.

(** The objects every request handler closes over. *)
Record Shared : Type := mkShared {
  cdapConfig : obj;
  uiSettings : UISettings;
  uiThemeConfig : json
}.

(** The context of one request: the shared objects, the number of
    uuids drawn so far, the outbound calls issued while handling the
    request, and the response. *)
Record Ctx : Type := mkCtx {
  shared : Shared;
  drawn : nat;
  calls : list Outbound;
  res : Response
}.

(** A handler ends the response, calls [next()], or fails
    ([next(err)] or a thrown exception). *)
Inductive Flow : Type :=
| Done (c : Ctx)
| Next (c : Ctx)
| Raise (c : Ctx).

Definition Handler : Type := Request -> Ctx -> Flow.

(** The execution context a flow ends in. *)
Definition context (f : Flow) : Ctx :=
  match f with
  | Done c => c
  | Next c => c
  | Raise c => c
  end.

Definition onRes (f : Response -> Response) (c : Ctx) : Ctx :=
  mkCtx (shared c) (drawn c) (calls c) (f (res c)).

Definition onShared (f : Shared -> Shared) (c : Ctx) : Ctx :=
  mkCtx (f (shared c)) (drawn c) (calls c) (res c).

(** A call leaves the process. *)
Definition issue (o : Outbound) (c : Ctx) : Ctx :=
  mkCtx (shared c) (drawn c) (calls c ++ [o]) (res c).

(** [res.status(n)] *)
Definition status (n : Z) (r : Response) : Response :=
  mkResponse n (res_headers r) (res_csp r) (res_nonce r) (res_cookies r)
    (res_body r).

(** [res.send(b)], [res.render(...)], [res.redirect(...)], a pipe into
    [res]. *)
Definition send (b : Body) (r : Response) : Response :=
  mkResponse (res_status r) (res_headers r) (res_csp r) (res_nonce r)
    (res_cookies r) b.

(** [res.set(h)] and [res.header(h)] with an object: every property of
    [h] becomes a header; nothing happens when [h] is not an object. *)
Definition setHeaders (h : option obj) (r : Response) : Response :=
  match h with
  | Some new =>
      mkResponse (res_status r) (new ∪ res_headers r) (res_csp r)
        (res_nonce r) (res_cookies r) (res_body r)
  | None => r
  end.

Definition setHeader (k v : string) (r : Response) : Response :=
  setHeaders (Some {[ k := str v ]}) r.

(** [res.cookie(...)] *)
Definition setCookie (ck : Cookie) (r : Response) : Response :=
  mkResponse (res_status r) (res_headers r) (res_csp r) (res_nonce r)
    (res_cookies r ++ [ck]) (res_body r).

(** [res.sendStatus(n)] *)
Definition sendStatus (n : Z) (reason : string) (r : Response) : Response :=
  send (Text reason) (status n r).

(** ** The security header policy *)

(** [parseInt(v)] with no radix: leading white space, an optional
    sign, an optional [0x] prefix, then the longest run of digits;
    [None] is [NaN]. *)
Definition isWhite (c : ascii) : bool :=
  let n := nat_of_ascii c in
  ((9 <=? n)%nat && (n <=? 13)%nat) || (n =? 32)%nat.

Fixpoint trimStart (s : string) : string :=
  match s with
  | String c r => if isWhite c then trimStart r else s
  | EmptyString => s
  end.

Definition digitOf (c : ascii) : option Z :=
  let n := Z.of_nat (nat_of_ascii c) in
  if (48 <=? n) && (n <=? 57) then Some (n - 48)
  else if (97 <=? n) && (n <=? 122) then Some (n - 87)
  else if (65 <=? n) && (n <=? 90) then Some (n - 55)
  else None.

Fixpoint readDigits (radix : Z) (s : string) (acc : option Z) : option Z :=
  match s with
  | String c r =>
      match digitOf c with
      | Some d =>
          if d <? radix
          then readDigits radix r (Some (default 0 acc * radix + d))
          else acc
      | None => acc
      end
  | EmptyString => acc
  end.

Definition parseInt (v : value) : option Z :=
  let s := trimStart (to_string v) in
  let '(negative, s1) :=
    match s with
    | String "-"%char r => (true, r)
    | String "+"%char r => (false, r)
    | _ => (false, s)
    end in
  let '(radix, s2) :=
    match s1 with
    | String "0"%char (String "x"%char r) => (16, r)
    | String "0"%char (String "X"%char r) => (16, r)
    | _ => (10, s1)
    end in
  (fun n => if negative : bool then - n else n) <$> readDigits radix s2 None.

Record HstsSettings : Type := mkHsts {
  maxAge : option Z;
  includeSubDomains : bool;
  preload : bool
}.

Definition hstsSettings (cdapConfig : obj) : HstsSettings :=
  mkHsts (parseInt (get cdapConfig "hsts.max.age"))
    (is_str (get cdapConfig "hsts.include.sub.domains") "true")
    (is_str (get cdapConfig "hsts.preload") "true").

(** [cdapConfig["hsts.enabled"] === 'true' && hstsSettings]: [None] is
    [false]. *)
Definition hstsOption (cdapConfig : obj) : option HstsSettings :=
  if is_str (get cdapConfig "hsts.enabled") "true"
  then Some (hstsSettings cdapConfig)
  else None.

Definition decimal (n : Z) : string :=
  DecimalString.NilZero.string_of_uint (N.to_uint (Z.to_N n)).

(** The Strict-Transport-Security value helmet derives from its [hsts]
    option; it refuses a [maxAge] that is not a non-negative number. *)
Definition strictTransportSecurity (o : HstsSettings) : option string :=
  match maxAge o with
  | Some n =>
      if 0 <=? n then
        Some ("max-age=" ++ decimal n
              ++ (if includeSubDomains o then "; includeSubDomains" else "")
              ++ (if preload o then "; preload" else ""))
      else None
  | None => None
  end.

(** [`${x}`] for a property that may be [null]. *)
Definition showNullable (o : option string) : string :=
  match o with
  | Some s => s
  | None => "null"
  end.

Definition HSTS : string := "Strict-Transport-Security".

Definition lowerChar (c : ascii) : ascii :=
  let n := nat_of_ascii c in
  if ((65 <=? n) && (n <=? 90))%nat then ascii_of_nat (n + 32) else c.

Fixpoint lowerCase (s : string) : string :=
  match s with
  | String c r => String (lowerChar c) (lowerCase r)
  | EmptyString => EmptyString
  end.


(** The source list of a directive, empty when the directive is absent
    or [null]. *)
Fixpoint directive (name : string) (d : Directives) : list string :=
  match d with
  | (n, v) :: rest =>
      if String.eqb n name then default [] v else directive name rest
  | [] => []
  end.

(** ** The application *)

(** The first argument of [makeApp]: whether security is enabled and
    the address [authAddress.get()] returns. *)
Record AuthAddress : Type := mkAuthAddress {
  auth_enabled : bool;
  auth_get : value
}.

Record StaticOptions : Type := mkStaticOptions {
  index : bool;
  maxAgeSeconds : Z
}.

Record CookieSettings : Type := mkCookieSettings {
  secure : bool;
  httpOnly : bool;
  sameSite : string
}.

Definition dq : string := String (ascii_of_nat 34) EmptyString.
Definition nl : string := String (ascii_of_nat 10) EmptyString.

Definition joinWith (sep : string) (l : list string) : string :=
  String.concat sep l.

(** [Array.prototype.join] writes [undefined] as the empty string. *)
Definition joined (v : value) : string :=
  match v with
  | undefined => ""
  | str s => s
  end.

(** The router of express compares paths without regard to case. *)
Definition sameSegment (a b : string) : bool :=
  String.eqb (lowerCase a) (lowerCase b).

Fixpoint samePath (a b : list string) : bool :=
  match a, b with
  | [], [] => true
  | x :: a', y :: b' => sameSegment x y && samePath a' b'
  | _, _ => false
  end.

(** The same path, letter for letter. *)
Fixpoint exactPath (a b : list string) : bool :=
  match a, b with
  | [], [] => true
  | x :: a', y :: b' => String.eqb x y && exactPath a' b'
  | _, _ => false
  end.

(** A route path; a trailing slash is accepted. *)
Definition pathIs (p : list string) (req : Request) : bool :=
  samePath (req_path req) p || samePath (req_path req) (p ++ [""])%list.

(** A mount point, or a route together with everything below it. *)
Definition pathUnder (seg : string) (req : Request) : bool :=
  match req_path req with
  | s :: _ => sameSegment s seg
  | [] => false
  end.

Definition isGet (req : Request) : bool :=
  String.eqb (req_method req) "GET" || String.eqb (req_method req) "HEAD".

Definition isPost (req : Request) : bool :=
  String.eqb (req_method req) "POST".

Definition finalCsp : Directives := [("defaultSrc", Some ["'none'"])].

(** [finalhandler]: the plain answer of the framework, 404 when nothing
    failed.  It replaces the Content-Security-Policy of the response by
    its own. *)
Definition finalhandler (req : Request) (failed : bool) (r : Response)
  : Response :=
  let r1 :=
    mkResponse (if failed then 500 else 404) (res_headers r)
      (Some finalCsp) (res_nonce r) (res_cookies r) (res_body r) in
  send (Text (if failed then "Internal Server Error"
              else "Cannot " ++ req_method req ++ " /"
                   ++ joinWith "/" (req_path req))) r1.

Section Gateway.

Context {modules : Imports} {platform : Host}.

Definition isModeDevelopment : bool := is_str NODE_ENV "development".
Definition isModeProduction : bool := is_str NODE_ENV "production".

Definition getExpressStaticConfig : StaticOptions :=
  if isModeDevelopment then mkStaticOptions true 0
  else mkStaticOptions false 31536000.

Definition removeBCookie (req : Request) (cookieSettings : CookieSettings)
    (r : Response) : Response :=
  if truthy (get (req_cookies req) "bcookie") then
    setCookie
      (mkCookie "bcookie" "" (secure cookieSettings)
         (httpOnly cookieSettings) (sameSite cookieSettings) (Some 0)) r
  else r.

(** *** Construction of the security headers *)

(** The URLs whose hosts are added to [img-src]: the proxy base URL,
    when there is one, followed by the market URLs. *)
Definition whiteListSources (cdapConfig : obj) : list string :=
  let proxyBaseUrl := get cdapConfig "dashboard.proxy.base.url" in
  ((if truthy proxyBaseUrl then [to_string proxyBaseUrl] else [])
   ++ getMarketUrls cdapConfig)%list.

Definition whiteListEntry (marketUrl : Url) : string :=
  showNullable (protocol marketUrl) ++ "//" ++ showNullable (host marketUrl).

(** Each of them parsed and written as [protocol//host], the entries
    joined by spaces.  [None] when [url.parse] throws. *)
Definition cspWhiteListUrls (cdapConfig : obj) : option string :=
  parsed ← mapM url_parse (whiteListSources cdapConfig);
  Some (joinWith " " (map whiteListEntry parsed)).

(** The [directives] of the contentSecurityPolicy option, with the one
    function among them applied to the response. *)
Definition cspDirectives (whiteList serverNonce : string) (r : Response)
  : Directives :=
  [ ("imgSrc",
     Some ["'self' data: " ++ whiteList; "www.googletagmanager.com";
           "https://www.gstatic.com"; "https://ssl.gstatic.com";
           "https://www.google-analytics.com"]);
    ("connectSrc",
     Some ["'self'"; "https://www.google-analytics.com";
           "https://ampcid.google.com"]);
    ("fontSrc",
     Some ["'self'"; "'unsafe-inline'"; "https://fonts.gstatic.com";
           "data:"]);
    ("scriptSrc",
     Some ["'nonce-" ++ to_string (res_nonce r) ++ "'";
           "'unsafe-inline'";
           "nonce-" ++ serverNonce;
           "'unsafe-eval'";
           "'strict-dynamic' https: http:";
           "https://tagmanager.google.com";
           "https://www.googletagmanager.com";
           "https://ssl.google-analytics.com";
           "https://www.google-analytics.com"]);
    ("baseUri", Some ["'self'"]);
    ("styleSrc",
     Some ["'self'"; "'unsafe-inline'"; "https://tagmanager.google.com";
           "https://fonts.googleapis.com"]);
    ("objectSrc", Some ["'none'"]);
    ("workerSrc", Some ["'self' blob:"]);
    ("reportUri", Some ["https://csp.withgoogle.com/csp/cdap"]);
    ("upgradeInsecureRequests", None) ].

(** The nonce middleware. *)
Definition assignNonce : Handler := fun _ c =>
  let r := res c in
  Next (mkCtx (shared c) (S (drawn c)) (calls c)
          (mkResponse (res_status r) (res_headers r) (res_csp r)
             (str (uuidV4 (drawn c))) (res_cookies r) (res_body r))).

(** The middleware helmet returns: it attaches the policy and, when
    [hsts] is not [false], the Strict-Transport-Security header. *)
Definition helmet (whiteList serverNonce : string) (hsts : option string)
  : Handler := fun _ c =>
  Next (onRes (fun r =>
          let r1 :=
            mkResponse (res_status r) (res_headers r)
              (Some (cspDirectives whiteList serverNonce r)) (res_nonce r)
              (res_cookies r) (res_body r) in
          match hsts with
          | Some v => setHeader HSTS v r1
          | None => r1
          end) c).

(** Building helmet fails when HSTS is switched on with a [maxAge] it
    refuses. *)
Definition helmetHsts (o : option HstsSettings) : option (option string) :=
  match o with
  | Some settings => Some <$> strictTransportSecurity settings
  | None => Some None
  end.

(** *** Middleware ahead of the routes *)

(** serve-favicon *)
Definition serveFavicon (icon : string) : Handler := fun req c =>
  if isGet req then Done (onRes (send (Relayed icon)) c)
  else
    Done (onRes (fun r =>
            setHeader "Allow" "GET, HEAD, OPTIONS"
              (status (if String.eqb (req_method req) "OPTIONS"
                       then 200 else 405) r)) c).

Definition compression : Handler := fun _ c => Next c.
Definition cookieParser : Handler := fun _ c => Next c.

(** body-parser hands a body it cannot read to the error handlers. *)
Definition bodyParser : Handler := fun req c =>
  match req_body req with
  | Some _ => Next c
  | None => Raise c
  end.

(** A pipe from an answer received through [request] into [res]:
    [request] copies the headers and the status of the answer to the
    response, then streams the body. *)
Definition pipe (up : Upstream) (r : Response) : Response :=
  send (Relayed (body (content up)))
    (status (statusCode (content up)) (setHeaders (headers up) r)).

(** The answer express-http-proxy sends: status, headers (all but
    transfer-encoding) and body of the answer of the backend. *)
Definition proxied (rsp : Upstream) (r : Response) : Response :=
  send (Relayed (body (content rsp)))
    (status (statusCode (content rsp))
       (setHeaders ((fun h => del h "transfer-encoding") <$> headers rsp) r)).

(** The /api mount: express-http-proxy with [parseReqBody: false] and
    no response decorator; the answer of the backend is relayed with
    its headers. *)
Definition apiProxy : Handler := fun req c =>
  let o :=
    mkOutbound (str (req_method req))
      (ToBackend (proxyHost (cdapConfig (shared c)) req)
         (tail (req_path req)))
      (req_headers req) None (req_payload req) in
  match network o with
  | Some rsp => Done (onRes (proxied rsp) (issue o c))
  | None => Raise (issue o c)
  end.

(** The default 500 error handler. *)
Definition errorHandler : Handler := fun _ c =>
  Done (onRes (fun r => send ErrorObject (status 500 r)) c).

(** *** Route handlers *)

(** The condition of the session gates:
    [!token || (token && !validateToken(token, cdapConfig, log, authToken))] *)
Definition sessionRejected (cdapConfig : obj) (req : Request)
    (authToken : value) : bool :=
  let token := get (req_headers req) "session-token" in
  negb (truthy token)
  || (truthy token && negb (validateToken token cdapConfig authToken)).

Definition unableToValidate (c : Ctx) : Flow :=
  Done (onRes (fun r => send (Text "Unable to validate session")
                          (status 500 r)) c).

Definition scriptHeaders : option obj :=
  Some {[ "Content-Type" := str "text/javascript";
          "Cache-Control" := str "no-store, must-revalidate" ]}.

(** The script of /analytics.js is one template: the text before the
    nonce, the nonce, and the text after it, which holds the tag (the
    line breaks and the indentation of the template are left out). *)
Definition analyticsHead : string :=
  "let gaHeaderScript = document.createElement('script');"
  ++ "gaHeaderScript.setAttribute('nonce', '".

Definition analyticsTail (GTM : string) : string :=
  "');"
  ++ "gaHeaderScript.setAttribute('type', 'text/javascript');"
  ++ "gaHeaderScript.innerHTML = " ++ dq
  ++ "(function(w,d,s,l,i){w[l]=w[l]||[];w[l].push({'gtm.start':"
  ++ "new Date().getTime(),event:'gtm.js'});var f=d.getElementsByTagName(s)[0],"
  ++ "j=d.createElement(s),dl=l!='dataLayer'?'&l='+l:'';j.async=true;"
  ++ "j.src='https://www.googletagmanager.com/gtm.js?id='+i+dl;"
  ++ "var n=d.querySelector('[nonce]');"
  ++ "n&&j.setAttribute('nonce',n.nonce||n.getAttribute('nonce'));"
  ++ "f.parentNode.insertBefore(j,f);})"
  ++ "(window,document,'script','dataLayer','" ++ GTM ++ "');" ++ dq
  ++ "document.head.appendChild(gaHeaderScript);".

Definition analyticsScript (serverNonce GTM : string) : string :=
  analyticsHead ++ serverNonce ++ analyticsTail GTM.

(** GET /analytics.js *)
Definition analytics (serverNonce : string) : Handler := fun _ c =>
  let GTM := get (cdapConfig (shared c)) "ui.GTM" in
  if truthy GTM then
    Done (onRes (fun r =>
            send (Text (analyticsScript serverNonce (to_string GTM)))
              (setHeaders scriptHeaders r)) c)
  else Done (onRes (sendStatus 404 "Not Found") c).

Definition configData (authAddress : AuthAddress) (isSecure : bool)
    (cdapConfig : obj) (uiSettings : UISettings) : json :=
  JObject
    [ ("cdap",
       JObject
         [ ("standaloneWebsiteSDKDownload",
            JBool (is_str (get (ui_props uiSettings)
                             "standalone.website.sdk.download") "true"));
           ("uiDebugEnabled",
            JBool (is_str (get (ui_props uiSettings) "ui.debug.enabled")
                     "true"));
           ("mode", json_of NODE_ENV);
           ("proxyBaseUrl", json_of (get cdapConfig "dashboard.proxy.base.url"));
           ("maxRecordsPreview",
            json_of (get cdapConfig "preview.max.num.records"));
           ("ui", json_of_obj (ui_ui uiSettings));
           ("k8sWorkloadIdentityEnabled",
            json_of (get cdapConfig
                       "master.environment.k8s.workload.identity.enabled"));
           ("k8sWorkloadIdentityPool",
            json_of (get cdapConfig
                       "credential.provider.system.properties.gcp-wi-credential-provider.k8s.workload.identity.pool"));
           ("namespaceCreationHookEnabled",
            json_of (get cdapConfig "namespaces.creation.hook.enabled"));
           ("hstsEnabled", json_of (get cdapConfig "hsts.enabled"));
           ("hstsMaxAge", json_of (get cdapConfig "hsts.max.age"));
           ("hstsIncludeSubDomains",
            json_of (get cdapConfig "hsts.include.sub.domains"));
           ("hstsPreload", json_of (get cdapConfig "hsts.preload")) ]);
      ("hydrator",
       JObject
         [ ("previewEnabled",
            JBool (is_str (get cdapConfig "enable.preview") "true"));
           ("defaultCheckpointDir",
            json_or_false
              (get cdapConfig "data.streams.default.checkpoint.directory")) ]);
      ("delta",
       JObject
         [ ("defaultCheckpointDir",
            json_or_false
              (get cdapConfig "delta.default.checkpoint.directory")) ]);
      ("marketUrls", JArray (map JString (getMarketUrls cdapConfig)));
      ("securityEnabled", JBool (auth_enabled authAddress));
      ("securityMode", json_of (get cdapConfig AUTH_MODE));
      ("isEnterprise", JBool isModeProduction);
      ("sandboxMode", json_of NODE_ENV);
      ("authRefreshURL",
       json_or_false (get cdapConfig "dashboard.auth.refresh.path"));
      ("instanceMetadataId", json_of (get cdapConfig "instance.metadata.id"));
      ("sslEnabled", JBool isSecure);
      ("featureFlags", json_of (get cdapConfig "featureFlags"));
      ("analyticsTag", json_of (get cdapConfig "ui.analyticsTag"));
      ("googleTagManager", json_of (get cdapConfig "ui.GTM"));
      ("cookieBannerText", json_of (get cdapConfig "ui.cookieBannerText"));
      ("cookieBannerLink", json_of (get cdapConfig "ui.cookieBannerLink")) ].

(** GET /config.js: the first statement writes to the shared
    [uiSettings]. *)
Definition configJs (authAddress : AuthAddress) (isSecure : bool)
  : Handler := fun _ c =>
  let cfg := cdapConfig (shared c) in
  let settings :=
    mkUISettings (ui_props (uiSettings (shared c)))
      (set (ui_ui (uiSettings (shared c))) "externalLinks"
         (get cfg "externalLinks")) in
  let c1 :=
    onShared (fun s => mkShared (cdapConfig s) settings (uiThemeConfig s)) c in
  let data := configData authAddress isSecure cfg settings in
  Done (onRes (fun r =>
          send (Assign "window.CDAP_CONFIG" data)
            (setHeaders scriptHeaders r)) c1).

(** GET /ui-config.js *)
Definition uiConfigJs : Handler := fun _ c =>
  match readFileSync CONFIG_PATH "/cdap-ui-config.json" with
  | Some fileConfig =>
      Done (onRes (fun r =>
              send (Text ("window.CDAP_UI_CONFIG = " ++ fileConfig ++ ";"))
                (setHeaders scriptHeaders r)) c)
  | None => Raise c
  end.

(** GET /ui-theme.js *)
Definition uiThemeJs : Handler := fun _ c =>
  Done (onRes (fun r =>
          send (Assign "window.CDAP_UI_THEME" (uiThemeConfig (shared c)))
            (setHeaders scriptHeaders r)) c).

(** GET /forwardMarketToCdap: the content fetched from the market is
    piped into a request to the backend, whose answer is piped into the
    response.  The sanitizer edits the header object of the answer in
    place, so the answer piped is the stripped one. *)
Definition forwardMarketToCdap : Handler := fun req c =>
  let cfg := cdapConfig (shared c) in
  let sourceLink := get (req_query req) "source" in
  let targetLink := get (req_query req) "target" in
  let sourceMethod := or_else (get (req_query req) "sourceMethod") (str "GET") in
  let targetMethod := or_else (get (req_query req) "targetMethod") (str "POST") in
  let authToken := get (req_headers req) "authorization" in
  if sessionRejected cfg req authToken then unableToValidate c
  else if negb (isVerifiedMarketHost cfg sourceLink) then
    Done (onRes (fun r => send (Text "Invalid source link") (status 403 r)) c)
  else
    let sourceLink' := constructUrl cfg sourceLink REQUEST_ORIGIN_MARKET in
    let targetLink' := constructUrl cfg targetLink undefined in
    let sourceRequest :=
      mkOutbound sourceMethod (ToUrl (str sourceLink')) ∅ None "" in
    let fetched :=
      match network sourceRequest with
      | Some marketResponse => body (content marketResponse)
      | None => ""
      end in
    let forwardRequestObject :=
      mkOutbound targetMethod (ToUrl (str targetLink')) (req_headers req)
        None fetched in
    let c1 := issue forwardRequestObject (issue sourceRequest c) in
    match network forwardRequestObject with
    | Some resFromBackend =>
        let strippedResponse :=
          stripAuthHeadersInProxyMode cfg resFromBackend in
        let newHeaders := headers strippedResponse in
        Done (onRes (fun r => pipe strippedResponse (setHeaders newHeaders r))
                c1)
    | None => Done (onRes (send NoReply) c1)
    end.

(** GET /market *)
Definition market : Handler := fun req c =>
  let cfg := cdapConfig (shared c) in
  let sourceLink := get (req_query req) "source" in
  if negb (isVerifiedMarketHost cfg sourceLink) then
    let errorMsg := "invalid market request" in
    Done (onRes (fun r => send (Text errorMsg) (status 403 r)) c)
  else
    let marketRequest := mkOutbound (str "GET") (ToUrl sourceLink) ∅ None "" in
    match network marketRequest with
    | Some marketResponse =>
        Done (onRes (fun r =>
                send (Text (body (content marketResponse)))
                  (status (statusCode (content marketResponse)) r))
                (issue marketRequest c))
    | None =>
        Done (onRes (fun r => send ErrorObject (status 502 r))
                (issue marketRequest c))
    end.

(** The credentials /downloadLogs passes on to the backend. *)
Definition customHeaders (cdapConfig : obj) (req : Request) : option obj :=
  let fromCookie :=
    if truthy (get (req_cookies req) "CDAP_Auth_Token") then
      Some ({[ "authorization" :=
                 str (concat "Bearer " (get (req_cookies req) "CDAP_Auth_Token")) ]}
            : obj)
    else None in
  if truthy (get (req_headers req) "authorization") then
    let h : obj :=
      {[ "authorization" := get (req_headers req) "authorization" ]} in
    if is_str (get cdapConfig AUTH_MODE) "PROXY" then
      let userIdProperty := to_string (get cdapConfig IDENTITY_HEADER) in
      Some (set h userIdProperty (get (req_headers req) userIdProperty))
    else Some h
  else fromCookie.

(** GET /downloadLogs.  Here the sanitizer is applied to the headers
    the handler makes up, not to the answer of the backend, which is
    piped as it came. *)
Definition downloadLogs : Handler := fun req c =>
  let cfg := cdapConfig (shared c) in
  match decodeURIComponent (to_string (get (req_query req) "backendPath")) with
  | None => Raise c
  | Some backendPath =>
      let url := constructUrl cfg (str backendPath) undefined in
      let method := or_else (get (req_query req) "method") (str "GET") in
      let requestObject :=
        mkOutbound method (ToUrl (str url))
          (default ∅ (customHeaders cfg req)) None "" in
      let type := get (req_query req) "type" in
      let responseHeaders : obj :=
        {[ "Cache-Control" := str "no-cache, no-store" ]} in
      match network requestObject with
      | Some response =>
          let answered :=
            if statusCode (content response) =? 200 then
              let responseHeaders1 :=
                if is_str type "download" then
                  set responseHeaders "Content-Disposition"
                    (str (concat "attachment; filename="
                            (get (req_query req) "filename")))
                else set responseHeaders "Content-Type" (str "text/plain") in
              let strippedResponse :=
                stripAuthHeadersInProxyMode cfg
                  (mkMessage (Some responseHeaders1) tt) in
              setHeaders (headers strippedResponse)
            else (fun r => r) in
          Done (onRes (fun r => pipe response (answered r))
                  (issue requestObject c))
      | None => Done (onRes (send NoReply) (issue requestObject c))
      end
  end.

(** POST /login and POST /accessToken.  The reply of the
    authentication server, parsed and extended with [isSecure], is kept
    as the two parts it is made of. *)
Definition authentication (authAddress : AuthAddress) (isSecure : bool)
  : Handler := fun req c =>
  match req_body req with
  | None => Raise c
  | Some form =>
      let opts :=
        mkOutbound undefined (ToUrl (auth_get authAddress)) ∅
          (Some (get form "username", get form "password")) "" in
      match network opts with
      | Some nres =>
          if negb (statusCode (content nres) =? 200) then
            let statusCode' :=
              if statusCode (content nres) =? 0 then 500
              else statusCode (content nres) in
            Done (onRes (fun r =>
                    send (Text (body (content nres))) (status statusCode' r))
                    (issue opts c))
          else
            Done (onRes (send
                    (Extended (body (content nres))
                       [("isSecure", JBool isSecure)]))
                    (issue opts c))
      | None =>
          Done (onRes (fun r => send NoBody (status 500 r)) (issue opts c))
      end
  end.

(** POST /namespaces/:namespace/:path, the path being the whole
    remainder: the upload is piped to the
    backend and the answer of the backend into the response. *)
Definition namespaceUpload : Handler := fun req c =>
  let cfg := cdapConfig (shared c) in
  let headers0 := req_headers req in
  let authToken := get (req_headers req) "authorization" in
  if sessionRejected cfg req authToken then unableToValidate c
  else
    let namespace := nth 1 (req_path req) "" in
    let path := joinWith "/" (drop 2 (req_path req)) in
    let constructedPath := "/v3/namespaces/" ++ namespace ++ "/" ++ path in
    let opts :=
      mkOutbound (str "POST") (ToUrl (str (constructUrl cfg (str constructedPath) undefined)))
        {[ "Content-Type" := get headers0 "content-type" ]} None
        (req_payload req) in
    match network opts with
    | Some newRes =>
        let strippedResponse := stripAuthHeadersInProxyMode cfg newRes in
        let newHeaders := headers strippedResponse in
        Done (onRes (fun r => pipe strippedResponse (setHeaders newHeaders r))
                (issue opts c))
    | None => Done (onRes (send NoReply) (issue opts c))
    end.

(** express.static with the default [fallthrough]: a file that is
    found is served, everything else goes to the next handler of the
    mount. *)
Definition expressStatic (root : Root) (sub : string) (opts : StaticOptions)
  : Handler := fun req c =>
  if isGet req then
    match staticFile root sub (index opts) (tail (req_path req)) with
    | Some file =>
        Done (onRes (fun r =>
                send (Relayed file)
                  (setHeader "Cache-Control"
                     ("public, max-age=" ++ decimal (maxAgeSeconds opts)) r)) c)
    | None => Next c
    end
  else Next c.

(** The second handler of every static mount:
    [finalhandler(req, res)(false)]. *)
Definition mountNotFound : Handler := fun req c =>
  Done (onRes (finalhandler req false) c).

(** GET /robots.txt *)
Definition robots : Handler := fun _ c =>
  Done (onRes (fun r =>
          send (Text ("User-agent: *" ++ nl ++ "Disallow: /"))
            (setHeader "Content-Type" "text/plain" r)) c).

(** GET /status *)
Definition statusProbe : Handler := fun _ c =>
  Done (onRes (fun r => send (Text "OK") (status 200 r)) c).

(** GET /login *)
Definition loginPage (authAddress : AuthAddress) : Handler := fun req c =>
  if negb (truthy (auth_get authAddress))
     || truthy (get (req_headers req) "authorization")
  then Done (onRes (fun r => send (Redirect "/") (status 302 r)) c)
  else Done (onRes (fun r => send (View "login" (res_nonce r)) r) c).

(** GET /sessionToken *)
Definition sessionTokenRoute : Handler := fun req c =>
  let authToken := or_else (get (req_headers req) "authorization") (str "") in
  let sToken := generateToken (cdapConfig (shared c)) authToken in
  Done (onRes (send (Text sToken)) c).

(** GET /backendstatus *)
Definition backendstatus (isSecure : bool) : Handler := fun req c =>
  let cfg := cdapConfig (shared c) in
  let protocol' := if isSecure then "https://" else "http://" in
  let port :=
    if isSecure then get cfg "router.ssl.server.port"
    else get cfg "router.server.port" in
  let link :=
    protocol' ++ joined (get cfg "router.server.address") ++ ":"
      ++ joined port ++ "/v3/namespaces" in
  let headers0 := del (req_headers req) "referer" in
  let probe := mkOutbound (str "GET") (ToUrl (str link)) headers0 None "" in
  match network probe with
  | Some response =>
      Done (onRes (fun r =>
              send (Text "OK") (status (statusCode (content response)) r))
              (issue probe c))
  | None =>
      Done (onRes (fun r => send ErrorObject (status 502 r)) (issue probe c))
  end.

(** POST /updateTheme: on success the shared [uiThemeConfig] is
    replaced. *)
Definition updateTheme : Handler := fun req c =>
  let cfg := cdapConfig (shared c) in
  let authToken := get (req_headers req) "authorization" in
  if sessionRejected cfg req authToken then unableToValidate c
  else
    match req_body req with
    | None => Raise c
    | Some form =>
        let uiThemePath := get form "uiThemePath" in
        if negb (truthy uiThemePath) then
          Done (onRes (fun r =>
                  send (Text "UnKnown theme file. Please make sure the path is valid")
                    (status 500 r)) c)
        else
          match extractUITheme cfg uiThemePath with
          | Some theme =>
              Done (onRes (send (Text "Theme updated"))
                      (onShared (fun s =>
                         mkShared (cdapConfig s) (uiSettings s) theme) c))
          | None =>
              Done (onRes (fun r =>
                      send (Text "Error parsing theme file. Please make sure the path and the file contents are valid")
                        (status 500 r)) c)
          end
    end.

(** The two catch-all routes. *)
Definition renderHydrator (cookieSettings : CookieSettings) : Handler :=
  fun req c =>
  Done (onRes (fun r =>
          let r1 := removeBCookie req cookieSettings r in
          send (View "hydrator" (res_nonce r1)) r1) c).

Definition renderCdap (cookieSettings : CookieSettings) : Handler :=
  fun req c =>
  Done (onRes (fun r =>
          let r1 := removeBCookie req cookieSettings r in
          send (View "cdap" (str (to_string (res_nonce r1)))) r1) c).

(** *** The stack of layers and its construction *)

Inductive Kind : Type :=
| Regular
| OnError.

(** One entry of the router stack: the requests it is tried on and the
    handler it runs.  [OnError] layers are the handlers taking [err]. *)
Record Layer : Type := mkLayer {
  layer_kind : Kind;
  layer_match : Request -> bool;
  layer_run : Handler
}.

Definition use (h : Handler) : Layer :=
  mkLayer Regular (fun _ => true) h.

Definition useAt (mount : string) (h : Handler) : Layer :=
  mkLayer Regular (pathUnder mount) h.

Definition useError (h : Handler) : Layer :=
  mkLayer OnError (fun _ => true) h.

Definition onGet (p : list string) (h : Handler) : Layer :=
  mkLayer Regular (fun req => pathIs p req && isGet req) h.

Definition onPost (p : list string) (h : Handler) : Layer :=
  mkLayer Regular (fun req => pathIs p req && isPost req) h.

(** /namespaces/:namespace/:path with the path taking the rest. *)
Definition namespaceRoute (req : Request) : bool :=
  pathUnder "namespaces" req
  && match req_path req with
     | _ :: namespace :: _ :: _ => negb (String.eqb namespace "")
     | _ => false
     end
  && isPost req.

(** [['/pipelines', '/pipelines/*']] *)
Definition pipelinesRoute (req : Request) : bool :=
  pathUnder "pipelines" req.

(** [['/', '/cdap', '/cdap/*']] *)
Definition cdapRoute (req : Request) : bool :=
  pathIs [] req || pathUnder "cdap" req.

Definition staticMount (mount : string) (root : Root) (sub : string)
    (opts : StaticOptions) : list Layer :=
  [ useAt mount (expressStatic root sub opts); useAt mount mountNotFound ].

(** The static mounts: mount point, directory and options. *)
Definition staticMounts : list (string * (Root * string * StaticOptions)) :=
  [ ("assets", (DIST_PATH, "/assets", mkStaticOptions true 0));
    ("cdap_assets", (CDAP_DIST_PATH, "/cdap_assets", getExpressStaticConfig));
    ("dll_assets", (DLL_PATH, "", getExpressStaticConfig));
    ("login_assets", (LOGIN_DIST_PATH, "/login_assets", getExpressStaticConfig));
    ("common_assets", (MARKET_DIST_PATH, "", mkStaticOptions false 0)) ].

(** The routes, in the order [makeApp] registers them. *)
Definition routes (authAddress : AuthAddress) (serverNonce : string)
    (isSecure : bool) (cookieSettings : CookieSettings) : list Layer :=
  ([ onGet ["analytics.js"] (analytics serverNonce);
     onGet ["config.js"] (configJs authAddress isSecure);
     onGet ["ui-config.js"] uiConfigJs;
     onGet ["ui-theme.js"] uiThemeJs;
     onGet ["forwardMarketToCdap"] forwardMarketToCdap;
     onGet ["market"] market;
     onGet ["downloadLogs"] downloadLogs;
     onPost ["login"] (authentication authAddress isSecure);
     onPost ["accessToken"] (authentication authAddress isSecure);
     mkLayer Regular namespaceRoute namespaceUpload ]
   ++ flat_map (fun m => staticMount (fst m) (fst (fst (snd m)))
                           (snd (fst (snd m))) (snd (snd m)))
        staticMounts
   ++ [ onGet ["robots.txt"] robots;
        onGet ["status"] statusProbe;
        onGet ["login"] (loginPage authAddress);
        onGet ["sessionToken"] sessionTokenRoute;
        onPost ["login"] (authentication authAddress isSecure);
        onGet ["backendstatus"] (backendstatus isSecure);
        onPost ["updateTheme"] updateTheme;
        mkLayer Regular pipelinesRoute (renderHydrator cookieSettings);
        mkLayer Regular cdapRoute (renderCdap cookieSettings) ])%list.

(** The nonce and helmet layers, absent in development mode; [None]
    when building them throws. *)
Definition securityLayers (cdapConfig : obj) (serverNonce : string)
  : option (list Layer) :=
  if negb isModeDevelopment then
    whiteList ← cspWhiteListUrls cdapConfig;
    hsts ← helmetHsts (hstsOption cdapConfig);
    Some [ use assignNonce; use (helmet whiteList serverNonce hsts) ]
  else Some [].

Record App : Type := mkApp {
  stack : list Layer;
  initial : Shared
}.

(** [makeApp] *)
Definition makeApp (authAddress : AuthAddress) (cdapConfig : obj)
    (uiSettings : UISettings) : option App :=
  let serverNonce := randomUUID in
  let isSecure := is_str (get cdapConfig "ssl.external.enabled") "true" in
  let cookieSettings := mkCookieSettings isSecure true "strict" in
  let uiThemeConfig := default (JObject []) (extractUIThemeWrapper cdapConfig) in
  let faviconPath := getFaviconPath uiThemeConfig in
  let favicon :=
    match readIcon faviconPath with
    | Some icon =>
        [ mkLayer Regular (fun req => exactPath (req_path req) ["favicon.ico"])
            (serveFavicon icon) ]
    | None => []
    end in
  security ← securityLayers cdapConfig serverNonce;
  Some (mkApp
          (favicon
           ++ [ use compression; useAt "api" apiProxy; use bodyParser;
                use cookieParser ]
           ++ security
           ++ [ useError errorHandler ]
           ++ routes authAddress serverNonce isSecure cookieSettings)%list
          (mkShared cdapConfig uiSettings uiThemeConfig)).

(** *** Dispatch *)

Definition applies (failed : bool) (l : Layer) (req : Request) : bool :=
  match layer_kind l with
  | Regular => negb failed
  | OnError => failed
  end && layer_match l req.

(** One request through the stack: the first layers that apply run in
    turn until one ends the response; after a failure only the error
    handlers apply; when the stack is exhausted the framework answers
    itself.  (The answer the router gives of its own to an OPTIONS
    request for a known route is not modelled.) *)
Fixpoint dispatch (layers : list Layer) (req : Request) (failed : bool)
    (c : Ctx) : Ctx :=
  match layers with
  | [] => onRes (finalhandler req failed) c
  | l :: rest =>
      if applies failed l req then
        match layer_run l req c with
        | Done c' => c'
        | Next c' => dispatch rest req false c'
        | Raise c' => dispatch rest req true c'
        end
      else dispatch rest req failed c
  end.

(** The response to [req] when the shared objects are [s] and [n]
    uuids have been drawn. *)
Definition handle (app : App) (s : Shared) (n : nat) (req : Request) : Ctx :=
  dispatch (stack app) req false (mkCtx s n [] freshResponse).

(** A run of requests, one after the other. *)
Fixpoint serve (app : App) (s : Shared) (n : nat) (reqs : list Request)
  : list Ctx :=
  match reqs with
  | [] => []
  | req :: rest =>
      let c := handle app s n req in
      c :: serve app (shared c) (drawn c) rest
  end.

(** *** What a request may change

    The vocabulary of the frame properties below. *)

(** The header names the handlers write themselves. *)
Definition ownHeaders : list string :=
  ["Content-Type"; "Cache-Control"; "Content-Disposition"; "Allow"].

(** [k] is a header of some answer obtained over the network. *)
Definition fromUpstream (k : string) : Prop :=
  exists o up h,
    network o = Some up /\ headers up = Some h /\ is_Some (h !! k).

(** Between [r] and [r'] the nonce and the policy are the same, and so
    is every header that is neither written by a handler nor taken
    from an upstream answer. *)
Definition resFrame (r r' : Response) : Prop :=
  res_nonce r' = res_nonce r
  /\ res_csp r' = res_csp r
  /\ forall k, ~ In k ownHeaders -> ~ fromUpstream k ->
       res_headers r' !! k = res_headers r !! k.

(** The headers of [h] are written by a handler or come from
    upstream. *)
Definition accounted (h : obj) : Prop :=
  forall k, is_Some (h !! k) -> In k ownHeaders \/ fromUpstream k.

(** A handler that never touches the shared objects or the uuid
    counter and only edits the response within [resFrame]. *)
Definition plain (h : Handler) : Prop :=
  forall req c,
    match h req c with
    | Done c' =>
        drawn c' = drawn c /\ shared c' = shared c
        /\ resFrame (res c) (res c')
    | Next c' => c' = c
    | Raise c' => c' = c
    end.

(** The writes to the shared objects a request can cause: none to
    [cdapConfig]; [ui.externalLinks] of [uiSettings], by GET
    /config.js; the replacement of [uiThemeConfig], by a POST
    /updateTheme that passes the session gate and names a theme that
    loads. *)
Definition sharedFrame (req : Request) (s s' : Shared) : Prop :=
  cdapConfig s' = cdapConfig s
  /\ ui_props (uiSettings s') = ui_props (uiSettings s)
  /\ (uiSettings s' = uiSettings s
      \/ (pathIs ["config.js"] req = true
          /\ isGet req = true
          /\ ui_ui (uiSettings s')
             = set (ui_ui (uiSettings s)) "externalLinks"
                 (get (cdapConfig s) "externalLinks")))
  /\ (uiThemeConfig s' = uiThemeConfig s
      \/ (pathIs ["updateTheme"] req = true
          /\ isPost req = true
          /\ sessionRejected (cdapConfig s) req
               (get (req_headers req) "authorization") = false
          /\ exists form,
               req_body req = Some form
               /\ extractUITheme (cdapConfig s) (get form "uiThemePath")
                  = Some (uiThemeConfig s'))).

(** What the layers from the error handler on leave in place between
    the context [c] they are entered with and the context [c'] of the
    finished response. *)
Record Framed (req : Request) (c c' : Ctx) : Prop := mkFramed {
  fr_drawn : drawn c' = drawn c;
  fr_nonce : res_nonce (res c') = res_nonce (res c);
  fr_csp :
    res_csp (res c') = res_csp (res c) \/ res_csp (res c') = Some finalCsp;
  fr_headers :
    forall k, ~ In k ownHeaders -> ~ fromUpstream k ->
      res_headers (res c') !! k = res_headers (res c) !! k;
  fr_shared : sharedFrame req (shared c) (shared c')
}.

(** A layer that, when it ends the response, leaves a framed context,
    and otherwise hands on the context it was given. *)
Definition framing (req : Request) (l : Layer) : Prop :=
  forall failed c,
    applies failed l req = true ->
    match layer_run l req c with
    | Done c' => Framed req c c'
    | Next c' => c' = c
    | Raise c' => c' = c
    end.

(** The context after the layers [security] have run in turn. *)
Definition through (security : list Layer) (req : Request) (c : Ctx) : Ctx :=
  fold_left (fun c l => context (layer_run l req c)) security c.

(** The context in which the error handler and the routes are entered:
    in development mode the fresh response; otherwise the response
    with a nonce drawn and the headers of helmet. *)
Definition entered (security : list Layer) (s : Shared) (n : nat)
    (req : Request) : Ctx :=
  through security req (mkCtx s n [] freshResponse).

(** The requests answered ahead of the security layers: the favicon,
    when there is one, the /api mount, and the bodies the parsers
    reject. *)
Definition early (favicon : bool) (req : Request) : bool :=
  (favicon && exactPath (req_path req) ["favicon.ico"])
  || pathUnder "api" req
  || negb (bool_decide (is_Some (req_body req))).

(** A request for one of the two HTML entry points. *)
Definition entry (req : Request) : Prop :=
  (pipelinesRoute req || cdapRoute req) = true /\ is_Some (req_body req).

(** The response of [c] carries [nonce]: as its own nonce, in the
    script-src directive of its policy, and as the [nonceVal] handed to
    the template it renders. *)
Definition rendered (c : Ctx) (nonce : string) : Prop :=
  res_nonce (res c) = str nonce
  /\ In ("'nonce-" ++ nonce ++ "'")
       (directive "scriptSrc" (default [] (res_csp (res c))))
  /\ exists view, res_body (res c) = View view (str nonce).

(** The process from start-up on: the application is built and the
    requests are served in turn; [None] when [makeApp] throws. *)
Definition run (authAddress : AuthAddress) (cdapConfig : obj)
    (uiSettings : UISettings) (reqs : list Request) : option (list Ctx) :=
  app ← makeApp authAddress cdapConfig uiSettings;
  Some (serve app (initial app) 0 reqs).

End Gateway.

(** ** A sample deployment

    Concrete collaborators on which the handlers can be run: a small
    URL parser, a market allow-list compared by scheme and host, a
    session token derived from the credential and a configured secret,
    a file system with one asset, and a few upstream servers. *)

Module Sample.

Definition isSchemeChar (c : ascii) : bool :=
  let n := nat_of_ascii c in
  (((97 <=? n) && (n <=? 122)) || ((65 <=? n) && (n <=? 90))
   || ((48 <=? n) && (n <=? 57)) || (n =? 43) || (n =? 45) || (n =? 46))%nat.

(** The scheme of a URL with its colon, and what follows it. *)
Fixpoint splitScheme (s acc : string) : option (string * string) :=
  match s with
  | String c r =>
      if Ascii.eqb c ":" then
        if String.eqb acc "" then None else Some (acc ++ ":", r)
      else if isSchemeChar c then splitScheme r (acc ++ String c "")
      else None
  | EmptyString => None
  end.

Fixpoint takeHost (s : string) : string :=
  match s with
  | String c r =>
      if Ascii.eqb c "/" || Ascii.eqb c "?" || Ascii.eqb c "#" then ""
      else String c (takeHost r)
  | EmptyString => ""
  end.

(** [url.parse] on the strings used below: the protocol is the scheme,
    the host what follows [//]; a string without a scheme has
    neither. *)
Definition parse (s : string) : option Url :=
  match splitScheme s "" with
  | Some (proto, String "/" (String "/" r)) =>
      Some (mkUrl (Some proto) (Some (takeHost r)))
  | Some (proto, _) => Some (mkUrl (Some proto) None)
  | None => Some (mkUrl None None)
  end.

Definition origin (s : string) : option (string * string) :=
  match parse s with
  | Some (mkUrl (Some p) (Some h)) => Some (p, h)
  | _ => None
  end.

Definition marketUrls (cdapConfig : obj) : list string :=
  match get cdapConfig "market.base.url" with
  | str u => [u]
  | undefined => []
  end.

Definition sameOrigin (a b : option (string * string)) : bool :=
  match a, b with
  | Some (p, h), Some (p', h') => String.eqb p p' && String.eqb h h'
  | _, _ => false
  end.

(** Modelled from the spec: server/url-helper is not among the sources.
    A source URL is verified when its scheme and host are exactly those
    of a member of the allow-listed host set. *)
Definition verifiedMarketHost (cdapConfig : obj) (source : value) : bool :=
  match source with
  | str u =>
      existsb (fun m => sameOrigin (origin u) (origin m))
        (marketUrls cdapConfig)
  | undefined => false
  end.

(** A stand-in for server/token: the token is derived from the bearer
    credential and the configured secret, and validation derives it
    again from the credential of the request, the empty one when there
    is none. *)
Definition token (cdapConfig : obj) (authToken : value) : string :=
  "st." ++ to_string (get cdapConfig "session.secret.key") ++ "."
    ++ to_string authToken.

Definition validToken (t : value) (cdapConfig : obj) (authToken : value)
  : bool :=
  value_eqb t (str (token cdapConfig (or_else authToken (str "")))).

Definition theme (cdapConfig : obj) (path : value) : option json :=
  if is_str path "dark.json" then Some (JObject [("theme", JString "dark")])
  else None.

Definition imports : Imports := {|
  constructUrl := fun cdapConfig path requestOrigin =>
    if value_eqb requestOrigin (str "MARKET") then to_string path
    else "http://router:11015" ++ to_string path;
  proxyHost := fun _ _ => "http://router:11015";
  isVerifiedMarketHost := verifiedMarketHost;
  getMarketUrls := marketUrls;
  REQUEST_ORIGIN_MARKET := str "MARKET";
  generateToken := token;
  validateToken := validToken;
  extractUIThemeWrapper := fun _ => Some (JObject []);
  extractUITheme := theme;
  getFaviconPath := fun _ => "favicon.png";
  url_parse := parse
|}.

(** An upstream that answers every call with the same headers. *)
Definition answering (h : obj) (o : Outbound) : option Upstream :=
  Some (mkMessage (Some h) (mkReply 200 "ok")).

Definition offline (o : Outbound) : option Upstream := None.

Definition platform (env : string) (net : Outbound -> option Upstream)
  : Host := {|
  NODE_ENV := str env;
  randomUUID := "5f0c7a2e-server";
  uuidV4 := fun n => "uuid-" ++ decimal (Z.of_nat n);
  network := net;
  decodeURIComponent := fun s => Some s;
  readFileSync := fun _ _ => Some "{}";
  readIcon := fun _ => Some "icon";
  staticFile := fun _ _ _ path =>
    if exactPath path ["main.js"] then Some "console.log(1)" else None
|}.

Definition request (method : string) (path : list string) (query headers : obj)
  : Request :=
  mkRequest method path query headers ∅ (Some ∅) "".

Definition noAuth : AuthAddress := mkAuthAddress false undefined.

Definition noSettings : UISettings := mkUISettings ∅ ∅.

(** A deployment in proxy mode with HSTS switched on. *)
Definition proxyConfig : obj :=
  {[ AUTH_MODE := str "PROXY";
     IDENTITY_HEADER := str "x-user-id";
     "hsts.enabled" := str "true";
     "hsts.max.age" := str "3600";
     "market.base.url" := str "https://hub.example/v2";
     "session.secret.key" := str "k";
     "externalLinks" := str "links";
     "ui.GTM" := str "GTM-1" ]}.

(** The same deployment with HSTS switched off. *)
Definition plainConfig : obj :=
  <[ "hsts.enabled" := str "false" ]> proxyConfig.

(** A deployment whose market URL has no scheme. *)
Definition brokenHubConfig : obj :=
  <[ "market.base.url" := str "hub" ]> proxyConfig.

(** The context in which the first request of a process is handled. *)
Definition start (cdapConfig : obj) : Ctx :=
  mkCtx (mkShared cdapConfig noSettings (JObject [])) 0 [] freshResponse.

(** Headers of a backend answer, under the lower-case names Node
    gives them. *)
Definition leaking : obj :=
  {[ "authorization" := str "Bearer backend";
     "x-user-id" := str "alice";
     "content-type" := str "application/json" ]}.

End Sample.

(** ** Start-up *)

(** The two helpers [getApp] waits for, from server/config/router-check
    and server/config/parser, as parameters: the promise of [ping]
    resolves to the authentication address, the promise of
    [extractUISettings] to the settings; [None] is a rejected
    promise. *)
Class Startup : Type := {
  ping : option AuthAddress;
  extractUISettings : option UISettings
}.

(** [getApp]: [q.all] of the three promises, spread over [makeApp];
    the promise it returns is rejected when one of them is, or when
    [makeApp] throws. *)
Definition getApp {modules : Imports} {platform : Host} {helpers : Startup}
    (cdapConfig : obj) : option App :=
  authAddress ← ping;
  uiSettings ← extractUISettings;
  makeApp authAddress cdapConfig uiSettings.

(** ** The routes that reach the network *)

(** A request for one of the routes whose handler calls [request] or
    the proxy: the /api mount, the two market routes, /downloadLogs,
    /login and /accessToken, the namespace upload and
    /backendstatus. *)
Definition forwarding (req : Request) : bool :=
  pathUnder "api" req
  || pathIs ["forwardMarketToCdap"] req
  || pathIs ["market"] req
  || pathIs ["downloadLogs"] req
  || pathIs ["login"] req
  || pathIs ["accessToken"] req
  || namespaceRoute req
  || pathIs ["backendstatus"] req.

(** A layer that issues no call when it runs on [req]. *)
Definition silent (req : Request) (l : Layer) : Prop :=
  forall failed c,
    applies failed l req = true ->
    calls (context (layer_run l req c)) = calls c.

(** ** Further sample data *)

Module Scenario.

Definition helpers : Startup := {|
  ping := Some Sample.noAuth;
  extractUISettings := Some Sample.noSettings
|}.

(** A deployment with an authentication server. *)
Definition secured : AuthAddress :=
  mkAuthAddress true (str "https://auth.example/token").

(** A request with cookies. *)
Definition withCookies (path : list string) (cookies : obj) : Request :=
  mkRequest "GET" path ∅ ∅ cookies (Some ∅) "".

(** A request whose session token is the one of the empty
    credential. *)
Definition trusted (method : string) (path : list string) (query : obj)
    (form : obj) : Request :=
  mkRequest method path query
    {[ "session-token" := str (Sample.token Sample.proxyConfig (str "")) ]}
    ∅ (Some form) "".

(** The shared objects of the sample deployment. *)
Definition state : Shared :=
  mkShared Sample.proxyConfig Sample.noSettings (JObject []).

End Scenario.

(** * Properties *)

(** ** The sanitizer *)

Lemma strip_other_mode {A} (cdapConfig : obj) (res : Message A) :
  is_str (get cdapConfig AUTH_MODE) "PROXY" = false ->
  stripAuthHeadersInProxyMode cdapConfig res = res.
Proof.
  intros Hmode. unfold stripAuthHeadersInProxyMode. now rewrite Hmode.
Qed.

Lemma strip_proxy_mode {A} (cdapConfig : obj) (res : Message A) (h : obj) :
  is_str (get cdapConfig AUTH_MODE) "PROXY" = true ->
  headers res = Some h ->
  headers (stripAuthHeadersInProxyMode cdapConfig res)
  = Some (del (del h "Authorization")
            (to_string (get cdapConfig IDENTITY_HEADER))).
Proof.
  intros Hmode Hh. unfold stripAuthHeadersInProxyMode.
  now rewrite Hmode, Hh.
Qed.

Lemma strip_no_headers {A} (cdapConfig : obj) (res : Message A) :
  headers res = None ->
  stripAuthHeadersInProxyMode cdapConfig res = res.
Proof.
  intros Hh. unfold stripAuthHeadersInProxyMode. rewrite Hh.
  now destruct (is_str _ _).
Qed.

(** In proxy mode neither of the two names is left among the headers
    the sanitizer returns. *)
Lemma strip_removes {A} (cdapConfig : obj) (res : Message A) (h : obj) :
  is_str (get cdapConfig AUTH_MODE) "PROXY" = true ->
  headers (stripAuthHeadersInProxyMode cdapConfig res) = Some h ->
  h !! "Authorization" = None
  /\ h !! to_string (get cdapConfig IDENTITY_HEADER) = None.
Proof.
  intros Hmode Hres.
  destruct (headers res) as [h0|] eqn:Hh.
  - rewrite (strip_proxy_mode _ _ h0 Hmode Hh) in Hres.
    injection Hres as <-. unfold del. split.
    + destruct (decide (to_string (get cdapConfig IDENTITY_HEADER)
                        = "Authorization")) as [->|Hne].
      * apply lookup_delete_eq.
      * rewrite lookup_delete_ne by done. apply lookup_delete_eq.
    + apply lookup_delete_eq.
  - rewrite strip_no_headers in Hres by done. congruence.
Qed.

(** Every other header passes through. *)
Lemma strip_keeps {A} (cdapConfig : obj) (res : Message A) (h0 h : obj)
    (k : string) :
  headers res = Some h0 ->
  headers (stripAuthHeadersInProxyMode cdapConfig res) = Some h ->
  k <> "Authorization" ->
  k <> to_string (get cdapConfig IDENTITY_HEADER) ->
  h !! k = h0 !! k.
Proof.
  intros Hh Hres Hk1 Hk2.
  destruct (is_str (get cdapConfig AUTH_MODE) "PROXY") eqn:Hmode.
  - rewrite (strip_proxy_mode _ _ h0 Hmode Hh) in Hres.
    injection Hres as <-. unfold del.
    rewrite !lookup_delete_ne by done. reflexivity.
  - rewrite strip_other_mode in Hres by done. congruence.
Qed.

(** The sanitizer never adds a header. *)
Lemma strip_absent {A} (cdapConfig : obj) (res : Message A) (h0 h : obj)
    (k : string) :
  headers res = Some h0 ->
  headers (stripAuthHeadersInProxyMode cdapConfig res) = Some h ->
  h0 !! k = None ->
  h !! k = None.
Proof.
  intros Hh Hres Hk.
  destruct (is_str (get cdapConfig AUTH_MODE) "PROXY") eqn:Hmode.
  - rewrite (strip_proxy_mode _ _ h0 Hmode Hh) in Hres.
    injection Hres as <-. unfold del.
    rewrite !lookup_delete_None. auto.
  - rewrite strip_other_mode in Hres by done. congruence.
Qed.

Lemma setHeaders_lookup (h : obj) (r : Response) (k : string) :
  res_headers (setHeaders (Some h) r) !! k
  = match h !! k with
    | Some v => Some v
    | None => res_headers r !! k
    end.
Proof.
  simpl. destruct (h !! k) eqn:Hk.
  - now apply lookup_union_Some_l.
  - now rewrite lookup_union_r.
Qed.

(** ** The forwarding paths *)

Section Forwarding.

Context {modules : Imports} {platform : Host}.

Lemma relay_sanitized (cdapConfig : obj) (up : Upstream) (r : Response)
    (k : string) :
  is_str (get cdapConfig AUTH_MODE) "PROXY" = true ->
  guarded cdapConfig k ->
  res_headers r !! k = None ->
  let stripped := stripAuthHeadersInProxyMode cdapConfig up in
  res_headers (pipe stripped (setHeaders (headers stripped) r)) !! k = None.
Proof.
  intros Hmode Hk Hr stripped. unfold pipe.
  cbn [res_headers send status].
  destruct (headers stripped) as [h|] eqn:Hh; [|exact Hr].
  destruct (strip_removes _ _ _ Hmode Hh) as [Ha Hi].
  rewrite !setHeaders_lookup.
  destruct Hk as [-> | ->]; [rewrite Ha | rewrite Hi]; exact Hr.
Qed.

(** The namespace upload relays the answer of the backend without the
    two guarded names. *)
Lemma namespaceUpload_sanitized (req : Request) (c : Ctx) (k : string) :
  is_str (get (cdapConfig (shared c)) AUTH_MODE) "PROXY" = true ->
  guarded (cdapConfig (shared c)) k ->
  res_headers (res c) !! k = None ->
  res_headers (res (context (namespaceUpload req c))) !! k = None.
Proof.
  intros Hmode Hk Hr. unfold namespaceUpload.
  destruct (sessionRejected _ _ _); [exact Hr|].
  destruct (network _) as [up|]; [|exact Hr].
  cbn [context res onRes issue]. now apply relay_sanitized.
Qed.

(** So does the relay from the market to the backend. *)
Lemma forwardMarketToCdap_sanitized (req : Request) (c : Ctx) (k : string) :
  is_str (get (cdapConfig (shared c)) AUTH_MODE) "PROXY" = true ->
  guarded (cdapConfig (shared c)) k ->
  res_headers (res c) !! k = None ->
  res_headers (res (context (forwardMarketToCdap req c))) !! k = None.
Proof.
  intros Hmode Hk Hr. unfold forwardMarketToCdap.
  destruct (sessionRejected _ _ _); [exact Hr|].
  destruct (negb _); [exact Hr|].
  destruct (network (mkOutbound _ _ (req_headers req) _ _)) as [up|];
    [|exact Hr].
  cbn [context res onRes issue]. now apply relay_sanitized.
Qed.

(** The /api mount hands every header of the backend to the client,
    whatever the authentication mode. *)
Lemma apiProxy_relays (req : Request) (c c' : Ctx) :
  apiProxy req c = Done c' ->
  exists o rsp,
    network o = Some rsp
    /\ calls c' = (calls c ++ [o])%list
    /\ forall h k v,
         headers rsp = Some h -> k <> "transfer-encoding" ->
         h !! k = Some v ->
         res_headers (res c') !! k = Some v.
Proof.
  unfold apiProxy. intros Hrun.
  match type of Hrun with
  | context [network ?o] => destruct (network o) as [rsp|] eqn:Hnet; [exists o, rsp|]
  end; [|discriminate].
  injection Hrun as <-. split; [exact Hnet|]. split; [reflexivity|].
  intros h k v Hh Hne Hk. unfold proxied.
  cbn [res onRes issue send status res_headers].
  rewrite Hh. cbn [fmap option_fmap option_map]. rewrite setHeaders_lookup.
  unfold del. rewrite lookup_delete_ne by congruence. now rewrite Hk.
Qed.

End Forwarding.

(** ** Evaluations on the sample deployment *)

Section Runs.

Import Sample.

(** C1.  In proxy mode, a backend that answers with an authorization
    header and the configured identity header sees both reach the
    client through the /api mount, which relays the answer without
    calling the sanitizer.  Relayed by the namespace upload, the same
    answer loses the identity header; its authorization header stays,
    the sanitizer deleting the name [Authorization] as it is spelled
    in the code. *)
Theorem api_mount_relays_guarded_headers :
  let viaApi := request "GET" ["api"; "v3"; "namespaces"] ∅ ∅ in
  let viaUpload :=
    request "POST" ["namespaces"; "default"; "apps"] ∅
      {[ "session-token" := str (token proxyConfig (str "")) ]} in
  get proxyConfig AUTH_MODE = str "PROXY"
  /\ get proxyConfig IDENTITY_HEADER = str "x-user-id"
  /\ map (fun c => (res_headers (res c) !! "authorization",
                    res_headers (res c) !! "x-user-id"))
       <$> run (modules := imports)
             (platform := platform "production" (answering leaking))
             noAuth proxyConfig noSettings [viaApi; viaUpload]
     = Some [ (Some (str "Bearer backend"), Some (str "alice"));
              (Some (str "Bearer backend"), None) ].
Proof. vm_compute. repeat split. Qed.

End Runs.

(** ** The gates of the hub forwarder and of the write endpoints *)

Section Gates.

Context {modules : Imports} {platform : Host}.

Lemma sessionRejected_missing (cdapConfig : obj) (req : Request)
    (authToken : value) :
  get (req_headers req) "session-token" = undefined ->
  sessionRejected cdapConfig req authToken = true.
Proof. intros Hmiss. unfold sessionRejected. rewrite Hmiss. reflexivity. Qed.

Lemma sessionRejected_invalid (cdapConfig : obj) (req : Request)
    (authToken : value) :
  validateToken (get (req_headers req) "session-token") cdapConfig authToken
  = false ->
  sessionRejected cdapConfig req authToken = true.
Proof.
  intros Hbad. unfold sessionRejected. rewrite Hbad.
  now destruct (truthy _).
Qed.

(** C3.  A request to the namespace upload or to the relay-through
    endpoint whose session-token header is missing, or fails
    validation against the bearer credential and the configuration, is
    answered with status 500 and the text "Unable to validate session";
    no outbound call is issued; the answer is the same in both
    cases. *)
Theorem session_gate_rejects (req : Request) (c : Ctx) :
  let token := get (req_headers req) "session-token" in
  let authToken := get (req_headers req) "authorization" in
  token = undefined
  \/ validateToken token (cdapConfig (shared c)) authToken = false ->
  forall gated, gated = namespaceUpload \/ gated = forwardMarketToCdap ->
    exists c',
      gated req c = Done c'
      /\ res_status (res c') = 500
      /\ res_body (res c') = Text "Unable to validate session"
      /\ calls c' = calls c
      /\ c' = onRes (fun r => send (Text "Unable to validate session")
                                (status 500 r)) c.
Proof.
  intros token authToken Hbad gated Hgated.
  assert (Hrej : sessionRejected (cdapConfig (shared c)) req authToken = true).
  { destruct Hbad as [Hmiss | Hinv].
    - now apply sessionRejected_missing.
    - now apply sessionRejected_invalid. }
  exists (onRes (fun r => send (Text "Unable to validate session")
                          (status 500 r)) c).
  split; [|repeat split].
  destruct Hgated as [-> | ->].
  - unfold namespaceUpload. fold authToken. rewrite Hrej. reflexivity.
  - unfold forwardMarketToCdap. fold authToken. rewrite Hrej. reflexivity.
Qed.

(** C2, as the code has it.  For a source the allow-list does not
    verify, neither entry point of the hub forwarder issues an outbound
    call: /market answers 403; /forwardMarketToCdap answers 403 when
    the session token is accepted and the fixed 500 of the session gate
    otherwise. *)
Theorem unverified_source_is_not_fetched (req : Request) (c : Ctx) :
  let cfg := cdapConfig (shared c) in
  isVerifiedMarketHost cfg (get (req_query req) "source") = false ->
  (exists c',
     market req c = Done c'
     /\ res_status (res c') = 403
     /\ calls c' = calls c)
  /\ (exists c',
        forwardMarketToCdap req c = Done c'
        /\ res_status (res c')
           = (if sessionRejected cfg req (get (req_headers req) "authorization")
              then 500 else 403)
        /\ calls c' = calls c).
Proof.
  intros cfg Hsrc. split.
  - unfold market. fold cfg. rewrite Hsrc. cbn [negb].
    eexists. split; [reflexivity|]. split; reflexivity.
  - unfold forwardMarketToCdap. fold cfg.
    destruct (sessionRejected cfg req _).
    + eexists. split; [reflexivity|]. split; reflexivity.
    + rewrite Hsrc. cbn [negb].
      eexists. split; [reflexivity|]. split; reflexivity.
Qed.


End Gates.

Lemma session_gate_rejects_witness :
  let req := Sample.request "POST" ["namespaces"; "default"; "apps"] ∅ ∅ in
  let c := Sample.start Sample.proxyConfig in
  get (req_headers req) "session-token" = undefined
  /\ exists c',
       namespaceUpload (modules := Sample.imports)
         (platform := Sample.platform "production" Sample.offline) req c
       = Done c'
       /\ res_status (res c') = 500
       /\ res_body (res c') = Text "Unable to validate session"
       /\ calls c' = calls c
       /\ c' = onRes (fun r => send (Text "Unable to validate session")
                                 (status 500 r)) c.
Proof.
  intros req c. split; [reflexivity|].
  apply (session_gate_rejects (modules := Sample.imports)
           (platform := Sample.platform "production" Sample.offline) req c).
  - left. reflexivity.
  - left. reflexivity.
Defined.

(** C2 fails on the relay-through endpoint: a request for a source
    outside the allow-list that carries no session token is answered
    500 by the session gate, which comes first, not 403. *)
Lemma relay_through_unverified_source_gets_500 :
  let req :=
    Sample.request "GET" ["forwardMarketToCdap"]
      {[ "source" := str "https://evil.example/x" ]} ∅ in
  isVerifiedMarketHost (Imports := Sample.imports) Sample.proxyConfig
    (get (req_query req) "source") = false
  /\ map (fun c => (res_status (res c), res_body (res c), calls c))
       <$> run (modules := Sample.imports)
             (platform := Sample.platform "production" Sample.offline)
             Sample.noAuth Sample.proxyConfig Sample.noSettings [req]
     = Some [ (500, Text "Unable to validate session", []) ].
Proof. vm_compute. split; reflexivity. Qed.

Lemma unverified_source_is_not_fetched_witness :
  let req :=
    Sample.request "GET" ["market"]
      {[ "source" := str "https://evil.example/x" ]} ∅ in
  let c := Sample.start Sample.proxyConfig in
  let cfg := cdapConfig (shared c) in
  isVerifiedMarketHost (Imports := Sample.imports) cfg
    (get (req_query req) "source") = false
  /\ (exists c',
        market (modules := Sample.imports)
          (platform := Sample.platform "production" Sample.offline) req c
        = Done c'
        /\ res_status (res c') = 403
        /\ calls c' = calls c)
  /\ (exists c',
        forwardMarketToCdap (modules := Sample.imports)
          (platform := Sample.platform "production" Sample.offline) req c
        = Done c'
        /\ res_status (res c')
           = (if sessionRejected (modules := Sample.imports) cfg req
                   (get (req_headers req) "authorization")
              then 500 else 403)
        /\ calls c' = calls c).
Proof.
  intros req c cfg. split; [reflexivity|].
  apply (unverified_source_is_not_fetched (modules := Sample.imports)
           (platform := Sample.platform "production" Sample.offline) req c).
  reflexivity.
Defined.



(** ** What the routes leave in place *)

Section Frames.

Context {modules : Imports} {platform : Host}.

Lemma resFrame_refl (r : Response) : resFrame r r.
Proof. repeat split. Qed.

Lemma resFrame_status (n : Z) (r r' : Response) :
  resFrame r r' -> resFrame r (status n r').
Proof. intros H. exact H. Qed.

Lemma resFrame_send (b : Body) (r r' : Response) :
  resFrame r r' -> resFrame r (send b r').
Proof. intros H. exact H. Qed.

Lemma resFrame_setCookie (ck : Cookie) (r r' : Response) :
  resFrame r r' -> resFrame r (setCookie ck r').
Proof. intros H. exact H. Qed.

Lemma resFrame_removeBCookie (req : Request) (cs : CookieSettings)
    (r r' : Response) :
  resFrame r r' -> resFrame r (removeBCookie req cs r').
Proof. intros H. unfold removeBCookie. now destruct (truthy _). Qed.

Lemma resFrame_setHeaders (h : option obj) (r r' : Response) :
  (forall m, h = Some m -> accounted m) ->
  resFrame r r' -> resFrame r (setHeaders h r').
Proof.
  intros Hacc (Hn & Hc & Hh). destruct h as [m|]; [|repeat split; assumption].
  repeat split; try assumption.
  intros k Hown Hup. rewrite setHeaders_lookup.
  destruct (m !! k) eqn:Hk.
  - exfalso. destruct (Hacc m eq_refl k) as [?|?]; [now rewrite Hk|tauto|tauto].
  - now apply Hh.
Qed.

Lemma resFrame_pipe (up : Upstream) (r r' : Response) :
  (forall m, headers up = Some m -> accounted m) ->
  resFrame r r' -> resFrame r (pipe up r').
Proof. intros Hacc H. unfold pipe. now apply resFrame_setHeaders. Qed.

Lemma accounted_upstream (o : Outbound) (up : Upstream) (m : obj) :
  network o = Some up -> headers up = Some m -> accounted m.
Proof. intros Hnet Hm k Hk. right. now exists o, up, m. Qed.

Lemma accounted_del (m : obj) (k : string) : accounted m -> accounted (del m k).
Proof.
  intros Hacc j [v Hj]. apply Hacc. unfold del in Hj.
  apply lookup_delete_Some in Hj as [_ Hj]. now exists v.
Qed.

Lemma accounted_stripped {A} (cdapConfig : obj) (res : Message A) (m m' : obj) :
  headers res = Some m -> accounted m ->
  headers (stripAuthHeadersInProxyMode cdapConfig res) = Some m' ->
  accounted m'.
Proof.
  intros Hm Hacc Hm'.
  destruct (is_str (get cdapConfig AUTH_MODE) "PROXY") eqn:Hmode.
  - rewrite (strip_proxy_mode _ _ m Hmode Hm) in Hm'.
    injection Hm' as <-. now do 2 apply accounted_del.
  - rewrite strip_other_mode in Hm' by done.
    rewrite Hm in Hm'. now injection Hm' as <-.
Qed.

Lemma stripped_some {A} (cdapConfig : obj) (res : Message A) (m' : obj) :
  headers (stripAuthHeadersInProxyMode cdapConfig res) = Some m' ->
  exists m, headers res = Some m.
Proof.
  unfold stripAuthHeadersInProxyMode.
  destruct (headers res) as [m|] eqn:Hm; [now exists m|].
  destruct (is_str _ _); rewrite Hm; discriminate.
Qed.

Lemma accounted_relayed (cdapConfig : obj) (o : Outbound) (up : Upstream) :
  network o = Some up ->
  forall m, headers (stripAuthHeadersInProxyMode cdapConfig up) = Some m ->
    accounted m.
Proof.
  intros Hnet m Hm. destruct (stripped_some _ _ _ Hm) as [m0 Hm0].
  eapply accounted_stripped; eauto. eapply accounted_upstream; eauto.
Qed.

Lemma accounted_singleton (k : string) (v : value) :
  In k ownHeaders -> accounted ({[ k := v ]} : obj).
Proof.
  intros Hk j [w Hj]. apply lookup_singleton_Some in Hj as [<- _]. now left.
Qed.

Lemma accounted_set (m : obj) (k : string) (v : value) :
  In k ownHeaders -> accounted m -> accounted (set m k v).
Proof.
  intros Hk Hacc j [w Hj]. unfold set in Hj.
  apply lookup_insert_Some in Hj as [[<- _]|[_ Hj]]; [now left|].
  apply Hacc. now exists w.
Qed.

Lemma accounted_insert (m : obj) (k : string) (v : value) :
  In k ownHeaders -> accounted m -> accounted (<[ k := v ]> m).
Proof. apply accounted_set. Qed.

Lemma own_known (h : obj) (m : obj) :
  accounted h -> Some h = Some m -> accounted m.
Proof. now intros Hacc [= <-]. Qed.

Ltac own := simpl; tauto.

Ltac accounting :=
  lazymatch goal with
  | |- forall m, Some _ = Some m -> accounted m =>
      intros ?m; apply own_known; accounting
  | |- accounted (<[ _ := _ ]> _) => apply accounted_insert; [own | accounting]
  | |- accounted (set _ _ _) => apply accounted_set; [own | accounting]
  | |- accounted {[ _ := _ ]} => apply accounted_singleton; own
  | |- forall m, headers (stripAuthHeadersInProxyMode _ _) = Some m -> accounted m =>
      eapply accounted_relayed; eassumption
  | |- forall m, headers _ = Some m -> accounted m =>
      intros ?m ?Hm; eapply accounted_upstream; eassumption
  end.

Ltac framing_step :=
  first
    [ apply resFrame_refl
    | apply resFrame_status
    | apply resFrame_send
    | apply resFrame_pipe; [accounting | ]
    | apply resFrame_setCookie
    | apply resFrame_removeBCookie
    | apply resFrame_setHeaders; [accounting | ] ].

Ltac framed :=
  cbn [res onRes issue shared drawn];
  unfold sendStatus, setHeader, scriptHeaders;
  repeat framing_step.

Ltac plainly :=
  repeat (split; [reflexivity | ]); framed.

Lemma plain_errorHandler : plain errorHandler.
Proof. intros req c. unfold errorHandler. plainly. Qed.

Lemma plain_analytics (serverNonce : string) : plain (analytics serverNonce).
Proof. intros req c. unfold analytics. destruct (truthy _); plainly. Qed.

Lemma plain_uiConfigJs : plain uiConfigJs.
Proof.
  intros req c. unfold uiConfigJs.
  destruct (readFileSync _ _); [plainly | reflexivity].
Qed.

Lemma plain_uiThemeJs : plain uiThemeJs.
Proof. intros req c. unfold uiThemeJs. plainly. Qed.

Lemma plain_forwardMarketToCdap : plain forwardMarketToCdap.
Proof.
  intros req c. unfold forwardMarketToCdap, unableToValidate.
  destruct (sessionRejected _ _ _); [plainly|].
  destruct (negb _); [plainly|].
  destruct (network (mkOutbound _ _ (req_headers req) _ _)) eqn:Hnet; plainly.
Qed.

Lemma plain_market : plain market.
Proof.
  intros req c. unfold market.
  destruct (negb _); [plainly|].
  destruct (network _); plainly.
Qed.

Lemma plain_downloadLogs : plain downloadLogs.
Proof.
  intros req c. unfold downloadLogs.
  destruct (decodeURIComponent _); [|reflexivity].
  destruct (network _) as [up|] eqn:Hnet; [|plainly].
  destruct (statusCode (content up) =? 200); [|plainly].
  repeat (split; [reflexivity | ]).
  cbn [res onRes issue]. apply resFrame_pipe; [accounting|].
  apply resFrame_setHeaders; [|apply resFrame_refl].
  intros m Hm. destruct (stripped_some _ _ _ Hm) as [m0 Hm0].
  eapply accounted_stripped; [exact Hm0| |exact Hm].
  cbn [headers] in Hm0. injection Hm0 as <-.
  destruct (is_str _ _); accounting.
Qed.

Lemma plain_authentication (authAddress : AuthAddress) (isSecure : bool) :
  plain (authentication authAddress isSecure).
Proof.
  intros req c. unfold authentication.
  destruct (req_body req); [|reflexivity].
  destruct (network _); [|plainly].
  destruct (negb _); plainly.
Qed.

Lemma plain_namespaceUpload : plain namespaceUpload.
Proof.
  intros req c. unfold namespaceUpload, unableToValidate.
  destruct (sessionRejected _ _ _); [plainly|].
  destruct (network _) eqn:Hnet; plainly.
Qed.

Lemma plain_expressStatic (root : Root) (sub : string) (opts : StaticOptions) :
  plain (expressStatic root sub opts).
Proof.
  intros req c. unfold expressStatic.
  destruct (isGet req); [|reflexivity].
  destruct (staticFile _ _ _ _); [plainly | reflexivity].
Qed.

Lemma plain_robots : plain robots.
Proof. intros req c. unfold robots. plainly. Qed.

Lemma plain_statusProbe : plain statusProbe.
Proof. intros req c. unfold statusProbe. plainly. Qed.

Lemma plain_loginPage (authAddress : AuthAddress) : plain (loginPage authAddress).
Proof. intros req c. unfold loginPage. destruct (_ || _); plainly. Qed.

Lemma plain_sessionTokenRoute : plain sessionTokenRoute.
Proof. intros req c. unfold sessionTokenRoute. plainly. Qed.

Lemma plain_backendstatus (isSecure : bool) : plain (backendstatus isSecure).
Proof.
  intros req c. unfold backendstatus. destruct (network _); plainly.
Qed.

Lemma plain_renderHydrator (cs : CookieSettings) : plain (renderHydrator cs).
Proof. intros req c. unfold renderHydrator. plainly. Qed.

Lemma plain_renderCdap (cs : CookieSettings) : plain (renderCdap cs).
Proof. intros req c. unfold renderCdap. plainly. Qed.

Lemma sharedFrame_refl (req : Request) (s : Shared) : sharedFrame req s s.
Proof. repeat split; auto. Qed.

Lemma framed_plain (req : Request) (c c' : Ctx) :
  drawn c' = drawn c /\ shared c' = shared c /\ resFrame (res c) (res c') ->
  Framed req c c'.
Proof.
  intros (Hd & Hs & Hn & Hc & Hh). split; auto.
  rewrite Hs. apply sharedFrame_refl.
Qed.

Lemma framing_plain (req : Request) (k : Kind) (m : Request -> bool)
    (h : Handler) :
  plain h -> framing req (mkLayer k m h).
Proof.
  intros Hplain failed c _. cbn [layer_run]. specialize (Hplain req c).
  destruct (h req c); auto. now apply framed_plain.
Qed.

Lemma framed_finalhandler (req : Request) (failed : bool) (c : Ctx) :
  Framed req c (onRes (finalhandler req failed) c).
Proof. split; auto. apply sharedFrame_refl. Qed.

Lemma framing_mountNotFound (req : Request) (mount : string) :
  framing req (useAt mount mountNotFound).
Proof. intros failed c _. apply framed_finalhandler. Qed.

Lemma applies_regular (failed : bool) (m : Request -> bool) (h : Handler)
    (req : Request) :
  applies failed (mkLayer Regular m h) req = true ->
  failed = false /\ m req = true.
Proof.
  unfold applies. cbn [layer_kind layer_match]. intros Happ.
  apply andb_true_iff in Happ as [Hf Hm]. now destruct failed.
Qed.

Lemma framing_configJs (req : Request) (authAddress : AuthAddress)
    (isSecure : bool) :
  framing req (onGet ["config.js"] (configJs authAddress isSecure)).
Proof.
  intros failed c Happ. apply applies_regular in Happ as [_ Hm].
  apply andb_true_iff in Hm as [Hpath Hget].
  cbn [layer_run onGet]. unfold configJs. split.
  - reflexivity.
  - reflexivity.
  - left. reflexivity.
  - intros k Hown Hup. cbn [res onRes onShared].
    assert (Hfr : resFrame (res c)
                    (send (Assign "window.CDAP_CONFIG"
                             (configData authAddress isSecure
                                (cdapConfig (shared c))
                                (mkUISettings (ui_props (uiSettings (shared c)))
                                   (set (ui_ui (uiSettings (shared c)))
                                      "externalLinks"
                                      (get (cdapConfig (shared c)) "externalLinks")))))
                       (setHeaders scriptHeaders (res c)))) by framed.
    destruct Hfr as (_ & _ & Hh). now apply Hh.
  - cbn [shared onRes onShared cdapConfig uiSettings uiThemeConfig ui_props ui_ui].
    repeat split; auto.
Qed.

Lemma framing_updateTheme (req : Request) :
  framing req (onPost ["updateTheme"] updateTheme).
Proof.
  intros failed c Happ. apply applies_regular in Happ as [_ Hm].
  apply andb_true_iff in Hm as [Hpath Hpost].
  cbn [layer_run onPost]. unfold updateTheme, unableToValidate.
  destruct (sessionRejected _ _ _) eqn:Hgate; [apply framed_plain; plainly|].
  destruct (req_body req) as [form|] eqn:Hbody; [|reflexivity].
  destruct (negb _); [apply framed_plain; plainly|].
  destruct (extractUITheme _ _) as [theme|] eqn:Htheme;
    [|apply framed_plain; plainly].
  split; try reflexivity.
  - left. reflexivity.
  - cbn [shared onRes onShared cdapConfig uiSettings uiThemeConfig].
    repeat split; auto. right. repeat split; auto. now exists form.
Qed.

Ltac plain_handler :=
  lazymatch goal with
  | |- plain errorHandler => apply plain_errorHandler
  | |- plain (analytics _) => apply plain_analytics
  | |- plain uiConfigJs => apply plain_uiConfigJs
  | |- plain uiThemeJs => apply plain_uiThemeJs
  | |- plain forwardMarketToCdap => apply plain_forwardMarketToCdap
  | |- plain market => apply plain_market
  | |- plain downloadLogs => apply plain_downloadLogs
  | |- plain (authentication _ _) => apply plain_authentication
  | |- plain namespaceUpload => apply plain_namespaceUpload
  | |- plain (expressStatic _ _ _) => apply plain_expressStatic
  | |- plain robots => apply plain_robots
  | |- plain statusProbe => apply plain_statusProbe
  | |- plain (loginPage _) => apply plain_loginPage
  | |- plain sessionTokenRoute => apply plain_sessionTokenRoute
  | |- plain (backendstatus _) => apply plain_backendstatus
  | |- plain (renderHydrator _) => apply plain_renderHydrator
  | |- plain (renderCdap _) => apply plain_renderCdap
  end.

Ltac layer :=
  lazymatch goal with
  | |- framing _ (onGet _ (configJs _ _)) => apply framing_configJs
  | |- framing _ (onPost _ updateTheme) => apply framing_updateTheme
  | |- framing _ (useAt _ mountNotFound) => apply framing_mountNotFound
  | |- framing _ _ => apply framing_plain; plain_handler
  end.

Ltac layers :=
  repeat (apply List.Forall_cons; [layer|]); apply List.Forall_nil.

Lemma framing_routes (req : Request) (authAddress : AuthAddress)
    (serverNonce : string) (isSecure : bool) (cs : CookieSettings) :
  Forall (framing req) (routes authAddress serverNonce isSecure cs).
Proof.
  unfold routes, staticMounts, staticMount. cbn [app flat_map fst snd]. layers.
Qed.

Lemma dispatch_framed (req : Request) (layers : list Layer) :
  Forall (framing req) layers ->
  forall failed c, Framed req c (dispatch layers req failed c).
Proof.
  induction 1 as [|l rest Hl _ IH]; intros failed c; cbn [dispatch].
  - apply framed_finalhandler.
  - destruct (applies failed l req) eqn:Happ; [|apply IH].
    specialize (Hl failed c Happ).
    destruct (layer_run l req c) as [c'|c'|c']; [exact Hl| |]; subst c';
      apply IH.
Qed.

Lemma securityLayers_inv (cdapConfig : obj) (serverNonce : string)
    (sec : list Layer) :
  securityLayers cdapConfig serverNonce = Some sec ->
  (isModeDevelopment = true /\ sec = [])
  \/ (isModeDevelopment = false
      /\ exists whiteList hsts,
           cspWhiteListUrls cdapConfig = Some whiteList
           /\ helmetHsts (hstsOption cdapConfig) = Some hsts
           /\ sec = [ use assignNonce;
                      use (helmet whiteList serverNonce hsts) ]).
Proof.
  unfold securityLayers. destruct isModeDevelopment; cbn [negb].
  - intros [= <-]. now left.
  - destruct (cspWhiteListUrls cdapConfig) as [whiteList|]; [|discriminate].
    destruct (helmetHsts (hstsOption cdapConfig)) as [hsts|]; [|discriminate].
    intros [= <-]. right. split; [reflexivity|]. now exists whiteList, hsts.
Qed.

Lemma dispatch_security (cdapConfig : obj) (serverNonce : string)
    (security rest : list Layer) (req : Request) (c : Ctx) :
  securityLayers cdapConfig serverNonce = Some security ->
  dispatch (security ++ rest) req false c
  = dispatch rest req false (through security req c)
  /\ dispatch (security ++ rest) req true c = dispatch rest req true c.
Proof.
  intros Hsec.
  destruct (securityLayers_inv _ _ _ Hsec)
    as [[_ ->] | [_ (whiteList & hsts & _ & _ & ->)]]; split; reflexivity.
Qed.

Lemma errorHandler_answers (rest : list Layer) (req : Request) (c : Ctx) :
  dispatch (useError errorHandler :: rest) req true c
  = onRes (fun r => send ErrorObject (status 500 r)) c.
Proof. reflexivity. Qed.

Lemma dispatch_failed (cdapConfig : obj) (serverNonce : string)
    (security rest : list Layer) (req : Request) (c : Ctx) :
  securityLayers cdapConfig serverNonce = Some security ->
  dispatch (security ++ useError errorHandler :: rest) req true c
  = onRes (fun r => send ErrorObject (status 500 r)) c.
Proof.
  intros Hsec.
  destruct (dispatch_security _ _ _ (useError errorHandler :: rest) req c Hsec)
    as [_ ->].
  apply errorHandler_answers.
Qed.

Lemma dispatch_skip (l : Layer) (ls : list Layer) (req : Request)
    (failed : bool) (c : Ctx) :
  applies failed l req = false ->
  dispatch (l :: ls) req failed c = dispatch ls req failed c.
Proof. intros Happ. cbn [dispatch]. now rewrite Happ. Qed.

Lemma dispatch_done (l : Layer) (ls : list Layer) (req : Request)
    (failed : bool) (c c' : Ctx) :
  applies failed l req = true ->
  layer_run l req c = Done c' ->
  dispatch (l :: ls) req failed c = c'.
Proof. intros Happ Hrun. cbn [dispatch]. now rewrite Happ, Hrun. Qed.

Lemma dispatch_prefix (cdapConfig : obj) (security rest : list Layer)
    (req : Request) (c0 : Ctx) :
  securityLayers cdapConfig randomUUID = Some security ->
  res_csp (res c0) = None ->
  let c := dispatch
             ([ use compression; useAt "api" apiProxy; use bodyParser;
                use cookieParser ]
              ++ security ++ useError errorHandler :: rest)%list
             req false c0 in
  if pathUnder "api" req || negb (bool_decide (is_Some (req_body req)))
  then res_csp (res c) = None /\ shared c = shared c0 /\ drawn c = drawn c0
  else c = dispatch (useError errorHandler :: rest) req false
             (through security req c0).
Proof.
  intros Hsec Hcsp.
  cbn [app dispatch applies use useAt layer_kind layer_match layer_run
       negb andb compression].
  destruct (pathUnder "api" req) eqn:Hapi; cbn [orb].
  - unfold apiProxy. destruct (network _) as [rsp|].
    + repeat split. unfold proxied.
      cbn [res onRes issue send status res_csp].
      now destruct (headers rsp).
    + cbn [dispatch applies layer_kind negb andb].
      rewrite (dispatch_failed _ _ _ _ _ _ Hsec). repeat split. exact Hcsp.
  - unfold bodyParser. destruct (req_body req) as [form|].
    + rewrite bool_decide_eq_true_2 by eauto. cbn [negb].
      cbn [dispatch applies layer_kind layer_match layer_run negb andb
           cookieParser].
      now destruct (dispatch_security _ _ _
                      (useError errorHandler :: rest) req c0 Hsec) as [-> _].
    + rewrite bool_decide_eq_false_2 by (intros [? ?]; discriminate).
      cbn [negb].
      cbn [dispatch applies layer_kind negb andb].
      rewrite (dispatch_failed _ _ _ _ _ _ Hsec). repeat split. exact Hcsp.
Qed.

Lemma makeApp_handle (authAddress : AuthAddress) (cdapConfig : obj)
    (uiSettings : UISettings) (app : App) :
  makeApp authAddress cdapConfig uiSettings = Some app ->
  exists favicon security,
    securityLayers cdapConfig randomUUID = Some security
    /\ initial app
       = mkShared cdapConfig uiSettings
           (default (JObject []) (extractUIThemeWrapper cdapConfig))
    /\ forall s n req,
         let c := handle app s n req in
         if early favicon req then
           res_csp (res c) = None /\ shared c = s /\ drawn c = n
         else
           c = dispatch
                 (useError errorHandler
                  :: routes authAddress randomUUID
                       (is_str (get cdapConfig "ssl.external.enabled") "true")
                       (mkCookieSettings
                          (is_str (get cdapConfig "ssl.external.enabled") "true")
                          true "strict"))
                 req false (entered security s n req).
Proof.
  unfold makeApp.
  destruct (securityLayers cdapConfig randomUUID) as [security|] eqn:Hsec;
    [|discriminate].
  cbn [mbind option_bind]. intros [= <-].
  generalize (routes authAddress randomUUID
                (is_str (get cdapConfig "ssl.external.enabled") "true")
                (mkCookieSettings
                   (is_str (get cdapConfig "ssl.external.enabled") "true")
                   true "strict")) as rest.
  generalize (readIcon (getFaviconPath
                (default (JObject []) (extractUIThemeWrapper cdapConfig))))
    as icon.
  intros icon rest.
  exists (bool_decide (is_Some icon)), security.
  split; [reflexivity|]. split; [reflexivity|].
  intros s n req. unfold handle, entered. cbn [stack].
  pose proof (dispatch_prefix cdapConfig security rest req
                (mkCtx s n [] freshResponse) Hsec eq_refl) as Hrest.
  cbn [shared drawn] in Hrest.
  unfold early. destruct icon as [image|].
  - rewrite bool_decide_eq_true_2 by eauto. cbn [andb app].
    destruct (exactPath (req_path req) ["favicon.ico"]) eqn:Hfav; cbn [orb].
    + destruct (isGet req) eqn:Hget;
        (erewrite dispatch_done;
         [ | unfold applies; cbn [layer_kind layer_match negb andb]; exact Hfav
           | cbn [layer_run]; unfold serveFavicon; rewrite Hget; reflexivity ]);
        repeat split.
    + rewrite dispatch_skip
        by (unfold applies; cbn [layer_kind layer_match negb andb]; exact Hfav).
      exact Hrest.
  - rewrite bool_decide_eq_false_2 by (intros [? ?]; discriminate).
    cbn [andb orb app]. exact Hrest.
Qed.

End Frames.

(** ** Construction of the security headers *)

Example parseInt_decimal : parseInt (str "3600") = Some 3600.
Proof. reflexivity. Qed.

Example parseInt_prefix : parseInt (str " 42px") = Some 42.
Proof. reflexivity. Qed.

Example parseInt_hexadecimal : parseInt (str "0x1F") = Some 31.
Proof. reflexivity. Qed.

Example parseInt_missing : parseInt undefined = None.
Proof. reflexivity. Qed.

Example hsts_all_flags :
  strictTransportSecurity (mkHsts (Some 3600) true true)
  = Some "max-age=3600; includeSubDomains; preload".
Proof. reflexivity. Qed.

(** HSTS switched on without a usable [hsts.max.age]: helmet cannot be
    built. *)
Example hsts_without_max_age :
  helmetHsts (hstsOption {[ "hsts.enabled" := str "true" ]}) = None.
Proof. reflexivity. Qed.

Section Policy.

Context {modules : Imports} {platform : Host}.

Lemma parsed_all (urls : list string) :
  (forall u, In u urls -> is_Some (url_parse u)) ->
  exists parsed,
    mapM url_parse urls = Some parsed
    /\ Forall2 (fun u p => url_parse u = Some p) urls parsed.
Proof.
  intros Hall.
  assert (Hsome : is_Some (mapM url_parse urls)).
  { apply mapM_is_Some, Forall_forall. intros u Hu.
    apply Hall. now apply list_elem_of_In. }
  destruct Hsome as [parsed Hparsed]. exists parsed. split; [exact Hparsed|].
  now apply mapM_Some.
Qed.

(** C6, as the code has it.  No configured market URL is dropped: as
    long as [url.parse] throws on none of the sources, the construction
    succeeds with one [protocol//host] entry for each source, in order,
    and a market URL in which [url.parse] finds neither protocol nor
    host contributes the entry [null//null]. *)
Theorem unparsed_market_url_is_kept (cdapConfig : obj) (u : string) :
  In u (getMarketUrls cdapConfig) ->
  url_parse u = Some (mkUrl None None) ->
  (forall u', In u' (whiteListSources cdapConfig) -> is_Some (url_parse u')) ->
  exists entries,
    cspWhiteListUrls cdapConfig = Some (joinWith " " entries)
    /\ Forall2 (fun u' e =>
                  exists p, url_parse u' = Some p /\ e = whiteListEntry p)
         (whiteListSources cdapConfig) entries
    /\ In "null//null" entries.
Proof.
  intros Hu Hparse Hall.
  destruct (parsed_all _ Hall) as (parsed & Hparsed & Hrel).
  exists (map whiteListEntry parsed). unfold cspWhiteListUrls.
  rewrite Hparsed. split; [reflexivity|]. split.
  - apply Forall2_fmap_r. eapply Forall2_impl; [exact Hrel|].
    intros u' p Hp. now exists p.
  - assert (Hin : In u (whiteListSources cdapConfig)).
    { unfold whiteListSources. apply in_or_app. now right. }
    apply list_elem_of_In, list_elem_of_lookup in Hin as [i Hi].
    destruct (Forall2_lookup_l _ _ _ i u Hrel Hi) as (p & Hp & Hup).
    apply in_map_iff. exists p. split.
    + rewrite Hparse in Hup. now injection Hup as <-.
    + apply list_elem_of_In, list_elem_of_lookup. now exists i.
Qed.

End Policy.

Lemma unparsed_market_url_is_kept_witness :
  let cfg := Sample.brokenHubConfig in
  In "hub" (getMarketUrls (Imports := Sample.imports) cfg)
  /\ url_parse (Imports := Sample.imports) "hub" = Some (mkUrl None None)
  /\ exists entries,
       cspWhiteListUrls (modules := Sample.imports) cfg
       = Some (joinWith " " entries)
       /\ Forall2 (fun u' e =>
                     exists p,
                       url_parse (Imports := Sample.imports) u' = Some p
                       /\ e = whiteListEntry p)
            (whiteListSources (modules := Sample.imports) cfg) entries
       /\ In "null//null" entries.
Proof.
  intros cfg. split; [left; reflexivity|]. split; [reflexivity|].
  apply (unparsed_market_url_is_kept (modules := Sample.imports) cfg "hub").
  - left. reflexivity.
  - reflexivity.
  - intros u' [<- | []]. now eexists.
Defined.

(** C6 fails: a market URL without scheme is not dropped; it puts
    [null//null] into the img-src sources of every response. *)
Lemma unparsed_market_url_reaches_img_src :
  url_parse (Imports := Sample.imports) "hub" = Some (mkUrl None None)
  /\ getMarketUrls (Imports := Sample.imports) Sample.brokenHubConfig = ["hub"]
  /\ cspWhiteListUrls (modules := Sample.imports) Sample.brokenHubConfig
     = Some "null//null"
  /\ map (fun c => hd "" (directive "imgSrc" (default [] (res_csp (res c)))))
       <$> run (modules := Sample.imports)
             (platform := Sample.platform "production" Sample.offline)
             Sample.noAuth Sample.brokenHubConfig Sample.noSettings
             [Sample.request "GET" [] ∅ ∅]
     = Some ["'self' data: null//null"].
Proof. vm_compute. repeat split. Qed.

(** ** Every response *)

Section Responses.

Context {modules : Imports} {platform : Host}.

Lemma tail_framed (req : Request) (authAddress : AuthAddress)
    (serverNonce : string) (isSecure : bool) (cs : CookieSettings)
    (failed : bool) (c : Ctx) :
  Framed req c
    (dispatch (useError errorHandler :: routes authAddress serverNonce isSecure cs)
       req failed c).
Proof.
  apply dispatch_framed. apply List.Forall_cons.
  - apply framing_plain, plain_errorHandler.
  - apply framing_routes.
Qed.

Lemma early_reached (favicon : bool) (req : Request) :
  exactPath (req_path req) ["favicon.ico"] = false ->
  pathUnder "api" req = false ->
  is_Some (req_body req) ->
  early favicon req = false.
Proof.
  intros Hfav Hapi Hbody. unfold early. rewrite Hfav, Hapi.
  rewrite bool_decide_eq_true_2 by exact Hbody. now destruct favicon.
Qed.



(** C8, as the code has it.  No request handler writes to
    [cdapConfig]; of the other shared objects, [uiSettings] is written
    by GET /config.js alone, which sets its [ui.externalLinks] to the
    configured value, and [uiThemeConfig] is replaced by POST
    /updateTheme alone, once the session gate is passed and the theme
    named in the body loads.  Hence [cdapConfig] is the same before
    every request of a run. *)
Theorem shared_state_writes (authAddress : AuthAddress) (cdapConfig0 : obj)
    (uiSettings0 : UISettings) (app : App) :
  makeApp authAddress cdapConfig0 uiSettings0 = Some app ->
  (forall s n req, sharedFrame req s (shared (handle app s n req)))
  /\ (forall reqs s n,
        Forall (fun c => cdapConfig (shared c) = cdapConfig s)
          (serve app s n reqs)).
Proof.
  intros Happ.
  destruct (makeApp_handle _ _ _ _ Happ) as (favicon & security & Hsec & _ & Hrun).
  assert (Hone : forall s n req, sharedFrame req s (shared (handle app s n req))).
  { intros s n req. specialize (Hrun s n req). cbn zeta in Hrun.
    destruct (early favicon req).
    - destruct Hrun as (_ & -> & _). apply sharedFrame_refl.
    - rewrite Hrun.
      pose proof (fr_shared _ _ _ (tail_framed req authAddress randomUUID
        (is_str (get cdapConfig0 "ssl.external.enabled") "true")
        (mkCookieSettings (is_str (get cdapConfig0 "ssl.external.enabled") "true")
           true "strict") false (entered security s n req))) as Hfr.
      replace (shared (entered security s n req)) with s in Hfr; [exact Hfr|].
      destruct (securityLayers_inv _ _ _ Hsec)
        as [[_ ->] | [_ (whiteList & hsts & _ & _ & ->)]]; reflexivity. }
  split; [exact Hone|].
  induction reqs as [|req reqs IH]; intros s n; cbn [serve].
  - constructor.
  - destruct (Hone s n req) as (Hcfg & _). constructor; [exact Hcfg|].
    eapply Forall_impl; [apply IH|].
    intros c Hc. cbn beta in Hc. now rewrite Hc.
Qed.



End Responses.

(** ** Where a request is routed *)

Section Routing.

Context {modules : Imports} {platform : Host}.

Lemma dispatch_next (l : Layer) (ls : list Layer) (req : Request)
    (failed : bool) (c c' : Ctx) :
  applies failed l req = true ->
  layer_run l req c = Next c' ->
  dispatch (l :: ls) req failed c = dispatch ls req false c'.
Proof. intros Happ Hrun. cbn [dispatch]. now rewrite Happ, Hrun. Qed.

Lemma expressStatic_miss (root : Root) (sub : string) (opts : StaticOptions)
    (req : Request) (c : Ctx) :
  staticFile root sub (index opts) (tail (req_path req)) = None ->
  expressStatic root sub opts req c = Next c.
Proof.
  intros Hmiss. unfold expressStatic. rewrite Hmiss. now destruct (isGet req).
Qed.

Ltac skip_layers := repeat (rewrite dispatch_skip by reflexivity).

Lemma sameSegment_eq (a b : string) :
  sameSegment a b = true -> lowerCase a = lowerCase b.
Proof. apply String.eqb_eq. Qed.

Lemma other_segment (seg lower other : string) :
  lowerCase seg = lower ->
  String.eqb lower (lowerCase other) = false ->
  String.eqb seg other = false.
Proof.
  intros Hseg Hne. destruct (String.eqb_spec seg other) as [->|]; [|reflexivity].
  rewrite <- Hseg, String.eqb_refl in Hne. discriminate.
Qed.

Lemma lowerCase_empty (s : string) : lowerCase s = "" -> s = "".
Proof. now destruct s. Qed.

(** Skipping the layers a path does not match, the first segment being
    known up to case. *)
Ltac matcher H :=
  unfold applies, onGet, onPost, useAt, useError, namespaceRoute,
    pipelinesRoute, cdapRoute, pathIs, pathUnder;
  cbn [layer_kind layer_match negb andb orb req_path req_method samePath app];
  unfold sameSegment; rewrite ?H; reflexivity.

Ltac skip_layers_with H := repeat (rewrite dispatch_skip by matcher H).

Ltac to_layers :=
  unfold routes, staticMounts, staticMount in *; cbn [app flat_map fst snd].

Lemma missing_asset_dispatch (authAddress : AuthAddress) (serverNonce : string)
    (isSecure : bool) (cs : CookieSettings) (req : Request) (c : Ctx)
    (mount : string) (root : Root) (sub : string) (opts : StaticOptions)
    (rest : list string) :
  In (mount, (root, sub, opts)) staticMounts ->
  req_path req = mount :: rest ->
  staticFile root sub (index opts) rest = None ->
  dispatch (useError errorHandler :: routes authAddress serverNonce isSecure cs)
    req false c
  = onRes (finalhandler req false) c.
Proof.
  intros Hin Hpath Hmiss.
  destruct req as [method path query hdrs cookies form payload].
  cbn [req_path] in Hpath. subst path. to_layers.
  destruct Hin as [Hin|[Hin|[Hin|[Hin|[Hin|[]]]]]];
    injection Hin as <- <- <- <-;
    skip_layers;
    rewrite (dispatch_next _ _ _ _ c c)
      by (reflexivity || now apply expressStatic_miss);
    now erewrite dispatch_done by reflexivity.
Qed.

Lemma entry_paths (req : Request) :
  (pipelinesRoute req || cdapRoute req) = true ->
  req_path req = [] \/ req_path req = [""]
  \/ exists seg rest,
       req_path req = seg :: rest
       /\ (lowerCase seg = "cdap" \/ lowerCase seg = "pipelines").
Proof.
  unfold pipelinesRoute, cdapRoute, pathIs, pathUnder.
  destruct (req_path req) as [|seg rest]; [now left|].
  cbn [samePath app]. intros Hroute. right.
  destruct (sameSegment seg "pipelines") eqn:Hp.
  { right. exists seg, rest. split; [reflexivity|].
    right. now apply sameSegment_eq in Hp. }
  destruct (sameSegment seg "cdap") eqn:Hc.
  { right. exists seg, rest. split; [reflexivity|].
    left. now apply sameSegment_eq in Hc. }
  cbn [orb andb] in Hroute.
  destruct (sameSegment seg "") eqn:He; [|discriminate].
  apply sameSegment_eq, lowerCase_empty in He as ->.
  destruct rest; [now left|discriminate].
Qed.

(** An entry request gets to the render route of its template. *)
Lemma entry_dispatch (authAddress : AuthAddress) (serverNonce : string)
    (isSecure : bool) (cs : CookieSettings) (req : Request) (c : Ctx) :
  (pipelinesRoute req || cdapRoute req) = true ->
  exactPath (req_path req) ["favicon.ico"] = false
  /\ pathUnder "api" req = false
  /\ exists render,
       (render = renderHydrator cs \/ render = renderCdap cs)
       /\ dispatch
            (useError errorHandler :: routes authAddress serverNonce isSecure cs)
            req false c
          = context (render req c).
Proof.
  intros Hroute.
  destruct (entry_paths req Hroute)
    as [Hp | [Hp | (seg & rest & Hp & [Hseg | Hseg])]];
    destruct req as [method path query hdrs cookies form payload];
    cbn [req_path] in Hp; subst path.
  1-2: (split; [reflexivity|]); (split; [reflexivity|]);
    exists (renderCdap cs); (split; [auto|]); to_layers; skip_layers;
    now erewrite dispatch_done by reflexivity.
  - split; [cbn [req_path exactPath];
            now rewrite (other_segment seg "cdap" "favicon.ico" Hseg)|].
    split; [matcher Hseg|].
    exists (renderCdap cs). split; [auto|]. to_layers. skip_layers_with Hseg.
    now erewrite dispatch_done by (matcher Hseg || reflexivity).
  - split; [cbn [req_path exactPath];
            now rewrite (other_segment seg "pipelines" "favicon.ico" Hseg)|].
    split; [matcher Hseg|].
    exists (renderHydrator cs). split; [auto|]. to_layers.
    skip_layers_with Hseg.
    now erewrite dispatch_done by (matcher Hseg || reflexivity).
Qed.

(** C10.  A request under one of the static mounts for which
    express.static finds no file is answered by the second handler of
    the mount: status 404 and the plain text of finalhandler, never a
    rendered template.  (The request is one whose body the parsers
    accept.) *)
Theorem missing_asset_is_plain_404 (authAddress : AuthAddress)
    (cdapConfig : obj) (uiSettings : UISettings) (app : App) (s : Shared)
    (n : nat) (req : Request) (mount : string) (root : Root) (sub : string)
    (opts : StaticOptions) (rest : list string) :
  makeApp authAddress cdapConfig uiSettings = Some app ->
  In (mount, (root, sub, opts)) staticMounts ->
  req_path req = mount :: rest ->
  is_Some (req_body req) ->
  staticFile root sub (index opts) rest = None ->
  let r := res (handle app s n req) in
  res_status r = 404
  /\ res_body r
     = Text ("Cannot " ++ req_method req ++ " /" ++ joinWith "/" (req_path req))
  /\ forall view nonceVal, res_body r <> View view nonceVal.
Proof.
  intros Happ Hin Hpath Hbody Hmiss.
  destruct (makeApp_handle _ _ _ _ Happ) as (favicon & security & _ & _ & Hrun).
  specialize (Hrun s n req). cbn zeta in Hrun |- *.
  assert (Hearly : early favicon req = false).
  { unfold early, pathUnder. rewrite Hpath.
    rewrite bool_decide_eq_true_2 by exact Hbody.
    unfold staticMounts in Hin.
    destruct Hin as [Hin|[Hin|[Hin|[Hin|[Hin|[]]]]]];
      injection Hin as <- _ _ _; now destruct favicon. }
  rewrite Hearly in Hrun. rewrite Hrun.
  rewrite (missing_asset_dispatch _ _ _ _ _ _ _ _ _ _ _ Hin Hpath Hmiss).
  cbn. repeat split. discriminate.
Qed.

Lemma entry_handle (authAddress : AuthAddress) (cdapConfig : obj)
    (uiSettings : UISettings) (app : App) (s : Shared) (n : nat)
    (req : Request) :
  isModeDevelopment = false ->
  makeApp authAddress cdapConfig uiSettings = Some app ->
  entry req ->
  rendered (handle app s n req) (uuidV4 n)
  /\ drawn (handle app s n req) = S n.
Proof.
  intros Hmode Happ [Hroute Hbody].
  destruct (makeApp_handle _ _ _ _ Happ) as (favicon & security & Hsec & _ & Hrun).
  specialize (Hrun s n req). cbn zeta in Hrun.
  destruct (securityLayers_inv _ _ _ Hsec)
    as [[Hdev _] | [_ (whiteList & hsts & _ & _ & ->)]]; [congruence|].
  destruct (entry_dispatch authAddress randomUUID
              (is_str (get cdapConfig "ssl.external.enabled") "true")
              (mkCookieSettings
                 (is_str (get cdapConfig "ssl.external.enabled") "true")
                 true "strict") req
              (entered [use assignNonce; use (helmet whiteList randomUUID hsts)]
                 s n req) Hroute)
    as (Hfav & Hapi & render & Hrender & Hgo).
  rewrite (early_reached favicon req Hfav Hapi Hbody) in Hrun.
  rewrite Hrun, Hgo. unfold rendered, entered, through.
  destruct Hrender as [-> | ->];
    unfold renderHydrator, renderCdap, removeBCookie;
    destruct (truthy (get (req_cookies req) "bcookie")); destruct hsts;
    cbn; repeat split; eauto.
Qed.

(** C5, as the code has it.  Outside development mode, two requests
    for an entry point served one after the other are answered with
    the uuids drawn for them, the n-th and the next: each is the nonce
    of its response, stands in the script-src directive of that
    response and is the [nonceVal] of the template rendered for it; the
    two nonces differ whenever the two draws do. *)
Theorem entry_nonces (authAddress : AuthAddress) (cdapConfig : obj)
    (uiSettings : UISettings) (app : App) (s : Shared) (n : nat)
    (req1 req2 : Request) :
  isModeDevelopment = false ->
  makeApp authAddress cdapConfig uiSettings = Some app ->
  entry req1 ->
  entry req2 ->
  exists c1 c2,
    serve app s n [req1; req2] = [c1; c2]
    /\ rendered c1 (uuidV4 n)
    /\ rendered c2 (uuidV4 (S n))
    /\ (uuidV4 n <> uuidV4 (S n) -> res_nonce (res c1) <> res_nonce (res c2)).
Proof.
  intros Hmode Happ Hreq1 Hreq2.
  destruct (entry_handle _ _ _ _ s n req1 Hmode Happ Hreq1) as [Hc1 Hn1].
  destruct (entry_handle _ _ _ _ (shared (handle app s n req1)) (S n) req2
              Hmode Happ Hreq2) as [Hc2 _].
  exists (handle app s n req1),
    (handle app (shared (handle app s n req1)) (S n) req2).
  split; [cbn [serve]; now rewrite Hn1|]. split; [exact Hc1|].
  split; [exact Hc2|].
  destruct Hc1 as [-> _]. destruct Hc2 as [-> _]. congruence.
Qed.



End Routing.

(** ** The theorems on the sample deployment *)

Lemma makeApp_built {modules : Imports} {platform : Host}
    (authAddress : AuthAddress) (cdapConfig : obj) (uiSettings : UISettings)
    (whiteList : string) (hsts : option string) :
  cspWhiteListUrls cdapConfig = Some whiteList ->
  helmetHsts (hstsOption cdapConfig) = Some hsts ->
  exists app, makeApp authAddress cdapConfig uiSettings = Some app.
Proof.
  intros Hwl Hhsts. unfold makeApp, securityLayers. rewrite Hwl, Hhsts.
  destruct (negb isModeDevelopment); cbn [mbind option_bind]; eauto.
Qed.

(** The sample deployment starts. *)
Lemma sample_built (env : string) (net : Outbound -> option Upstream) :
  exists app,
    makeApp (modules := Sample.imports) (platform := Sample.platform env net)
      Sample.noAuth Sample.proxyConfig Sample.noSettings = Some app.
Proof.
  apply (makeApp_built _ _ _ "https://hub.example" (Some "max-age=3600"));
    vm_compute; reflexivity.
Qed.




Lemma entry_nonces_witness :
  let host := Sample.platform "production" Sample.offline in
  let req := Sample.request "GET" ["cdap"; "ns"; "default"] ∅ ∅ in
  exists app,
    makeApp (modules := Sample.imports) (platform := host) Sample.noAuth
      Sample.proxyConfig Sample.noSettings = Some app
    /\ isModeDevelopment (platform := host) = false
    /\ entry req
    /\ exists c1 c2,
         serve app (initial app) 0 [req; req] = [c1; c2]
         /\ rendered c1 (uuidV4 (Host := host) 0)
         /\ rendered c2 (uuidV4 (Host := host) 1)
         /\ (uuidV4 (Host := host) 0 <> uuidV4 (Host := host) 1 ->
             res_nonce (res c1) <> res_nonce (res c2)).
Proof.
  intros host req.
  destruct (sample_built "production" Sample.offline) as [app Happ].
  assert (Hentry : entry req) by (split; [reflexivity | eexists; reflexivity]).
  exists app. split; [exact Happ|]. split; [reflexivity|].
  split; [exact Hentry|].
  apply (entry_nonces (modules := Sample.imports) (platform := host)
           Sample.noAuth Sample.proxyConfig Sample.noSettings app (initial app)
           0%nat req req).
  - reflexivity.
  - exact Happ.
  - exact Hentry.
  - exact Hentry.
Defined.

(** C5 fails in development mode: no nonce is drawn, two responses in
    a row hand the same [nonceVal] to the template, and neither has a
    policy. *)
Lemma no_nonce_in_development :
  map (fun c => (res_nonce (res c), res_body (res c), res_csp (res c)))
    <$> run (modules := Sample.imports)
          (platform := Sample.platform "development" Sample.offline)
          Sample.noAuth Sample.proxyConfig Sample.noSettings
          [Sample.request "GET" [] ∅ ∅; Sample.request "GET" [] ∅ ∅]
  = Some [ (undefined, View "cdap" (str "undefined"), None);
           (undefined, View "cdap" (str "undefined"), None) ].
Proof. vm_compute. reflexivity. Qed.

Lemma shared_state_writes_witness :
  let host := Sample.platform "production" Sample.offline in
  exists app,
    makeApp (modules := Sample.imports) (platform := host) Sample.noAuth
      Sample.proxyConfig Sample.noSettings = Some app
    /\ (forall s n req,
          sharedFrame (modules := Sample.imports) req s
            (shared (handle app s n req)))
    /\ (forall reqs s n,
          Forall (fun c => cdapConfig (shared c) = cdapConfig s)
            (serve app s n reqs)).
Proof.
  intros host.
  destruct (sample_built "production" Sample.offline) as [app Happ].
  exists app. split; [exact Happ|].
  exact (shared_state_writes (modules := Sample.imports) (platform := host)
           Sample.noAuth Sample.proxyConfig Sample.noSettings app Happ).
Defined.

(** C8 fails: GET /config.js writes [ui.externalLinks] into the shared
    [uiSettings], and a POST /updateTheme that passes the session gate
    replaces the shared [uiThemeConfig], which the next GET
    /ui-theme.js then serves. *)
Lemma handlers_write_shared_state :
  let host := Sample.platform "production" Sample.offline in
  let update :=
    mkRequest "POST" ["updateTheme"] ∅
      {[ "session-token" := str (Sample.token Sample.proxyConfig (str "")) ]}
      ∅ (Some {[ "uiThemePath" := str "dark.json" ]}) "" in
  ui_ui Sample.noSettings !! "externalLinks" = None
  /\ map (fun c => ui_ui (uiSettings (shared c)) !! "externalLinks")
       <$> run (modules := Sample.imports) (platform := host) Sample.noAuth
             Sample.proxyConfig Sample.noSettings
             [Sample.request "GET" ["config.js"] ∅ ∅]
     = Some [ Some (str "links") ]
  /\ map (fun c => res_body (res c))
       <$> run (modules := Sample.imports) (platform := host) Sample.noAuth
             Sample.proxyConfig Sample.noSettings
             [Sample.request "GET" ["ui-theme.js"] ∅ ∅; update;
              Sample.request "GET" ["ui-theme.js"] ∅ ∅]
     = Some [ Assign "window.CDAP_UI_THEME" (JObject []);
              Text "Theme updated";
              Assign "window.CDAP_UI_THEME"
                (JObject [("theme", JString "dark")]) ].
Proof. vm_compute. repeat split. Qed.


(** The two nonces on the sample deployment: each of two responses has
    its own, both have the one of the application, which is also the
    one in the analytics script. *)
Lemma server_nonce_example :
  map (fun c => firstn 3 (directive "scriptSrc" (default [] (res_csp (res c)))))
    <$> run (modules := Sample.imports)
          (platform := Sample.platform "production" Sample.offline)
          Sample.noAuth Sample.proxyConfig Sample.noSettings
          [Sample.request "GET" [] ∅ ∅; Sample.request "GET" ["pipelines"] ∅ ∅]
  = Some [ ["'nonce-uuid-0'"; "'unsafe-inline'"; "nonce-5f0c7a2e-server"];
           ["'nonce-uuid-1'"; "'unsafe-inline'"; "nonce-5f0c7a2e-server"] ].
Proof. vm_compute. reflexivity. Qed.

Lemma missing_asset_is_plain_404_witness :
  let host := Sample.platform "production" Sample.offline in
  let req := Sample.request "GET" ["assets"; "nope.js"] ∅ ∅ in
  exists app,
    makeApp (modules := Sample.imports) (platform := host) Sample.noAuth
      Sample.proxyConfig Sample.noSettings = Some app
    /\ In ("assets", (DIST_PATH, "/assets", mkStaticOptions true 0))
         (staticMounts (platform := host))
    /\ staticFile (Host := host) DIST_PATH "/assets" true ["nope.js"] = None
    /\ let r := res (handle app (initial app) 0 req) in
       res_status r = 404
       /\ res_body r
          = Text ("Cannot " ++ req_method req ++ " /"
                  ++ joinWith "/" (req_path req))
       /\ forall view nonceVal, res_body r <> View view nonceVal.
Proof.
  intros host req.
  destruct (sample_built "production" Sample.offline) as [app Happ].
  exists app. split; [exact Happ|]. split; [left; reflexivity|].
  split; [reflexivity|].
  apply (missing_asset_is_plain_404 (modules := Sample.imports)
           (platform := host) Sample.noAuth Sample.proxyConfig
           Sample.noSettings app (initial app) 0%nat req "assets" DIST_PATH
           "/assets" (mkStaticOptions true 0) ["nope.js"]).
  - exact Happ.
  - left. reflexivity.
  - reflexivity.
  - eexists. reflexivity.
  - reflexivity.
Defined.

(** * Further properties *)

(** ** The sanitizer, in full *)

Lemma lookup_del_two (h : obj) (a b k : string) :
  del (del h a) b !! k = if decide (k = a \/ k = b) then None else h !! k.
Proof.
  unfold del. destruct (decide _) as [[-> | ->] | Hne].
  - destruct (decide (b = a)) as [->|Hother].
    + apply lookup_delete_eq.
    + rewrite lookup_delete_ne by done. apply lookup_delete_eq.
  - apply lookup_delete_eq.
  - rewrite !lookup_delete_ne by (intros Heq; apply Hne; rewrite <- Heq; auto).
    reflexivity.
Qed.


(** X1.  In proxy mode, on a message whose headers are an object, the
    sanitizer deletes the property [Authorization], spelled so, and the
    property named by the configured identity header ([undefined] when
    none is configured), and nothing else: every other header keeps its
    value, none is added, and the rest of the message is untouched. *)
Theorem sanitizer_deletes_two_names {A} (cdapConfig : obj) (res : Message A)
    (h : obj) :
  is_str (get cdapConfig AUTH_MODE) "PROXY" = true ->
  headers res = Some h ->
  exists h',
    stripAuthHeadersInProxyMode cdapConfig res = mkMessage (Some h') (content res)
    /\ forall k,
         h' !! k
         = if decide (k = "Authorization"
                      \/ k = to_string (get cdapConfig IDENTITY_HEADER))
           then None
           else h !! k.
Proof.
  intros Hmode Hh. unfold stripAuthHeadersInProxyMode. rewrite Hmode, Hh.
  eexists. split; [reflexivity|]. intros k. apply lookup_del_two.
Qed.

Lemma sanitizer_deletes_two_names_witness :
  let res := mkMessage (Some Sample.leaking) tt in
  is_str (get Sample.proxyConfig AUTH_MODE) "PROXY" = true
  /\ headers res = Some Sample.leaking
  /\ exists h',
       stripAuthHeadersInProxyMode Sample.proxyConfig res
       = mkMessage (Some h') (content res)
       /\ forall k,
            h' !! k
            = if decide (k = "Authorization"
                         \/ k = to_string (get Sample.proxyConfig IDENTITY_HEADER))
              then None
              else Sample.leaking !! k.
Proof.
  intros res. split; [reflexivity|]. split; [reflexivity|].
  apply (sanitizer_deletes_two_names Sample.proxyConfig res Sample.leaking);
    reflexivity.
Defined.


(** ** Reading back a number written in decimal *)








(** ** Building the application *)

Section Building.

Context {modules : Imports} {platform : Host}.




End Building.


(** ** Requests on the built application *)

Section Served.

Context {modules : Imports} {platform : Host}.

Lemma dispatch_answer (l : Layer) (ls : list Layer) (req : Request)
    (failed : bool) (c : Ctx) :
  applies failed l req = true ->
  layer_run l req c = Done (context (layer_run l req c)) ->
  dispatch (l :: ls) req failed c = context (layer_run l req c).
Proof.
  intros Happ Hdone. cbn [dispatch]. rewrite Happ.
  now destruct (layer_run l req c); try discriminate.
Qed.

Lemma dispatch_raise (l : Layer) (ls : list Layer) (req : Request)
    (failed : bool) (c c' : Ctx) :
  applies failed l req = true ->
  layer_run l req c = Raise c' ->
  dispatch (l :: ls) req failed c = dispatch ls req true c'.
Proof. intros Happ Hrun. cbn [dispatch]. now rewrite Happ, Hrun. Qed.

Lemma makeApp_stack (authAddress : AuthAddress) (cdapConfig : obj)
    (uiSettings : UISettings) (app : App) :
  makeApp authAddress cdapConfig uiSettings = Some app ->
  exists security,
    securityLayers cdapConfig randomUUID = Some security
    /\ initial app
       = mkShared cdapConfig uiSettings
           (default (JObject []) (extractUIThemeWrapper cdapConfig))
    /\ stack app
       = (match readIcon (getFaviconPath
                   (default (JObject []) (extractUIThemeWrapper cdapConfig))) with
          | Some icon =>
              [ mkLayer Regular
                  (fun req => exactPath (req_path req) ["favicon.ico"])
                  (serveFavicon icon) ]
          | None => []
          end
          ++ [ use compression; useAt "api" apiProxy; use bodyParser;
               use cookieParser ]
          ++ security
          ++ useError errorHandler
             :: routes authAddress randomUUID
                  (is_str (get cdapConfig "ssl.external.enabled") "true")
                  (mkCookieSettings
                     (is_str (get cdapConfig "ssl.external.enabled") "true")
                     true "strict"))%list.
Proof.
  unfold makeApp.
  destruct (securityLayers cdapConfig randomUUID) as [security|] eqn:Hsec;
    [|discriminate].
  cbn [mbind option_bind]. intros [= <-]. exists security.
  split; [reflexivity|]. split; reflexivity.
Qed.

Lemma api_not_favicon (req : Request) :
  pathUnder "api" req = true ->
  exactPath (req_path req) ["favicon.ico"] = false.
Proof.
  unfold pathUnder. destruct (req_path req) as [|seg rest]; [discriminate|].
  intros Hseg. apply sameSegment_eq in Hseg. cbn [exactPath].
  now rewrite (other_segment seg "api" "favicon.ico" Hseg).
Qed.

(** The layers ahead of the /api mount. *)
Lemma ahead_of_api (authAddress : AuthAddress) (cdapConfig : obj)
    (uiSettings : UISettings) (app : App) (s : Shared) (n : nat)
    (req : Request) :
  makeApp authAddress cdapConfig uiSettings = Some app ->
  readIcon (getFaviconPath
              (default (JObject []) (extractUIThemeWrapper cdapConfig))) = None
  \/ exactPath (req_path req) ["favicon.ico"] = false ->
  exists security rest,
    securityLayers cdapConfig randomUUID = Some security
    /\ rest = routes authAddress randomUUID
                (is_str (get cdapConfig "ssl.external.enabled") "true")
                (mkCookieSettings
                   (is_str (get cdapConfig "ssl.external.enabled") "true")
                   true "strict")
    /\ handle app s n req
       = dispatch
           ([ use compression; useAt "api" apiProxy; use bodyParser;
              use cookieParser ]
            ++ security ++ useError errorHandler :: rest)%list
           req false (mkCtx s n [] freshResponse).
Proof.
  intros Happ Hfav.
  destruct (makeApp_stack _ _ _ _ Happ) as (security & Hsec & _ & Hstack).
  exists security. eexists. split; [exact Hsec|]. split; [reflexivity|].
  unfold handle. rewrite Hstack.
  destruct (readIcon _) as [icon|]; [|reflexivity].
  destruct Hfav as [Hnone | Hfav]; [discriminate|].
  cbn [List.app]. apply dispatch_skip.
  unfold applies. cbn [layer_kind layer_match negb andb]. exact Hfav.
Qed.

Lemma api_handle (authAddress : AuthAddress) (cdapConfig0 : obj)
    (uiSettings : UISettings) (app : App) (s : Shared) (n : nat)
    (req : Request) :
  makeApp authAddress cdapConfig0 uiSettings = Some app ->
  pathUnder "api" req = true ->
  let c0 := mkCtx s n [] freshResponse in
  let o :=
    mkOutbound (str (req_method req))
      (ToBackend (proxyHost (cdapConfig s) req) (tail (req_path req)))
      (req_headers req) None (req_payload req) in
  handle app s n req
  = match network o with
    | Some rsp => onRes (proxied rsp) (issue o c0)
    | None => onRes (fun r => send ErrorObject (status 500 r)) (issue o c0)
    end.
Proof.
  intros Happ Hapi c0 o.
  destruct (ahead_of_api _ _ _ _ s n req Happ
              (or_intror (api_not_favicon req Hapi)))
    as (security & rest & Hsec & _ & ->).
  cbn [List.app dispatch applies use useAt layer_kind layer_match layer_run
       negb andb compression].
  rewrite Hapi. unfold apiProxy. cbn [shared]. fold o.
  destruct (network o) as [rsp|]; [reflexivity|].
  cbn [dispatch applies layer_kind negb andb].
  now rewrite (dispatch_failed _ _ _ _ _ _ Hsec).
Qed.

Lemma rejected_body_handle (authAddress : AuthAddress) (cdapConfig : obj)
    (uiSettings : UISettings) (app : App) (s : Shared) (n : nat)
    (req : Request) :
  makeApp authAddress cdapConfig uiSettings = Some app ->
  readIcon (getFaviconPath
              (default (JObject []) (extractUIThemeWrapper cdapConfig))) = None
  \/ exactPath (req_path req) ["favicon.ico"] = false ->
  pathUnder "api" req = false ->
  req_body req = None ->
  handle app s n req
  = onRes (fun r => send ErrorObject (status 500 r))
      (mkCtx s n [] freshResponse).
Proof.
  intros Happ Hfav Hapi Hbody.
  destruct (ahead_of_api _ _ _ _ s n req Happ Hfav)
    as (security & rest & Hsec & _ & ->).
  cbn [List.app dispatch applies use useAt layer_kind layer_match layer_run
       negb andb compression].
  rewrite Hapi. unfold bodyParser. rewrite Hbody.
  cbn [dispatch applies layer_kind negb andb].
  now rewrite (dispatch_failed _ _ _ _ _ _ Hsec).
Qed.


(** X6.  A request whose body the parsers reject is answered by the
    error handler, status 500, before any route runs: no outbound call
    is issued, the shared objects are untouched, no nonce is drawn, and
    the response has none of the security headers, helmet coming after
    the parsers. *)
Theorem rejected_body_is_answered_500 (authAddress : AuthAddress)
    (cdapConfig : obj) (uiSettings : UISettings) (app : App) (s : Shared)
    (n : nat) (req : Request) :
  makeApp authAddress cdapConfig uiSettings = Some app ->
  exactPath (req_path req) ["favicon.ico"] = false ->
  pathUnder "api" req = false ->
  req_body req = None ->
  let c := handle app s n req in
  res_status (res c) = 500
  /\ res_body (res c) = ErrorObject
  /\ calls c = []
  /\ shared c = s
  /\ drawn c = n
  /\ res_csp (res c) = None
  /\ res_headers (res c) = ∅.
Proof.
  intros Happ Hfav Hapi Hbody c. subst c.
  rewrite (rejected_body_handle _ _ _ _ s n req Happ (or_intror Hfav) Hapi
             Hbody).
  repeat split.
Qed.

End Served.

Section Reached.

Context {modules : Imports} {platform : Host}.

(** A request that gets past the favicon, the /api mount and the
    parsers is handled by the error handler and the routes, entered
    after the security layers. *)
Lemma reached (authAddress : AuthAddress) (cdapConfig : obj)
    (uiSettings : UISettings) (app : App) (s : Shared) (n : nat)
    (req : Request) :
  makeApp authAddress cdapConfig uiSettings = Some app ->
  readIcon (getFaviconPath
              (default (JObject []) (extractUIThemeWrapper cdapConfig))) = None
  \/ exactPath (req_path req) ["favicon.ico"] = false ->
  pathUnder "api" req = false ->
  is_Some (req_body req) ->
  exists security,
    securityLayers cdapConfig randomUUID = Some security
    /\ handle app s n req
       = dispatch
           (useError errorHandler
            :: routes authAddress randomUUID
                 (is_str (get cdapConfig "ssl.external.enabled") "true")
                 (mkCookieSettings
                    (is_str (get cdapConfig "ssl.external.enabled") "true")
                    true "strict"))
           req false (entered security s n req).
Proof.
  intros Happ Hfav Hapi Hbody.
  destruct (ahead_of_api _ _ _ _ s n req Happ Hfav)
    as (security & rest & Hsec & -> & ->).
  exists security. split; [exact Hsec|].
  pose proof (dispatch_prefix cdapConfig security
                (routes authAddress randomUUID
                   (is_str (get cdapConfig "ssl.external.enabled") "true")
                   (mkCookieSettings
                      (is_str (get cdapConfig "ssl.external.enabled") "true")
                      true "strict"))
                req (mkCtx s n [] freshResponse) Hsec eq_refl) as Hrest.
  cbn zeta in Hrest. rewrite Hapi in Hrest.
  rewrite bool_decide_eq_true_2 in Hrest by exact Hbody.
  exact Hrest.
Qed.

(** The context the routes are entered with. *)
Lemma entered_context (cdapConfig : obj) (serverNonce : string)
    (security : list Layer) (s : Shared) (n : nat) (req : Request) :
  securityLayers cdapConfig serverNonce = Some security ->
  let c0 := entered security s n req in
  shared c0 = s
  /\ calls c0 = []
  /\ res_status (res c0) = 200
  /\ res_cookies (res c0) = []
  /\ res_body (res c0) = NoBody
  /\ drawn c0 = (if isModeDevelopment then n else S n)
  /\ res_nonce (res c0)
     = (if isModeDevelopment then undefined else str (uuidV4 n))
  /\ (isModeDevelopment = true -> c0 = mkCtx s n [] freshResponse)
  /\ (isModeDevelopment = false ->
      In ("'nonce-" ++ uuidV4 n ++ "'")
        (directive "scriptSrc" (default [] (res_csp (res c0)))))
  /\ (forall k, k <> HSTS -> res_headers (res c0) !! k = None).
Proof.
  intros Hsec.
  destruct (securityLayers_inv _ _ _ Hsec)
    as [[Hdev ->] | [Hdev (whiteList & hsts & _ & _ & ->)]];
    rewrite Hdev; unfold entered, through;
    cbn [fold_left use layer_run assignNonce helmet context onRes res shared
         drawn calls].
  - repeat split; discriminate.
  - do 7 (split; [now destruct hsts|]). split; [discriminate|]. split.
    + intros _. destruct hsts;
        cbn [res_csp setHeader setHeaders default from_option id directive
             String.eqb Ascii.eqb Bool.eqb res_nonce to_string];
        left; reflexivity.
    + intros k Hk. destruct hsts as [v|]; [|reflexivity].
      unfold setHeader. rewrite setHeaders_lookup.
      now rewrite lookup_singleton_ne by congruence.
Qed.

Lemma reached_nonce (authAddress : AuthAddress) (cdapConfig : obj)
    (uiSettings : UISettings) (app : App) (s : Shared) (n : nat)
    (req : Request) :
  isModeDevelopment = false ->
  makeApp authAddress cdapConfig uiSettings = Some app ->
  exactPath (req_path req) ["favicon.ico"] = false ->
  pathUnder "api" req = false ->
  is_Some (req_body req) ->
  drawn (handle app s n req) = S n
  /\ res_nonce (res (handle app s n req)) = str (uuidV4 n).
Proof.
  intros Hmode Happ Hfav Hapi Hbody.
  destruct (reached _ _ _ _ s n req Happ (or_intror Hfav) Hapi Hbody)
    as (security & Hsec & ->).
  destruct (entered_context _ _ _ s n req Hsec)
    as (_ & _ & _ & _ & _ & Hdrawn & Hnonce & _).
  rewrite Hmode in Hdrawn, Hnonce.
  match goal with
  | |- context [dispatch ?ls req false ?c0] =>
      pose proof (tail_framed req authAddress randomUUID
        (is_str (get cdapConfig "ssl.external.enabled") "true")
        (mkCookieSettings (is_str (get cdapConfig "ssl.external.enabled") "true")
           true "strict") false c0) as [Hd Hn _ _ _]
  end.
  rewrite Hd, Hn. now split.
Qed.

(** The requests that reach the security layers. *)
Lemma nonce_run (authAddress : AuthAddress) (cdapConfig : obj)
    (uiSettings : UISettings) (app : App) (reqs : list Request) :
  isModeDevelopment = false ->
  makeApp authAddress cdapConfig uiSettings = Some app ->
  Forall (fun req =>
            exactPath (req_path req) ["favicon.ico"] = false
            /\ pathUnder "api" req = false
            /\ is_Some (req_body req)) reqs ->
  forall s n,
    map (fun c => res_nonce (res c)) (serve app s n reqs)
    = map (fun i => str (uuidV4 i)) (seq n (length reqs)).
Proof.
  intros Hmode Happ Hall.
  induction Hall as [|req reqs (Hfav & Hapi & Hbody) _ IH]; intros s n;
    [reflexivity|].
  destruct (reached_nonce _ _ _ _ s n req Hmode Happ Hfav Hapi Hbody)
    as [Hdrawn Hnonce].
  cbn [serve map length seq]. rewrite Hnonce, Hdrawn. f_equal. apply IH.
Qed.

(** X7.  Outside development mode, the requests of a run that reach
    the security layers are answered with the uuids drawn for them, in
    order: the nonce of the i-th response is the i-th draw after the
    ones made before the run, whatever the routes do; so no nonce is
    used twice in a run as long as the generator repeats no value. *)
Theorem nonces_follow_the_draws (authAddress : AuthAddress)
    (cdapConfig : obj) (uiSettings : UISettings) (app : App)
    (reqs : list Request) (s : Shared) (n : nat) :
  isModeDevelopment = false ->
  makeApp authAddress cdapConfig uiSettings = Some app ->
  Forall (fun req =>
            exactPath (req_path req) ["favicon.ico"] = false
            /\ pathUnder "api" req = false
            /\ is_Some (req_body req)) reqs ->
  let nonces := map (fun c => res_nonce (res c)) (serve app s n reqs) in
  nonces = map (fun i => str (uuidV4 i)) (seq n (length reqs))
  /\ ((forall i j, uuidV4 i = uuidV4 j -> i = j) -> List.NoDup nonces).
Proof.
  intros Hmode Happ Hall nonces. subst nonces.
  rewrite (nonce_run _ _ _ _ _ Hmode Happ Hall s n).
  split; [reflexivity|]. intros Hinj.
  apply Finite.Injective_map_NoDup; [|apply List.seq_NoDup].
  intros i j [= Hij]. now apply Hinj.
Qed.

(** X8.  In development mode no response has a nonce, no uuid is
    drawn, and the only policy a response can carry is the one
    finalhandler attaches to its own answers. *)
Theorem development_mode_has_no_nonce (authAddress : AuthAddress)
    (cdapConfig : obj) (uiSettings : UISettings) (app : App) (s : Shared)
    (n : nat) (req : Request) :
  isModeDevelopment = true ->
  makeApp authAddress cdapConfig uiSettings = Some app ->
  let c := handle app s n req in
  drawn c = n
  /\ res_nonce (res c) = undefined
  /\ (res_csp (res c) = None \/ res_csp (res c) = Some finalCsp).
Proof.
  intros Hmode Happ c. subst c.
  destruct (readIcon (getFaviconPath
              (default (JObject []) (extractUIThemeWrapper cdapConfig))))
    as [icon|] eqn:Hicon.
  1: destruct (exactPath (req_path req) ["favicon.ico"]) eqn:Hfav.
  1: { destruct (makeApp_stack _ _ _ _ Happ) as (security & Hsec & _ & Hstack).
       unfold handle. rewrite Hstack, Hicon. cbn [List.app].
       rewrite dispatch_answer;
         [ | unfold applies; cbn [layer_kind layer_match negb andb]; exact Hfav
           | cbn [layer_run]; unfold serveFavicon; now destruct (isGet req) ].
       cbn [layer_run]. unfold serveFavicon.
       destruct (isGet req); repeat split; now left. }
  all: assert (Hpast : readIcon (getFaviconPath
                          (default (JObject [])
                             (extractUIThemeWrapper cdapConfig))) = None
                     \/ exactPath (req_path req) ["favicon.ico"] = false)
         by (now right) || (now left).
  all: clear Hicon.
  all: destruct (pathUnder "api" req) eqn:Hapi;
    [ rewrite (api_handle _ _ _ _ s n req Happ Hapi);
      destruct (network _) as [rsp|]; [|repeat split; now left];
      unfold proxied; destruct (headers rsp); repeat split; now left
    | ].
  all: destruct (req_body req) as [form|] eqn:Hbody;
    [ | rewrite (rejected_body_handle _ _ _ _ s n req Happ Hpast Hapi Hbody);
        repeat split; now left ].
  all: assert (Hsome : is_Some (req_body req)) by (rewrite Hbody; eauto).
  all: destruct (reached _ _ _ _ s n req Happ Hpast Hapi Hsome)
         as (security & Hsec & ->).
  all: destruct (entered_context _ _ _ s n req Hsec)
         as (_ & _ & _ & _ & _ & _ & _ & Hfresh & _).
  all: rewrite (Hfresh Hmode).
  all: match goal with
       | |- context [dispatch ?ls ?r false ?c0] =>
           pose proof (tail_framed r authAddress randomUUID
             (is_str (get cdapConfig "ssl.external.enabled") "true")
             (mkCookieSettings
                (is_str (get cdapConfig "ssl.external.enabled") "true")
                true "strict") false c0) as [Hd Hn Hcsp _ _]
       end.
  all: rewrite Hd, Hn; split; [reflexivity|]; split; [reflexivity|];
    exact Hcsp.
Qed.

End Reached.

(** ** The routes with a path of one segment *)

Section Routes.

Context {modules : Imports} {platform : Host}.

Lemma single_segment (p lower : string) (req : Request) :
  lowerCase p = lower ->
  pathIs [p] req = true ->
  exists seg rest,
    req_path req = seg :: rest
    /\ lowerCase seg = lower
    /\ (rest = [] \/ rest = [""]).
Proof.
  intros <-. unfold pathIs.
  destruct (req_path req) as [|seg rest]; [discriminate|].
  cbn [samePath List.app]. intros Hpath. exists seg, rest.
  destruct (sameSegment seg p) eqn:Hseg; [|discriminate].
  split; [reflexivity|]. split; [now apply sameSegment_eq|].
  destruct rest as [|x [|y rest]]; [now left| |];
    cbn [andb orb samePath] in Hpath.
  - right. rewrite andb_true_r in Hpath.
    now apply sameSegment_eq, lowerCase_empty in Hpath as ->.
  - now rewrite andb_false_r in Hpath.
Qed.

Lemma get_method (req : Request) :
  isGet req = true -> req_method req = "GET" \/ req_method req = "HEAD".
Proof.
  unfold isGet. intros Hget. apply orb_true_iff in Hget.
  destruct Hget as [H | H]; apply String.eqb_eq in H; auto.
Qed.

Lemma post_method (req : Request) :
  isPost req = true -> req_method req = "POST" \/ req_method req = "POST".
Proof. unfold isPost. intros H. apply String.eqb_eq in H. auto. Qed.

Ltac matcher H :=
  unfold applies, onGet, onPost, useAt, useError, namespaceRoute,
    pipelinesRoute, cdapRoute, pathIs, pathUnder, isGet, isPost;
  cbn [layer_kind layer_match negb andb orb req_path req_method samePath
       List.app];
  unfold sameSegment; rewrite ?H; reflexivity.

Ltac skip_layers_with H := repeat (rewrite dispatch_skip by matcher H).

Ltac to_layers :=
  unfold routes, staticMounts, staticMount in *;
  cbn [List.app flat_map fst snd].

(** The request is taken apart: its first segment is known up to case,
    the rest of its path and its method are known. *)
Ltac segment req Hpath Hmeth :=
  let seg := fresh "seg" in
  let rest := fresh "rest" in
  let Hp := fresh "Hp" in
  let Hrest := fresh "Hrest" in
  let Hseg := fresh "Hseg" in
  match type of Hpath with
  | pathIs [?p] _ = true =>
      let lower := eval vm_compute in (lowerCase p) in
      destruct (single_segment p lower req eq_refl Hpath)
        as (seg & rest & Hp & Hseg & Hrest)
  end;
  first [apply get_method in Hmeth | apply post_method in Hmeth];
  destruct req as [method path query hdrs cookies form payload];
  cbn [req_path req_method] in Hp, Hmeth; subst path;
  destruct Hmeth as [-> | ->]; destruct Hrest as [-> | ->];
  to_layers; skip_layers_with Hseg.

Ltac route req Hpath Hmeth tac :=
  segment req Hpath Hmeth;
  (rewrite dispatch_answer;
   [ reflexivity
   | match goal with Hs : lowerCase _ = _ |- _ => matcher Hs end
   | cbn [layer_run onGet onPost]; tac ]).

Ltac raised req Hpath Hmeth tac :=
  segment req Hpath Hmeth;
  (erewrite dispatch_raise;
   [ repeat (rewrite dispatch_skip by reflexivity); reflexivity
   | match goal with Hs : lowerCase _ = _ |- _ => matcher Hs end
   | cbn [layer_run onGet onPost]; tac ]).

Ltac branches :=
  repeat match goal with
         | |- context [if ?b then _ else _] => destruct b
         | |- context [match ?x with _ => _ end] => destruct x
         end;
  reflexivity.

Lemma done_loginPage (authAddress : AuthAddress) (req : Request) (c : Ctx) :
  loginPage authAddress req c = Done (context (loginPage authAddress req c)).
Proof. unfold loginPage. branches. Qed.

Lemma done_market (req : Request) (c : Ctx) :
  market req c = Done (context (market req c)).
Proof. unfold market. branches. Qed.

Lemma done_backendstatus (isSecure : bool) (req : Request) (c : Ctx) :
  backendstatus isSecure req c = Done (context (backendstatus isSecure req c)).
Proof. unfold backendstatus. destruct (network _); reflexivity. Qed.



Lemma done_downloadLogs (req : Request) (c : Ctx) :
  is_Some (decodeURIComponent (to_string (get (req_query req) "backendPath"))) ->
  downloadLogs req c = Done (context (downloadLogs req c)).
Proof.
  intros [backendPath Hpath]. unfold downloadLogs. rewrite Hpath.
  destruct (network _); reflexivity.
Qed.


Lemma done_updateTheme (req : Request) (c : Ctx) :
  is_Some (req_body req) ->
  updateTheme req c = Done (context (updateTheme req c)).
Proof.
  intros [form Hform]. unfold updateTheme, unableToValidate. rewrite Hform.
  destruct (sessionRejected _ _ _); [reflexivity|].
  destruct (negb _); [reflexivity|].
  now destruct (extractUITheme _ _).
Qed.

Lemma route_login (authAddress : AuthAddress) (serverNonce : string)
    (isSecure : bool) (cs : CookieSettings) (req : Request) (c : Ctx) :
  pathIs ["login"] req = true ->
  isGet req = true ->
  dispatch (useError errorHandler :: routes authAddress serverNonce isSecure cs)
    req false c
  = context (loginPage authAddress req c).
Proof.
  intros Hpath Hget. route req Hpath Hget ltac:(apply done_loginPage).
Qed.

Lemma route_configJs (authAddress : AuthAddress) (serverNonce : string)
    (isSecure : bool) (cs : CookieSettings) (req : Request) (c : Ctx) :
  pathIs ["config.js"] req = true ->
  isGet req = true ->
  dispatch (useError errorHandler :: routes authAddress serverNonce isSecure cs)
    req false c
  = context (configJs authAddress isSecure req c).
Proof. intros Hpath Hget. route req Hpath Hget ltac:(reflexivity). Qed.

Lemma route_uiThemeJs (authAddress : AuthAddress) (serverNonce : string)
    (isSecure : bool) (cs : CookieSettings) (req : Request) (c : Ctx) :
  pathIs ["ui-theme.js"] req = true ->
  isGet req = true ->
  dispatch (useError errorHandler :: routes authAddress serverNonce isSecure cs)
    req false c
  = context (uiThemeJs req c).
Proof. intros Hpath Hget. route req Hpath Hget ltac:(reflexivity). Qed.

Lemma route_uiConfigJs (authAddress : AuthAddress) (serverNonce : string)
    (isSecure : bool) (cs : CookieSettings) (req : Request) (c : Ctx) :
  pathIs ["ui-config.js"] req = true ->
  isGet req = true ->
  dispatch (useError errorHandler :: routes authAddress serverNonce isSecure cs)
    req false c
  = match readFileSync CONFIG_PATH "/cdap-ui-config.json" with
    | Some fileConfig => context (uiConfigJs req c)
    | None => onRes (finalhandler req true) c
    end.
Proof.
  intros Hpath Hget.
  destruct (readFileSync CONFIG_PATH "/cdap-ui-config.json") as [file|] eqn:Hfile.
  - route req Hpath Hget ltac:(unfold uiConfigJs; rewrite Hfile; reflexivity).
  - raised req Hpath Hget ltac:(unfold uiConfigJs; rewrite Hfile; reflexivity).
Qed.

Lemma route_market (authAddress : AuthAddress) (serverNonce : string)
    (isSecure : bool) (cs : CookieSettings) (req : Request) (c : Ctx) :
  pathIs ["market"] req = true ->
  isGet req = true ->
  dispatch (useError errorHandler :: routes authAddress serverNonce isSecure cs)
    req false c
  = context (market req c).
Proof.
  intros Hpath Hget. route req Hpath Hget ltac:(apply done_market).
Qed.

Lemma route_backendstatus (authAddress : AuthAddress) (serverNonce : string)
    (isSecure : bool) (cs : CookieSettings) (req : Request) (c : Ctx) :
  pathIs ["backendstatus"] req = true ->
  isGet req = true ->
  dispatch (useError errorHandler :: routes authAddress serverNonce isSecure cs)
    req false c
  = context (backendstatus isSecure req c).
Proof.
  intros Hpath Hget. route req Hpath Hget ltac:(apply done_backendstatus).
Qed.


Lemma route_downloadLogs (authAddress : AuthAddress) (serverNonce : string)
    (isSecure : bool) (cs : CookieSettings) (req : Request) (c : Ctx) :
  pathIs ["downloadLogs"] req = true ->
  isGet req = true ->
  is_Some (decodeURIComponent (to_string (get (req_query req) "backendPath"))) ->
  dispatch (useError errorHandler :: routes authAddress serverNonce isSecure cs)
    req false c
  = context (downloadLogs req c).
Proof.
  intros Hpath Hget Hdec.
  route req Hpath Hget ltac:(apply done_downloadLogs; exact Hdec).
Qed.

Lemma route_updateTheme (authAddress : AuthAddress) (serverNonce : string)
    (isSecure : bool) (cs : CookieSettings) (req : Request) (c : Ctx) :
  pathIs ["updateTheme"] req = true ->
  isPost req = true ->
  is_Some (req_body req) ->
  dispatch (useError errorHandler :: routes authAddress serverNonce isSecure cs)
    req false c
  = context (updateTheme req c).
Proof.
  intros Hpath Hpost Hbody.
  route req Hpath Hpost ltac:(apply done_updateTheme; exact Hbody).
Qed.





End Routes.

(** ** The endpoints of the built application *)

Section Endpoints.

Context {modules : Imports} {platform : Host}.

Lemma single_not_early (p : string) (req : Request) :
  pathIs [p] req = true ->
  String.eqb (lowerCase p) "favicon.ico" = false ->
  String.eqb (lowerCase p) "api" = false ->
  exactPath (req_path req) ["favicon.ico"] = false
  /\ pathUnder "api" req = false.
Proof.
  intros Hpath Hfav Hapi.
  destruct (single_segment p (lowerCase p) req eq_refl Hpath)
    as (seg & rest & Hp & Hseg & _).
  unfold pathUnder. rewrite Hp. cbn [exactPath]. split.
  - now rewrite (other_segment seg (lowerCase p) "favicon.ico" Hseg).
  - unfold sameSegment. now rewrite Hseg.
Qed.

(** What the routes find when a request reaches them. *)
Lemma served (authAddress : AuthAddress) (cdapConfig : obj)
    (uiSettings : UISettings) (app : App) (s : Shared) (n : nat)
    (req : Request) :
  makeApp authAddress cdapConfig uiSettings = Some app ->
  exactPath (req_path req) ["favicon.ico"] = false ->
  pathUnder "api" req = false ->
  is_Some (req_body req) ->
  exists c0,
    handle app s n req
    = dispatch
        (useError errorHandler
         :: routes authAddress randomUUID
              (is_str (get cdapConfig "ssl.external.enabled") "true")
              (mkCookieSettings
                 (is_str (get cdapConfig "ssl.external.enabled") "true")
                 true "strict"))
        req false c0
    /\ shared c0 = s
    /\ calls c0 = []
    /\ res_status (res c0) = 200
    /\ res_cookies (res c0) = []
    /\ drawn c0 = (if isModeDevelopment then n else S n)
    /\ res_nonce (res c0)
       = (if isModeDevelopment then undefined else str (uuidV4 n))
    /\ (forall k, k <> HSTS -> res_headers (res c0) !! k = None).
Proof.
  intros Happ Hfav Hapi Hbody.
  destruct (reached _ _ _ _ s n req Happ (or_intror Hfav) Hapi Hbody)
    as (security & Hsec & Hrun).
  destruct (entered_context _ _ _ s n req Hsec)
    as (Hs & Hcalls & Hst & Hck & _ & Hdrawn & Hnonce & _ & _ & Hhdr).
  exists (entered security s n req). repeat (split; [assumption|]). exact Hhdr.
Qed.

(** X9.  GET /login redirects to [/] when there is no authentication
    server or the request carries an authorization header; otherwise
    it renders the login template, handing it the nonce drawn for the
    response (none in development mode).  No outbound call is made. *)
Theorem login_page_or_redirect (authAddress : AuthAddress)
    (cdapConfig : obj) (uiSettings : UISettings) (app : App) (s : Shared)
    (n : nat) (req : Request) :
  makeApp authAddress cdapConfig uiSettings = Some app ->
  pathIs ["login"] req = true ->
  isGet req = true ->
  is_Some (req_body req) ->
  let c := handle app s n req in
  calls c = []
  /\ if negb (truthy (auth_get authAddress))
        || truthy (get (req_headers req) "authorization")
     then res_status (res c) = 302 /\ res_body (res c) = Redirect "/"
     else res_status (res c) = 200
          /\ res_body (res c)
             = View "login"
                 (if isModeDevelopment then undefined else str (uuidV4 n)).
Proof.
  intros Happ Hpath Hget Hbody c. subst c.
  destruct (single_not_early _ _ Hpath eq_refl eq_refl) as [Hfav Hapi].
  destruct (served _ _ _ _ s n req Happ Hfav Hapi Hbody)
    as (c0 & -> & Hs & Hcalls & Hst & _ & _ & Hnonce & _).
  rewrite (route_login _ _ _ _ _ _ Hpath Hget). unfold loginPage.
  destruct (_ || _); cbn [context onRes calls res res_status res_body send
                          status]; rewrite ?Hnonce; auto.
Qed.

(** X10.  A theme set through POST /updateTheme is the one the next
    GET /ui-theme.js serves: when the session gate is passed and the
    file named in the body loads, the update answers "Theme updated"
    and the following request for the theme script gets the new theme
    assigned to [window.CDAP_UI_THEME]. *)
Theorem updated_theme_is_served (authAddress : AuthAddress)
    (cdapConfig0 : obj) (uiSettings0 : UISettings) (app : App) (s : Shared)
    (n : nat) (update look : Request) (form : obj) (theme : json) :
  makeApp authAddress cdapConfig0 uiSettings0 = Some app ->
  pathIs ["updateTheme"] update = true ->
  isPost update = true ->
  req_body update = Some form ->
  sessionRejected (cdapConfig s) update
    (get (req_headers update) "authorization") = false ->
  truthy (get form "uiThemePath") = true ->
  extractUITheme (cdapConfig s) (get form "uiThemePath") = Some theme ->
  pathIs ["ui-theme.js"] look = true ->
  isGet look = true ->
  is_Some (req_body look) ->
  exists c1 c2,
    serve app s n [update; look] = [c1; c2]
    /\ res_body (res c1) = Text "Theme updated"
    /\ uiThemeConfig (shared c1) = theme
    /\ res_body (res c2) = Assign "window.CDAP_UI_THEME" theme.
Proof.
  intros Happ Hpath1 Hpost Hform Hgate Hname Hload Hpath2 Hget Hbody2.
  assert (Hbody1 : is_Some (req_body update)) by (rewrite Hform; eauto).
  destruct (single_not_early _ _ Hpath1 eq_refl eq_refl) as [Hfav1 Hapi1].
  destruct (single_not_early _ _ Hpath2 eq_refl eq_refl) as [Hfav2 Hapi2].
  destruct (served _ _ _ _ s n update Happ Hfav1 Hapi1 Hbody1)
    as (c0 & Hrun1 & Hs & _).
  rewrite (route_updateTheme _ _ _ _ _ _ Hpath1 Hpost Hbody1) in Hrun1.
  unfold updateTheme in Hrun1.
  rewrite Hs, Hgate, Hform, Hname, Hload in Hrun1.
  cbn [negb context] in Hrun1.
  exists (handle app s n update).
  destruct (served _ _ _ _ (shared (handle app s n update))
              (drawn (handle app s n update)) look Happ Hfav2 Hapi2 Hbody2)
    as (c0' & Hrun2 & Hs' & _).
  rewrite (route_uiThemeJs _ _ _ _ _ _ Hpath2 Hget) in Hrun2.
  eexists. split; [reflexivity|]. rewrite Hrun2. unfold uiThemeJs.
  cbn [context onRes res res_body send]. rewrite Hs', Hrun1.
  cbn [onRes onShared shared res res_body send uiThemeConfig].
  repeat split.
Qed.

(** X11.  POST /updateTheme leaves the theme alone unless everything
    succeeds: a request whose session token is missing, empty or
    refused, whose body names no theme file, or whose theme file does
    not load, is answered with status 500 and a text, and neither the
    shared objects nor the network are touched. *)
Theorem refused_theme_update_changes_nothing (authAddress : AuthAddress)
    (cdapConfig0 : obj) (uiSettings0 : UISettings) (app : App) (s : Shared)
    (n : nat) (req : Request) (form : obj) :
  makeApp authAddress cdapConfig0 uiSettings0 = Some app ->
  pathIs ["updateTheme"] req = true ->
  isPost req = true ->
  req_body req = Some form ->
  truthy (get (req_headers req) "session-token") = false
  \/ validateToken (get (req_headers req) "session-token") (cdapConfig s)
       (get (req_headers req) "authorization") = false
  \/ truthy (get form "uiThemePath") = false
  \/ extractUITheme (cdapConfig s) (get form "uiThemePath") = None ->
  let c := handle app s n req in
  res_status (res c) = 500
  /\ (exists message, res_body (res c) = Text message)
  /\ shared c = s
  /\ calls c = [].
Proof.
  intros Happ Hpath Hpost Hform Hbad c. subst c.
  assert (Hbody : is_Some (req_body req)) by (rewrite Hform; eauto).
  destruct (single_not_early _ _ Hpath eq_refl eq_refl) as [Hfav Hapi].
  destruct (served _ _ _ _ s n req Happ Hfav Hapi Hbody)
    as (c0 & -> & Hs & Hcalls & _).
  rewrite (route_updateTheme _ _ _ _ _ _ Hpath Hpost Hbody).
  unfold updateTheme, unableToValidate, sessionRejected.
  rewrite Hs, Hform.
  destruct Hbad as [Hbad | [Hbad | [Hbad | Hbad]]].
  - rewrite Hbad. cbn [negb orb]. repeat split; eauto.
  - rewrite Hbad. destruct (truthy _); cbn [negb orb andb]; repeat split; eauto.
  - destruct (_ || _); [repeat split; eauto|].
    rewrite Hbad. cbn [negb]. repeat split; eauto.
  - destruct (_ || _); [repeat split; eauto|].
    destruct (negb _); [repeat split; eauto|].
    rewrite Hbad. repeat split; eauto.
Qed.

(** X12.  A failure inside a route does not reach the error handler
    of the application, which is registered ahead of the routes: when
    the file behind GET /ui-config.js cannot be read, the answer is the
    500 of the framework, with the policy finalhandler sets, and not
    the error object the application's handler would send.  When the
    file is read, its text is assigned to [window.CDAP_UI_CONFIG]. *)
Theorem unreadable_ui_config_is_answered_by_the_framework
    (authAddress : AuthAddress) (cdapConfig0 : obj) (uiSettings0 : UISettings)
    (app : App) (s : Shared) (n : nat) (req : Request) :
  makeApp authAddress cdapConfig0 uiSettings0 = Some app ->
  pathIs ["ui-config.js"] req = true ->
  isGet req = true ->
  is_Some (req_body req) ->
  let c := handle app s n req in
  match readFileSync CONFIG_PATH "/cdap-ui-config.json" with
  | Some fileConfig =>
      res_status (res c) = 200
      /\ res_body (res c) = Text ("window.CDAP_UI_CONFIG = " ++ fileConfig ++ ";")
  | None =>
      res_status (res c) = 500
      /\ res_csp (res c) = Some finalCsp
      /\ res_body (res c) <> ErrorObject
  end.
Proof.
  intros Happ Hpath Hget Hbody c. subst c.
  destruct (single_not_early _ _ Hpath eq_refl eq_refl) as [Hfav Hapi].
  destruct (served _ _ _ _ s n req Happ Hfav Hapi Hbody)
    as (c0 & -> & _ & _ & Hst & _).
  rewrite (route_uiConfigJs _ _ _ _ _ _ Hpath Hget). unfold uiConfigJs.
  destruct (readFileSync CONFIG_PATH "/cdap-ui-config.json") as [file|].
  - cbn [context onRes res res_status res_body send]. split; [|reflexivity].
    exact Hst.
  - repeat split. discriminate.
Qed.

(** X13.  GET /market with a source the allow-list verifies issues
    exactly one call: a GET to that source, with no header of the
    client and no body.  The answer carries the status and the body of
    the market, or status 502 when the call fails; the shared objects
    are untouched. *)
Theorem market_fetches_the_verified_source (authAddress : AuthAddress)
    (cdapConfig0 : obj) (uiSettings0 : UISettings) (app : App) (s : Shared)
    (n : nat) (req : Request) :
  makeApp authAddress cdapConfig0 uiSettings0 = Some app ->
  pathIs ["market"] req = true ->
  isGet req = true ->
  is_Some (req_body req) ->
  isVerifiedMarketHost (cdapConfig s) (get (req_query req) "source") = true ->
  let c := handle app s n req in
  let o :=
    mkOutbound (str "GET") (ToUrl (get (req_query req) "source")) ∅ None "" in
  calls c = [o]
  /\ shared c = s
  /\ match network o with
     | Some marketResponse =>
         res_status (res c) = statusCode (content marketResponse)
         /\ res_body (res c) = Text (body (content marketResponse))
     | None => res_status (res c) = 502 /\ res_body (res c) = ErrorObject
     end.
Proof.
  intros Happ Hpath Hget Hbody Hsrc c o. subst c.
  destruct (single_not_early _ _ Hpath eq_refl eq_refl) as [Hfav Hapi].
  destruct (served _ _ _ _ s n req Happ Hfav Hapi Hbody)
    as (c0 & -> & Hs & Hcalls & _).
  rewrite (route_market _ _ _ _ _ _ Hpath Hget). unfold market.
  rewrite Hs, Hsrc. cbn [negb]. fold o.
  destruct (network o);
    cbn [context onRes issue calls shared res res_status res_body send status];
    rewrite Hcalls; repeat split; assumption.
Qed.

(** X14.  GET /backendstatus probes the router with one GET to
    [/v3/namespaces], over https and the ssl port when the gateway is
    configured as secure, over http and the plain port otherwise.  The
    probe carries the headers of the request except [referer].  The
    answer has the status of the router and the body "OK", whatever the
    router sent, or status 502 when the probe fails. *)
Theorem backend_probe_drops_the_referer (authAddress : AuthAddress)
    (cdapConfig0 : obj) (uiSettings0 : UISettings) (app : App) (s : Shared)
    (n : nat) (req : Request) :
  makeApp authAddress cdapConfig0 uiSettings0 = Some app ->
  pathIs ["backendstatus"] req = true ->
  isGet req = true ->
  is_Some (req_body req) ->
  let c := handle app s n req in
  let isSecure := is_str (get cdapConfig0 "ssl.external.enabled") "true" in
  let link :=
    (if isSecure then "https://" else "http://")
    ++ joined (get (cdapConfig s) "router.server.address") ++ ":"
    ++ joined (get (cdapConfig s)
                 (if isSecure then "router.ssl.server.port"
                  else "router.server.port"))
    ++ "/v3/namespaces" in
  exists o,
    calls c = [o]
    /\ out_method o = str "GET"
    /\ out_target o = ToUrl (str link)
    /\ out_headers o !! "referer" = None
    /\ (forall k, k <> "referer" -> out_headers o !! k = req_headers req !! k)
    /\ match network o with
       | Some response =>
           res_status (res c) = statusCode (content response)
           /\ res_body (res c) = Text "OK"
       | None => res_status (res c) = 502 /\ res_body (res c) = ErrorObject
       end.
Proof.
  intros Happ Hpath Hget Hbody c isSecure link. subst c.
  destruct (single_not_early _ _ Hpath eq_refl eq_refl) as [Hfav Hapi].
  destruct (served _ _ _ _ s n req Happ Hfav Hapi Hbody)
    as (c0 & -> & Hs & Hcalls & _).
  rewrite (route_backendstatus _ _ _ _ _ _ Hpath Hget). unfold backendstatus.
  rewrite Hs. fold isSecure.
  assert (Hlink : (if isSecure then "https://" else "http://")
                  ++ joined (get (cdapConfig s) "router.server.address") ++ ":"
                  ++ joined (if isSecure
                             then get (cdapConfig s) "router.ssl.server.port"
                             else get (cdapConfig s) "router.server.port")
                  ++ "/v3/namespaces" = link).
  { subst link. now destruct isSecure. }
  rewrite Hlink.
  match goal with
  | |- context [network ?o] => exists o; destruct (network o)
  end;
    cbn [context onRes issue calls res res_status res_body send status
         out_method out_target out_headers];
    rewrite Hcalls; unfold del;
    (repeat split;
     [ apply lookup_delete_eq
     | intros k Hk; now rewrite lookup_delete_ne by congruence ]).
Qed.

(** X15.  The credentials GET /downloadLogs passes to the backend: the
    authorization header of the request when there is one, otherwise
    the bearer token made from the [CDAP_Auth_Token] cookie, otherwise
    none.  The identity header of the request is passed along only in
    proxy mode and only next to an authorization header; no other
    header of the request reaches the backend.  The answer has the
    status and the body of the backend. *)
Theorem log_download_credentials (authAddress : AuthAddress)
    (cdapConfig0 : obj) (uiSettings0 : UISettings) (app : App) (s : Shared)
    (n : nat) (req : Request) (backendPath : string) :
  makeApp authAddress cdapConfig0 uiSettings0 = Some app ->
  pathIs ["downloadLogs"] req = true ->
  isGet req = true ->
  is_Some (req_body req) ->
  decodeURIComponent (to_string (get (req_query req) "backendPath"))
  = Some backendPath ->
  let c := handle app s n req in
  let authorization := get (req_headers req) "authorization" in
  let cookie := get (req_cookies req) "CDAP_Auth_Token" in
  let identity := to_string (get (cdapConfig s) IDENTITY_HEADER) in
  exists o,
    calls c = [o]
    /\ out_method o = or_else (get (req_query req) "method") (str "GET")
    /\ out_target o
       = ToUrl (str (constructUrl (cdapConfig s) (str backendPath) undefined))
    /\ out_headers o !! "authorization"
       = (if truthy authorization then Some authorization
          else if truthy cookie then Some (str (concat "Bearer " cookie))
          else None)
    /\ (forall k, k <> "authorization" ->
          out_headers o !! k
          = if truthy authorization
               && is_str (get (cdapConfig s) AUTH_MODE) "PROXY"
               && bool_decide (k = identity)
            then Some (get (req_headers req) k)
            else None)
    /\ (forall response, network o = Some response ->
          res_status (res c) = statusCode (content response)
          /\ res_body (res c) = Relayed (body (content response))).
Proof.
  intros Happ Hpath Hget Hbody Hdec c authorization cookie identity. subst c.
  destruct (single_not_early _ _ Hpath eq_refl eq_refl) as [Hfav Hapi].
  destruct (served _ _ _ _ s n req Happ Hfav Hapi Hbody)
    as (c0 & -> & Hs & Hcalls & _).
  rewrite (route_downloadLogs _ _ _ _ _ _ Hpath Hget)
    by (rewrite Hdec; eauto).
  unfold downloadLogs. rewrite Hs, Hdec.
  assert (Hheaders :
            default ∅ (customHeaders (cdapConfig s) req) !! "authorization"
            = (if truthy authorization then Some authorization
               else if truthy cookie then Some (str (concat "Bearer " cookie))
               else None)
            /\ forall k, k <> "authorization" ->
                 default ∅ (customHeaders (cdapConfig s) req) !! k
                 = if truthy authorization
                      && is_str (get (cdapConfig s) AUTH_MODE) "PROXY"
                      && bool_decide (k = identity)
                   then Some (get (req_headers req) k)
                   else None).
  { unfold customHeaders. fold authorization cookie identity.
    destruct (truthy authorization); cbn [andb].
    - destruct (is_str (get (cdapConfig s) AUTH_MODE) "PROXY");
        cbn [andb default from_option id]; unfold set; split.
      + destruct (decide (identity = "authorization")) as [Heq|Hne].
        * rewrite Heq. now rewrite lookup_insert_eq.
        * rewrite lookup_insert_ne by done. apply lookup_singleton_eq.
      + intros k Hk. destruct (decide (k = identity)) as [->|Hne].
        * rewrite bool_decide_eq_true_2 by done. apply lookup_insert_eq.
        * rewrite bool_decide_eq_false_2 by done.
          rewrite lookup_insert_ne by done.
          now rewrite lookup_singleton_ne.
      + apply lookup_singleton_eq.
      + intros k Hk. now rewrite lookup_singleton_ne.
    - destruct (truthy cookie); cbn [default from_option id]; split.
      + apply lookup_singleton_eq.
      + intros k Hk. now rewrite lookup_singleton_ne.
      + apply lookup_empty.
      + intros k Hk. apply lookup_empty. }
  destruct Hheaders as [Hauth Hother].
  match goal with
  | |- context [network ?o] => exists o; destruct (network o) as [up|]
  end;
    cbn [context onRes issue calls res out_method out_target out_headers];
    rewrite Hcalls;
    (split; [reflexivity|]); (split; [reflexivity|]);
    (split; [reflexivity|]); (split; [exact Hauth|]);
    (split; [exact Hother|]); intros response [= <-].
  unfold pipe. split; reflexivity.
Qed.




(** X19.  The two HTML entry points clear the retired [bcookie]: a
    request that carries the cookie is answered with one cookie of
    that name, empty, expired at the epoch, http-only, same-site
    strict, and secure exactly when the gateway is configured as
    secure; a request without it gets no cookie. *)
Theorem entry_point_clears_the_bcookie (authAddress : AuthAddress)
    (cdapConfig0 : obj) (uiSettings0 : UISettings) (app : App) (s : Shared)
    (n : nat) (req : Request) :
  makeApp authAddress cdapConfig0 uiSettings0 = Some app ->
  entry req ->
  res_cookies (res (handle app s n req))
  = if truthy (get (req_cookies req) "bcookie")
    then [ mkCookie "bcookie" ""
             (is_str (get cdapConfig0 "ssl.external.enabled") "true")
             true "strict" (Some 0) ]
    else [].
Proof.
  intros Happ [Hroute Hbody].
  destruct (entry_dispatch authAddress randomUUID
              (is_str (get cdapConfig0 "ssl.external.enabled") "true")
              (mkCookieSettings
                 (is_str (get cdapConfig0 "ssl.external.enabled") "true")
                 true "strict") req (mkCtx s n [] freshResponse) Hroute)
    as (Hfav & Hapi & _).
  destruct (served _ _ _ _ s n req Happ Hfav Hapi Hbody)
    as (c0 & -> & _ & _ & _ & Hck & _).
  destruct (entry_dispatch authAddress randomUUID
              (is_str (get cdapConfig0 "ssl.external.enabled") "true")
              (mkCookieSettings
                 (is_str (get cdapConfig0 "ssl.external.enabled") "true")
                 true "strict") req c0 Hroute)
    as (_ & _ & render & Hrender & ->).
  destruct Hrender as [-> | ->];
    unfold renderHydrator, renderCdap, removeBCookie;
    destruct (truthy (get (req_cookies req) "bcookie"));
    cbn [context onRes res res_cookies send setCookie secure httpOnly sameSite];
    now rewrite Hck.
Qed.


(** X21.  GET /config.js copies [externalLinks] of the configuration
    into the shared [uiSettings.ui], leaving every other entry as it
    was, and doing so again changes nothing: a second request finds
    the shared objects as the first left them and is sent the same
    script. *)
Theorem config_script_write_is_idempotent (authAddress : AuthAddress)
    (cdapConfig0 : obj) (uiSettings0 : UISettings) (app : App) (s : Shared)
    (n : nat) (req1 req2 : Request) :
  makeApp authAddress cdapConfig0 uiSettings0 = Some app ->
  pathIs ["config.js"] req1 = true -> isGet req1 = true ->
  is_Some (req_body req1) ->
  pathIs ["config.js"] req2 = true -> isGet req2 = true ->
  is_Some (req_body req2) ->
  exists c1 c2,
    serve app s n [req1; req2] = [c1; c2]
    /\ ui_ui (uiSettings (shared c1)) !! "externalLinks"
       = Some (get (cdapConfig s) "externalLinks")
    /\ (forall k, k <> "externalLinks" ->
          ui_ui (uiSettings (shared c1)) !! k = ui_ui (uiSettings s) !! k)
    /\ shared c2 = shared c1
    /\ res_body (res c2) = res_body (res c1).
Proof.
  intros Happ Hpath1 Hget1 Hbody1 Hpath2 Hget2 Hbody2.
  destruct (single_not_early _ _ Hpath1 eq_refl eq_refl) as [Hfav1 Hapi1].
  destruct (single_not_early _ _ Hpath2 eq_refl eq_refl) as [Hfav2 Hapi2].
  destruct (served _ _ _ _ s n req1 Happ Hfav1 Hapi1 Hbody1)
    as (c0 & Hrun1 & Hs & _).
  rewrite (route_configJs _ _ _ _ _ _ Hpath1 Hget1) in Hrun1.
  destruct (served _ _ _ _ (shared (handle app s n req1))
              (drawn (handle app s n req1)) req2 Happ Hfav2 Hapi2 Hbody2)
    as (c0' & Hrun2 & Hs' & _).
  rewrite (route_configJs _ _ _ _ _ _ Hpath2 Hget2) in Hrun2.
  assert (Hsh1 : shared (handle app s n req1)
                 = mkShared (cdapConfig s)
                     (mkUISettings (ui_props (uiSettings s))
                        (set (ui_ui (uiSettings s)) "externalLinks"
                           (get (cdapConfig s) "externalLinks")))
                     (uiThemeConfig s)).
  { rewrite Hrun1. unfold configJs. cbn [context onRes onShared shared].
    now rewrite Hs. }
  assert (Hsh2 : shared (handle app (shared (handle app s n req1))
                           (drawn (handle app s n req1)) req2)
                 = shared (handle app s n req1)).
  { rewrite Hrun2. unfold configJs. cbn [context onRes onShared shared].
    rewrite Hs', Hsh1. cbn [cdapConfig uiSettings ui_props ui_ui uiThemeConfig].
    unfold set. now rewrite insert_insert_eq. }
  exists (handle app s n req1). eexists. split; [reflexivity|].
  split; [rewrite Hsh1; apply lookup_insert_eq|].
  split; [intros k Hk; rewrite Hsh1; cbn [uiSettings ui_ui]; unfold set;
          now rewrite lookup_insert_ne|].
  split; [exact Hsh2|].
  rewrite Hrun2, Hrun1. unfold configJs.
  cbn [context onRes onShared shared res res_body send].
  rewrite Hs'. rewrite Hsh1.
  cbn [cdapConfig uiSettings ui_props ui_ui uiThemeConfig].
  rewrite Hs. unfold set. now rewrite insert_insert_eq.
Qed.



End Endpoints.

(** ** What stays inside the gateway *)

Section Quiet.

Context {modules : Imports} {platform : Host}.

Lemma dispatch_silent (req : Request) (layers : list Layer) :
  Forall (silent req) layers ->
  forall failed c, calls (dispatch layers req failed c) = calls c.
Proof.
  induction 1 as [|l rest Hl _ IH]; intros failed c; cbn [dispatch];
    [reflexivity|].
  destruct (applies failed l req) eqn:Happ; [|apply IH].
  specialize (Hl failed c Happ).
  destruct (layer_run l req c) as [c'|c'|c']; cbn [context] in Hl;
    [exact Hl| |]; rewrite IH; exact Hl.
Qed.

(** A layer is silent when the request is not for it, or when its
    handler leaves the calls alone. *)
Ltac quiet Hfwd :=
  let failed := fresh "failed" in
  let c := fresh "c" in
  let Happ := fresh "Happ" in
  intros failed c Happ;
  first
    [ solve [ unfold applies in Happ;
              cbn [layer_kind layer_match onGet onPost useAt] in Happ;
              repeat match goal with
                     | H : _ = false |- _ => rewrite H in Happ
                     end;
              destruct failed; discriminate Happ ]
    | clear Happ;
      cbn [layer_run onGet onPost use useAt useError];
      unfold analytics, configJs, uiConfigJs, uiThemeJs, expressStatic,
        mountNotFound, robots, statusProbe, sessionTokenRoute, updateTheme,
        unableToValidate, renderHydrator, renderCdap, errorHandler,
        compression, cookieParser, bodyParser, serveFavicon, assignNonce,
        helmet;
      repeat match goal with
             | |- context [if ?b then _ else _] => destruct b
             | |- context [match ?x with _ => _ end] => destruct x
             end;
      reflexivity ].

Lemma forwarding_inv (req : Request) :
  forwarding req = false ->
  pathUnder "api" req = false
  /\ pathIs ["forwardMarketToCdap"] req = false
  /\ pathIs ["market"] req = false
  /\ pathIs ["downloadLogs"] req = false
  /\ pathIs ["login"] req = false
  /\ pathIs ["accessToken"] req = false
  /\ namespaceRoute req = false
  /\ pathIs ["backendstatus"] req = false.
Proof.
  unfold forwarding. intros Hfwd.
  repeat (apply orb_false_iff in Hfwd as [Hfwd ?]). repeat split; assumption.
Qed.

Lemma silent_routes (req : Request) (authAddress : AuthAddress)
    (serverNonce : string) (isSecure : bool) (cs : CookieSettings) :
  forwarding req = false ->
  Forall (silent req) (routes authAddress serverNonce isSecure cs).
Proof.
  intros Hfwd.
  destruct (forwarding_inv req Hfwd)
    as (Hapi & Hfmc & Hmarket & Hlogs & Hlogin & Htoken & Hns & Hbs).
  clear Hfwd.
  unfold routes, staticMounts, staticMount. cbn [List.app flat_map fst snd].
  repeat (apply List.Forall_cons; [quiet Hapi|]). apply List.Forall_nil.
Qed.

(** X24.  Only the forwarding routes reach the network: a request for
    anything else (the scripts, the static mounts, the status and
    session-token routes, the theme update, the entry points, unknown
    paths, bodies the parsers reject) is answered without a single
    outbound call. *)
Theorem only_the_forwarding_routes_call_out (authAddress : AuthAddress)
    (cdapConfig0 : obj) (uiSettings0 : UISettings) (app : App) (s : Shared)
    (n : nat) (req : Request) :
  makeApp authAddress cdapConfig0 uiSettings0 = Some app ->
  forwarding req = false ->
  calls (handle app s n req) = [].
Proof.
  intros Happ Hfwd.
  destruct (makeApp_stack _ _ _ _ Happ) as (security & Hsec & _ & Hstack).
  unfold handle. rewrite Hstack. rewrite dispatch_silent; [reflexivity|].
  pose proof (silent_routes req authAddress randomUUID
                (is_str (get cdapConfig0 "ssl.external.enabled") "true")
                (mkCookieSettings
                   (is_str (get cdapConfig0 "ssl.external.enabled") "true")
                   true "strict") Hfwd) as Hroutes.
  destruct (forwarding_inv req Hfwd) as (Hapi & _). clear Hfwd.
  repeat apply Forall_app_2.
  - destruct (readIcon _) as [icon|]; [|apply List.Forall_nil].
    apply List.Forall_cons; [quiet Hapi|apply List.Forall_nil].
  - repeat (apply List.Forall_cons; [quiet Hapi|]). apply List.Forall_nil.
  - destruct (securityLayers_inv _ _ _ Hsec)
      as [[_ ->] | [_ (whiteList & hsts & _ & _ & ->)]];
      repeat (apply List.Forall_cons; [quiet Hapi|]); apply List.Forall_nil.
  - apply List.Forall_cons; [quiet Hapi|exact Hroutes].
Qed.

End Quiet.

(** ** Start-up *)

Section Starting.

Context {modules : Imports} {platform : Host} {helpers : Startup}.

Lemma handle_keeps_config (authAddress : AuthAddress) (cdapConfig0 : obj)
    (uiSettings0 : UISettings) (app : App) :
  makeApp authAddress cdapConfig0 uiSettings0 = Some app ->
  forall s n req, cdapConfig (shared (handle app s n req)) = cdapConfig s.
Proof.
  intros Happ s n req.
  destruct (makeApp_handle _ _ _ _ Happ) as (favicon & security & Hsec & _ & Hrun).
  specialize (Hrun s n req). cbn zeta in Hrun.
  destruct (early favicon req).
  - now destruct Hrun as (_ & -> & _).
  - rewrite Hrun.
    pose proof (fr_shared _ _ _ (tail_framed req authAddress randomUUID
      (is_str (get cdapConfig0 "ssl.external.enabled") "true")
      (mkCookieSettings (is_str (get cdapConfig0 "ssl.external.enabled") "true")
         true "strict") false (entered security s n req))) as (Hcfg & _).
    rewrite Hcfg.
    now destruct (entered_context _ _ _ s n req Hsec) as (-> & _).
Qed.

(** X25.  The application [getApp] resolves to is built from the
    address [ping] resolves to, the settings [extractUISettings]
    resolves to, and the configuration it was given: its handlers start
    from that configuration, those settings, and the theme extracted
    from the configuration (the empty object when the extraction
    throws); and every request of the run that follows is handled
    against that same configuration. *)
Theorem getApp_builds_on_the_given_configuration (cdapConfig0 : obj)
    (app : App) :
  getApp cdapConfig0 = Some app ->
  exists authAddress uiSettings0,
    ping = Some authAddress
    /\ extractUISettings = Some uiSettings0
    /\ initial app
       = mkShared cdapConfig0 uiSettings0
           (default (JObject []) (extractUIThemeWrapper cdapConfig0))
    /\ forall reqs,
         Forall (fun c => cdapConfig (shared c) = cdapConfig0)
           (serve app (initial app) 0 reqs).
Proof.
  unfold getApp. destruct ping as [authAddress|]; [|discriminate].
  destruct extractUISettings as [uiSettings0|]; [|discriminate].
  cbn [mbind option_bind]. intros Happ. exists authAddress, uiSettings0.
  split; [reflexivity|]. split; [reflexivity|].
  destruct (makeApp_stack _ _ _ _ Happ) as (_ & _ & Hinit & _).
  split; [exact Hinit|]. intros reqs.
  assert (Hrun : forall s n,
            Forall (fun c => cdapConfig (shared c) = cdapConfig s)
              (serve app s n reqs)).
  { induction reqs as [|req reqs IH]; intros s n; cbn [serve];
      [constructor|].
    pose proof (handle_keeps_config _ _ _ _ Happ s n req) as Hcfg.
    constructor; [exact Hcfg|].
    eapply Forall_impl; [apply IH|]. intros c Hc. cbn beta in Hc.
    now rewrite Hc. }
  eapply Forall_impl; [apply (Hrun (initial app) 0%nat)|].
  intros c Hc. cbn beta in Hc. now rewrite Hc, Hinit.
Qed.

End Starting.

(** ** The further properties on the sample deployment *)


Lemma rejected_body_is_answered_500_witness :
  let modules := Sample.imports in
  let platform := Sample.platform "production" Sample.offline in
  let s := Scenario.state in
  let req := mkRequest "POST" ["updateTheme"] ∅ ∅ ∅ None "{" in
  exists app,
    makeApp Sample.noAuth Sample.proxyConfig Sample.noSettings = Some app
    /\ req_body req = None
    /\ let c := handle app s 0 req in
       res_status (res c) = 500
       /\ res_body (res c) = ErrorObject
       /\ calls c = []
       /\ shared c = s
       /\ drawn c = 0%nat
       /\ res_csp (res c) = None
       /\ res_headers (res c) = ∅.
Proof.
  intros modules platform s req.
  destruct (sample_built "production" Sample.offline) as [app Happ].
  exists app. split; [exact Happ|]. split; [reflexivity|].
  apply (rejected_body_is_answered_500 Sample.noAuth Sample.proxyConfig
           Sample.noSettings app s 0%nat req).
  - exact Happ.
  - reflexivity.
  - reflexivity.
  - reflexivity.
Defined.

Lemma nonces_follow_the_draws_witness :
  let modules := Sample.imports in
  let platform := Sample.platform "production" Sample.offline in
  let s := Scenario.state in
  let reqs :=
    [ Sample.request "GET" [] ∅ ∅;
      Sample.request "GET" ["status"] ∅ ∅;
      Sample.request "GET" ["config.js"] ∅ ∅ ] in
  exists app,
    makeApp Sample.noAuth Sample.proxyConfig Sample.noSettings = Some app
    /\ isModeDevelopment = false
    /\ let nonces := map (fun c => res_nonce (res c)) (serve app s 0 reqs) in
       nonces = map (fun i => str (uuidV4 i)) (seq 0 (length reqs))
       /\ ((forall i j, uuidV4 i = uuidV4 j -> i = j) -> List.NoDup nonces).
Proof.
  intros modules platform s reqs.
  destruct (sample_built "production" Sample.offline) as [app Happ].
  exists app. split; [exact Happ|]. split; [reflexivity|].
  apply (nonces_follow_the_draws Sample.noAuth Sample.proxyConfig
           Sample.noSettings app reqs s 0%nat).
  - reflexivity.
  - exact Happ.
  - repeat (apply List.Forall_cons;
            [split; [reflexivity|split; [reflexivity|eexists; reflexivity]]|]).
    apply List.Forall_nil.
Defined.

Lemma development_mode_has_no_nonce_witness :
  let modules := Sample.imports in
  let platform := Sample.platform "development" Sample.offline in
  let s := Scenario.state in
  let req := Sample.request "GET" ["cdap"] ∅ ∅ in
  exists app,
    makeApp Sample.noAuth Sample.proxyConfig Sample.noSettings = Some app
    /\ isModeDevelopment = true
    /\ let c := handle app s 0 req in
       drawn c = 0%nat
       /\ res_nonce (res c) = undefined
       /\ (res_csp (res c) = None \/ res_csp (res c) = Some finalCsp).
Proof.
  intros modules platform s req.
  destruct (sample_built "development" Sample.offline) as [app Happ].
  exists app. split; [exact Happ|]. split; [reflexivity|].
  apply (development_mode_has_no_nonce Sample.noAuth Sample.proxyConfig
           Sample.noSettings app s 0%nat req).
  - reflexivity.
  - exact Happ.
Defined.

Lemma login_page_or_redirect_witness :
  let modules := Sample.imports in
  let platform := Sample.platform "production" Sample.offline in
  let s := Scenario.state in
  let req := Sample.request "GET" ["login"] ∅ ∅ in
  exists app,
    makeApp Scenario.secured Sample.proxyConfig Sample.noSettings = Some app
    /\ pathIs ["login"] req = true
    /\ isGet req = true
    /\ let c := handle app s 0 req in
       calls c = []
       /\ if negb (truthy (auth_get Scenario.secured))
             || truthy (get (req_headers req) "authorization")
          then res_status (res c) = 302 /\ res_body (res c) = Redirect "/"
          else res_status (res c) = 200
               /\ res_body (res c)
                  = View "login"
                      (if isModeDevelopment then undefined else str (uuidV4 0)).
Proof.
  intros modules platform s req.
  destruct (makeApp_built Scenario.secured Sample.proxyConfig Sample.noSettings
              "https://hub.example" (Some "max-age=3600"))
    as [app Happ]; [vm_compute; reflexivity..|].
  exists app. split; [exact Happ|]. split; [reflexivity|].
  split; [reflexivity|].
  apply (login_page_or_redirect Scenario.secured Sample.proxyConfig
           Sample.noSettings app s 0%nat req).
  - exact Happ.
  - reflexivity.
  - reflexivity.
  - eexists. reflexivity.
Defined.

Lemma updated_theme_is_served_witness :
  let modules := Sample.imports in
  let platform := Sample.platform "production" Sample.offline in
  let s := Scenario.state in
  let form : obj := {[ "uiThemePath" := str "dark.json" ]} in
  let update := Scenario.trusted "POST" ["updateTheme"] ∅ form in
  let look := Sample.request "GET" ["ui-theme.js"] ∅ ∅ in
  let theme := JObject [("theme", JString "dark")] in
  exists app,
    makeApp Sample.noAuth Sample.proxyConfig Sample.noSettings = Some app
    /\ sessionRejected (cdapConfig s) update
         (get (req_headers update) "authorization") = false
    /\ extractUITheme (cdapConfig s) (get form "uiThemePath") = Some theme
    /\ exists c1 c2,
         serve app s 0 [update; look] = [c1; c2]
         /\ res_body (res c1) = Text "Theme updated"
         /\ uiThemeConfig (shared c1) = theme
         /\ res_body (res c2) = Assign "window.CDAP_UI_THEME" theme.
Proof.
  intros modules platform s form update look theme.
  destruct (sample_built "production" Sample.offline) as [app Happ].
  exists app. split; [exact Happ|]. split; [reflexivity|].
  split; [reflexivity|].
  apply (updated_theme_is_served Sample.noAuth Sample.proxyConfig
           Sample.noSettings app s 0%nat update look form theme).
  - exact Happ.
  - reflexivity.
  - reflexivity.
  - reflexivity.
  - reflexivity.
  - reflexivity.
  - reflexivity.
  - reflexivity.
  - reflexivity.
  - eexists. reflexivity.
Defined.

Lemma refused_theme_update_changes_nothing_witness :
  let modules := Sample.imports in
  let platform := Sample.platform "production" Sample.offline in
  let s := Scenario.state in
  let form : obj := {[ "uiThemePath" := str "dark.json" ]} in
  let req :=
    mkRequest "POST" ["updateTheme"] ∅ {[ "session-token" := str "" ]} ∅
      (Some form) "" in
  exists app,
    makeApp Sample.noAuth Sample.proxyConfig Sample.noSettings = Some app
    /\ truthy (get (req_headers req) "session-token") = false
    /\ let c := handle app s 0 req in
       res_status (res c) = 500
       /\ (exists message, res_body (res c) = Text message)
       /\ shared c = s
       /\ calls c = [].
Proof.
  intros modules platform s form req.
  destruct (sample_built "production" Sample.offline) as [app Happ].
  exists app. split; [exact Happ|]. split; [reflexivity|].
  apply (refused_theme_update_changes_nothing Sample.noAuth Sample.proxyConfig
           Sample.noSettings app s 0%nat req form).
  - exact Happ.
  - reflexivity.
  - reflexivity.
  - reflexivity.
  - left. reflexivity.
Defined.

Lemma unreadable_ui_config_is_answered_by_the_framework_witness :
  let modules := Sample.imports in
  let platform := Sample.platform "production" Sample.offline in
  let s := Scenario.state in
  let req := Sample.request "GET" ["ui-config.js"] ∅ ∅ in
  exists app,
    makeApp Sample.noAuth Sample.proxyConfig Sample.noSettings = Some app
    /\ pathIs ["ui-config.js"] req = true
    /\ let c := handle app s 0 req in
       match readFileSync CONFIG_PATH "/cdap-ui-config.json" with
       | Some fileConfig =>
           res_status (res c) = 200
           /\ res_body (res c)
              = Text ("window.CDAP_UI_CONFIG = " ++ fileConfig ++ ";")
       | None =>
           res_status (res c) = 500
           /\ res_csp (res c) = Some finalCsp
           /\ res_body (res c) <> ErrorObject
       end.
Proof.
  intros modules platform s req.
  destruct (sample_built "production" Sample.offline) as [app Happ].
  exists app. split; [exact Happ|]. split; [reflexivity|].
  apply (unreadable_ui_config_is_answered_by_the_framework Sample.noAuth
           Sample.proxyConfig Sample.noSettings app s 0%nat req).
  - exact Happ.
  - reflexivity.
  - reflexivity.
  - eexists. reflexivity.
Defined.

Lemma market_fetches_the_verified_source_witness :
  let modules := Sample.imports in
  let platform := Sample.platform "production" (Sample.answering ∅) in
  let s := Scenario.state in
  let req :=
    Sample.request "GET" ["market"]
      {[ "source" := str "https://hub.example/v2/packages.json" ]}
      {[ "authorization" := str "Bearer client" ]} in
  exists app,
    makeApp Sample.noAuth Sample.proxyConfig Sample.noSettings = Some app
    /\ isVerifiedMarketHost (cdapConfig s) (get (req_query req) "source") = true
    /\ let c := handle app s 0 req in
       let o :=
         mkOutbound (str "GET") (ToUrl (get (req_query req) "source")) ∅ None
           "" in
       calls c = [o]
       /\ shared c = s
       /\ match network o with
          | Some marketResponse =>
              res_status (res c) = statusCode (content marketResponse)
              /\ res_body (res c) = Text (body (content marketResponse))
          | None => res_status (res c) = 502 /\ res_body (res c) = ErrorObject
          end.
Proof.
  intros modules platform s req.
  destruct (sample_built "production" (Sample.answering ∅)) as [app Happ].
  exists app. split; [exact Happ|]. split; [reflexivity|].
  apply (market_fetches_the_verified_source Sample.noAuth Sample.proxyConfig
           Sample.noSettings app s 0%nat req).
  - exact Happ.
  - reflexivity.
  - reflexivity.
  - eexists. reflexivity.
  - reflexivity.
Defined.

Lemma backend_probe_drops_the_referer_witness :
  let modules := Sample.imports in
  let platform := Sample.platform "production" Sample.offline in
  let s := Scenario.state in
  let req :=
    Sample.request "GET" ["backendstatus"] ∅
      {[ "referer" := str "https://ui.example/a/long/url";
         "authorization" := str "Bearer client" ]} in
  exists app,
    makeApp Sample.noAuth Sample.proxyConfig Sample.noSettings = Some app
    /\ pathIs ["backendstatus"] req = true
    /\ let c := handle app s 0 req in
       let isSecure :=
         is_str (get Sample.proxyConfig "ssl.external.enabled") "true" in
       let link :=
         (if isSecure then "https://" else "http://")
         ++ joined (get (cdapConfig s) "router.server.address") ++ ":"
         ++ joined (get (cdapConfig s)
                      (if isSecure then "router.ssl.server.port"
                       else "router.server.port"))
         ++ "/v3/namespaces" in
       exists o,
         calls c = [o]
         /\ out_method o = str "GET"
         /\ out_target o = ToUrl (str link)
         /\ out_headers o !! "referer" = None
         /\ (forall k, k <> "referer" ->
               out_headers o !! k = req_headers req !! k)
         /\ match network o with
            | Some response =>
                res_status (res c) = statusCode (content response)
                /\ res_body (res c) = Text "OK"
            | None => res_status (res c) = 502 /\ res_body (res c) = ErrorObject
            end.
Proof.
  intros modules platform s req.
  destruct (sample_built "production" Sample.offline) as [app Happ].
  exists app. split; [exact Happ|]. split; [reflexivity|].
  apply (backend_probe_drops_the_referer Sample.noAuth Sample.proxyConfig
           Sample.noSettings app s 0%nat req).
  - exact Happ.
  - reflexivity.
  - reflexivity.
  - eexists. reflexivity.
Defined.

Lemma log_download_credentials_witness :
  let modules := Sample.imports in
  let platform := Sample.platform "production" (Sample.answering ∅) in
  let s := Scenario.state in
  let req :=
    mkRequest "GET" ["downloadLogs"] {[ "backendPath" := str "/v3/logs" ]}
      {[ "authorization" := str "Bearer client";
         "x-user-id" := str "alice";
         "cookie" := str "CDAP_Auth_Token=stale" ]}
      {[ "CDAP_Auth_Token" := str "stale" ]} (Some ∅) "" in
  let backendPath := "/v3/logs" in
  exists app,
    makeApp Sample.noAuth Sample.proxyConfig Sample.noSettings = Some app
    /\ decodeURIComponent (to_string (get (req_query req) "backendPath"))
       = Some backendPath
    /\ let c := handle app s 0 req in
       let authorization := get (req_headers req) "authorization" in
       let cookie := get (req_cookies req) "CDAP_Auth_Token" in
       let identity := to_string (get (cdapConfig s) IDENTITY_HEADER) in
       exists o,
         calls c = [o]
         /\ out_method o = or_else (get (req_query req) "method") (str "GET")
         /\ out_target o
            = ToUrl (str (constructUrl (cdapConfig s) (str backendPath)
                            undefined))
         /\ out_headers o !! "authorization"
            = (if truthy authorization then Some authorization
               else if truthy cookie then Some (str (concat "Bearer " cookie))
               else None)
         /\ (forall k, k <> "authorization" ->
               out_headers o !! k
               = if truthy authorization
                    && is_str (get (cdapConfig s) AUTH_MODE) "PROXY"
                    && bool_decide (k = identity)
                 then Some (get (req_headers req) k)
                 else None)
         /\ (forall response, network o = Some response ->
               res_status (res c) = statusCode (content response)
               /\ res_body (res c) = Relayed (body (content response))).
Proof.
  intros modules platform s req backendPath.
  destruct (sample_built "production" (Sample.answering ∅)) as [app Happ].
  exists app. split; [exact Happ|]. split; [reflexivity|].
  apply (log_download_credentials Sample.noAuth Sample.proxyConfig
           Sample.noSettings app s 0%nat req backendPath).
  - exact Happ.
  - reflexivity.
  - reflexivity.
  - eexists. reflexivity.
  - reflexivity.
Defined.




Lemma entry_point_clears_the_bcookie_witness :
  let modules := Sample.imports in
  let platform := Sample.platform "production" Sample.offline in
  let s := Scenario.state in
  let req := Scenario.withCookies ["pipelines"; "ns"; "default"]
               {[ "bcookie" := str "v=2&c0ffee" ]} in
  exists app,
    makeApp Sample.noAuth Sample.proxyConfig Sample.noSettings = Some app
    /\ entry req
    /\ res_cookies (res (handle app s 0 req))
       = if truthy (get (req_cookies req) "bcookie")
         then [ mkCookie "bcookie" ""
                  (is_str (get Sample.proxyConfig "ssl.external.enabled") "true")
                  true "strict" (Some 0) ]
         else [].
Proof.
  intros modules platform s req.
  destruct (sample_built "production" Sample.offline) as [app Happ].
  assert (Hentry : entry req) by (split; [reflexivity | eexists; reflexivity]).
  exists app. split; [exact Happ|]. split; [exact Hentry|].
  apply (entry_point_clears_the_bcookie Sample.noAuth Sample.proxyConfig
           Sample.noSettings app s 0%nat req).
  - exact Happ.
  - exact Hentry.
Defined.


Lemma config_script_write_is_idempotent_witness :
  let modules := Sample.imports in
  let platform := Sample.platform "production" Sample.offline in
  let s := Scenario.state in
  let req := Sample.request "GET" ["config.js"] ∅ ∅ in
  exists app,
    makeApp Sample.noAuth Sample.proxyConfig Sample.noSettings = Some app
    /\ pathIs ["config.js"] req = true
    /\ exists c1 c2,
         serve app s 0 [req; req] = [c1; c2]
         /\ ui_ui (uiSettings (shared c1)) !! "externalLinks"
            = Some (get (cdapConfig s) "externalLinks")
         /\ (forall k, k <> "externalLinks" ->
               ui_ui (uiSettings (shared c1)) !! k = ui_ui (uiSettings s) !! k)
         /\ shared c2 = shared c1
         /\ res_body (res c2) = res_body (res c1).
Proof.
  intros modules platform s req.
  destruct (sample_built "production" Sample.offline) as [app Happ].
  assert (Hbody : is_Some (req_body req)) by (eexists; reflexivity).
  exists app. split; [exact Happ|]. split; [reflexivity|].
  apply (config_script_write_is_idempotent Sample.noAuth Sample.proxyConfig
           Sample.noSettings app s 0%nat req req).
  - exact Happ.
  - reflexivity.
  - reflexivity.
  - exact Hbody.
  - reflexivity.
  - reflexivity.
  - exact Hbody.
Defined.

Lemma only_the_forwarding_routes_call_out_witness :
  let modules := Sample.imports in
  let platform :=
    Sample.platform "production" (Sample.answering Sample.leaking) in
  let s := Scenario.state in
  let req := Sample.request "GET" ["sessionToken"] ∅ ∅ in
  exists app,
    makeApp Sample.noAuth Sample.proxyConfig Sample.noSettings = Some app
    /\ forwarding req = false
    /\ calls (handle app s 0 req) = [].
Proof.
  intros modules platform s req.
  destruct (sample_built "production" (Sample.answering Sample.leaking))
    as [app Happ].
  exists app. split; [exact Happ|]. split; [reflexivity|].
  apply (only_the_forwarding_routes_call_out Sample.noAuth Sample.proxyConfig
           Sample.noSettings app s 0%nat req).
  - exact Happ.
  - reflexivity.
Defined.

Lemma getApp_builds_on_the_given_configuration_witness :
  let modules := Sample.imports in
  let platform := Sample.platform "production" Sample.offline in
  let helpers := Scenario.helpers in
  exists app,
    getApp Sample.proxyConfig = Some app
    /\ exists authAddress uiSettings0,
         ping = Some authAddress
         /\ extractUISettings = Some uiSettings0
         /\ initial app
            = mkShared Sample.proxyConfig uiSettings0
                (default (JObject []) (extractUIThemeWrapper Sample.proxyConfig))
         /\ forall reqs,
              Forall (fun c => cdapConfig (shared c) = Sample.proxyConfig)
                (serve app (initial app) 0 reqs).
Proof.
  intros modules platform helpers.
  destruct (sample_built "production" Sample.offline) as [app Happ].
  exists app. split; [exact Happ|].
  apply (getApp_builds_on_the_given_configuration Sample.proxyConfig app).
  exact Happ.
Defined.


